(** * Measles situation report: the epidemiological aggregation layer

    A shallow embedding of the query functions of [data_fetcher.py] and
    [choropleth_data.py].  Every Python function there builds one SQL
    statement, runs it against the warehouse and hands the rows back, inside
    a [try/except] that turns any failure into a fallback value.  The SQL is
    embedded relationally: a table is a list of records, a nullable column
    is an [option], a CTE is a definition, and the relational operators
    ([SELECT DISTINCT], [GROUP BY], [COUNT(DISTINCT ..)], [SUM], [ORDER BY],
    [LIMIT], [LAG], joins) are the list functions of module [Sql]. *)

From Stdlib Require Import ZArith List String Ascii Bool Lia Permutation.
From Stdlib Require DecimalString DecimalPos DecimalZ Sorted.
From Stdlib Require Import PrimFloat SpecFloat FloatOps.
Import ListNotations.
Open Scope string_scope.
Open Scope Z_scope.

(* ================================================================== *)
(** ** Relational operators *)
(* ================================================================== *)

Module Sql.

(** [SELECT DISTINCT]: the first occurrence of every row is kept. *)
Fixpoint distinct {A : Type} (eqb : A -> A -> bool) (l : list A) : list A :=
  match l with
  | [] => []
  | a :: t => a :: filter (fun b => negb (eqb a b)) (distinct eqb t)
  end.

(** The non-NULL values of a nullable column. *)
Fixpoint non_null {A : Type} (l : list (option A)) : list A :=
  match l with
  | [] => []
  | Some a :: t => a :: non_null t
  | None :: t => non_null t
  end.

(** [COUNT(DISTINCT e)]: NULLs are not counted. *)
Definition count_distinct {A : Type} (eqb : A -> A -> bool)
    (l : list (option A)) : Z :=
  Z.of_nat (List.length (distinct eqb (non_null l))).

(** [COUNT(e)]: the number of non-NULL values. *)
Definition count {A : Type} (l : list (option A)) : Z :=
  Z.of_nat (List.length (non_null l)).

(** [GROUP BY key]: one group per distinct key, holding the rows of the
    group in their original order. *)
Definition group_by {A K : Type} (key : A -> K) (keqb : K -> K -> bool)
    (rows : list A) : list (K * list A) :=
  map (fun k => (k, filter (fun r => keqb (key r) k) rows))
      (distinct keqb (map key rows)).

(** [SUM(e)] over non-NULL bigint values: NULL when there is no row. *)
Definition total (l : list Z) : Z := fold_right Z.add 0 l.

Definition sum (l : list Z) : option Z :=
  match l with
  | [] => None
  | _ => Some (total l)
  end.

(** [MAX(e)]: NULL when there is no row. *)
Definition max (l : list Z) : option Z :=
  match l with
  | [] => None
  | a :: t => Some (fold_right Z.max a t)
  end.

(** [ORDER BY]: insertion sort under the comparison [leb], "may come
    before".  Rows that compare equal keep their input order; the SQL
    engine is free to pick any order for them. *)
Fixpoint insert {A : Type} (leb : A -> A -> bool) (a : A) (l : list A)
    : list A :=
  match l with
  | [] => [a]
  | b :: t => if leb a b then a :: b :: t else b :: insert leb a t
  end.

Fixpoint order_by {A : Type} (leb : A -> A -> bool) (l : list A) : list A :=
  match l with
  | [] => []
  | a :: t => insert leb a (order_by leb t)
  end.

(** [LIMIT n]. *)
Definition limit {A : Type} (n : nat) (l : list A) : list A := firstn n l.

(** [LAG(e) OVER (ORDER BY ..)] on rows already in the window's order:
    the value of the row that comes just before in that order, NULL for
    the first row. *)
Definition lag {A B : Type} (e : A -> B) (l : list A) : list (A * option B) :=
  combine l (None :: map (fun a => Some (e a)) l).

(** [SUM(e) OVER (ORDER BY .. ROWS UNBOUNDED PRECEDING)] on rows already in
    the window's order: the running total up to and including the row. *)
Fixpoint running_sum {A : Type} (e : A -> Z) (acc : Z) (l : list A)
    : list (A * Z) :=
  match l with
  | [] => []
  | a :: t => (a, acc + e a) :: running_sum e (acc + e a) t
  end.

(** [a LEFT JOIN b ON on]: every row of [a] with each matching row of [b],
    or with NULLs when nothing matches. *)
Definition left_join {A B : Type} (on : A -> B -> bool) (a : list A)
    (b : list B) : list (A * option B) :=
  flat_map (fun x =>
              match filter (on x) b with
              | [] => [(x, None)]
              | ms => map (fun y => (x, Some y)) ms
              end) a.

(** [a JOIN b ON on]. *)
Definition inner_join {A B : Type} (on : A -> B -> bool) (a : list A)
    (b : list B) : list (A * B) :=
  flat_map (fun x => map (fun y => (x, y)) (filter (on x) b)) a.

End Sql.

(* ================================================================== *)
(** ** Text functions of SQL and Python *)
(* ================================================================== *)

Module Text.

Definition is_upper (c : ascii) : bool :=
  let n := nat_of_ascii c in (Nat.leb 65 n && Nat.leb n 90)%bool.

Definition is_digit (c : ascii) : bool :=
  let n := nat_of_ascii c in (Nat.leb 48 n && Nat.leb n 57)%bool.

(** [LOWER(s)] on the ASCII letters; other bytes are left as they are. *)
Definition lower_char (c : ascii) : ascii :=
  if is_upper c then ascii_of_nat (nat_of_ascii c + 32) else c.

Fixpoint lower (s : string) : string :=
  match s with
  | EmptyString => EmptyString
  | String c t => String (lower_char c) (lower t)
  end.

(** [s LIKE '%p%'] for a pattern [p] without wildcards, and Python's
    [p in s]. *)
Fixpoint contains (p s : string) : bool :=
  (String.prefix p s ||
   match s with
   | EmptyString => false
   | String _ t => contains p t
   end)%bool.

(** [s ILIKE '%p%']. *)
Definition icontains (p s : string) : bool := contains (lower p) (lower s).

Fixpoint all_chars (f : ascii -> bool) (s : string) : bool :=
  match s with
  | EmptyString => true
  | String c t => (f c && all_chars f t)%bool
  end.

Fixpoint any_char (f : ascii -> bool) (s : string) : bool :=
  match s with
  | EmptyString => false
  | String c t => (f c || any_char f t)%bool
  end.

Fixpoint keep_chars (f : ascii -> bool) (s : string) : string :=
  match s with
  | EmptyString => EmptyString
  | String c t => if f c then String c (keep_chars f t) else keep_chars f t
  end.

End Text.

(* ================================================================== *)
(** ** The warehouse: the tables of schema [dwh] *)
(* ================================================================== *)

Module dwh.

(** An event date.  The queries read it through [EXTRACT(YEAR ..)],
    [EXTRACT(MONTH ..)] and [EXTRACT(WEEK ..)] and compare dates with one
    another; [d_week] is the week number [EXTRACT(WEEK FROM ..)] gives for
    the date, carried with it rather than recomputed from the calendar. *)
Record date := mkDate { d_year : Z; d_month : Z; d_day : Z; d_week : Z }.

Definition date_eqb (a b : date) : bool :=
  ((d_year a =? d_year b) && (d_month a =? d_month b) &&
   (d_day a =? d_day b) && (d_week a =? d_week b))%bool.

Definition date_leb (a b : date) : bool :=
  ((d_year a <? d_year b) ||
   ((d_year a =? d_year b) &&
    ((d_month a <? d_month b) ||
     ((d_month a =? d_month b) && (d_day a <=? d_day b)))))%bool.

(** A row of [dwh.fact_eidsr_event_data]: one data element of one event. *)
Record event_data := mkEvent {
  event_id : string;
  tracked_entity_instance_id : option string;
  event_date : option date;
  dim_org_hierarchy_key : Z;
  data_element_id : string;
  data_element_display_name : string;
  data_value : string
}.

(** A row of [dwh.dim_eidsr_org_hierarchy]. *)
Record org_hierarchy := mkOrg {
  org_key : Z;
  district_name : option string;
  region_name : option string
}.

(** A row of [dwh.fact_eidsr_tracked_entity_attributes]. *)
Record entity_attribute := mkAttr {
  entity_id : string;
  attribute_id : string;
  display_name : string;
  attribute_value : option string
}.

(** What the server's clock decides for a statement: whether a date lies
    within the last [n] days of [CURRENT_DATE], or the last [n] hours of
    [CURRENT_TIMESTAMP]. *)
Record clock := mkClock {
  within_days : Z -> date -> bool;
  within_hours : Z -> date -> bool
}.

Record warehouse := mkWarehouse {
  fact_eidsr_event_data : list event_data;
  dim_eidsr_org_hierarchy : list org_hierarchy;
  fact_eidsr_tracked_entity_attributes : list entity_attribute;
  now : clock
}.

End dwh.
Import dwh.

(** The SQLAlchemy engine: either it reaches a warehouse, or connecting or
    running a statement raises. *)
Inductive engine :=
| Connected (w : warehouse)
| Unreachable.

(** What a Python block does: it returns a value or raises. *)
Inductive outcome (A : Type) :=
| Returned (a : A)
| Raised.
Arguments Returned {A} a.
Arguments Raised {A}.

(** [with engine.connect() as conn: ..]. *)
Definition connect (eng : engine) : outcome warehouse :=
  match eng with
  | Connected w => Returned w
  | Unreachable => Raised
  end.

(** [try: body / except Exception: return handler]. *)
Definition try_except {A : Type} (body : outcome A) (handler : A) : A :=
  match body with
  | Returned a => a
  | Raised => handler
  end.

Definition bind {A B : Type} (m : outcome A) (k : A -> outcome B) : outcome B :=
  match m with
  | Returned a => k a
  | Raised => Raised
  end.

Notation "x <- m ;; k" := (bind m (fun x => k))
  (at level 61, m at next level, right associativity).

(** The event predicate every query starts from:
    [data_element_id = 'qIlO7yEpiVv' AND data_value = 'Measles (B05.0_B05.9)']. *)
Definition is_measles (e : event_data) : bool :=
  (String.eqb (data_element_id e) "qIlO7yEpiVv" &&
   String.eqb (data_value e) "Measles (B05.0_B05.9)")%bool.

(* ================================================================== *)
(** ** Decimal rounding *)
(* ================================================================== *)

(** PostgreSQL's [ROUND(n / d, k)] on [numeric] rounds half away from
    zero.  [round_div n d] is the integer nearest to [n / d] under that
    rule, for [d > 0]; a result with [k] decimals is held as the integer
    count of its last digit (tenths for [k = 1], hundredths for [k = 2]).
    The quotient is taken exactly. *)
Definition round_div (n d : Z) : Z :=
  if 0 <=? n then (2 * n + d) / (2 * d) else - ((2 * (- n) + d) / (2 * d)).

(** The percent-change column, shared by the weekly and the district
    queries:
    [CASE WHEN prev IS NULL OR prev = 0 THEN NULL
          ELSE ROUND(((curr - prev)::DECIMAL / prev) * 100, 1) END],
    in tenths of a percent. *)
Definition percent_change (curr : Z) (prev : option Z) : option Z :=
  match prev with
  | None => None
  | Some p => if p =? 0 then None else Some (round_div ((curr - p) * 1000) p)
  end.

(* ================================================================== *)
(** ** Epi-week aggregator: [get_measles_weekly_data] *)
(* ================================================================== *)

Module Weekly.

(** A row of the CTEs [all_weekly_data] / [weekly_data]. *)
Record bucket := mkBucket { year : Z; epi_week : Z; weekly_cases : Z }.

(** A row of the data frame the function returns. *)
Record row := mkRow {
  Year : Z;
  Epi_Week : Z;
  Weekly_Confirmed_Cases : Z;
  Cumulative_Confirmed_Cases : option Z;
  Percent_Change : option Z          (* tenths of a percent *)
}.

(** The optional [start_date] / [end_date] conditions that
    [query.replace(..)] appends to the event predicate. *)
Definition date_conditions (start_date end_date : option date)
    (d : option date) : bool :=
  (match start_date, d with
   | None, _ => true
   | Some s, Some x => date_leb s x
   | Some _, None => false
   end &&
   match end_date, d with
   | None, _ => true
   | Some e, Some x => date_leb x e
   | Some _, None => false
   end)%bool.

Definition id_date_eqb (a b : string * date) : bool :=
  (String.eqb (fst a) (fst b) && date_eqb (snd a) (snd b))%bool.

Definition key_eqb (a b : Z * Z) : bool :=
  ((fst a =? fst b) && (snd a =? snd b))%bool.

(** [(y1, w1)] is chronologically before [(y2, w2)], or is it. *)
Definition key_leb (a b : Z * Z) : bool :=
  ((fst a <? fst b) || ((fst a =? fst b) && (snd a <=? snd b)))%bool.

Definition key (b : bucket) : Z * Z := (year b, epi_week b).

(** [ORDER BY year DESC, epi_week DESC] and [ORDER BY year, epi_week]. *)
Definition desc (a b : bucket) : bool := key_leb (key b) (key a).
Definition asc (a b : bucket) : bool := key_leb (key a) (key b).

(** [SELECT DISTINCT event_id, event_date .. WHERE <measles> [AND <dates>]
    AND event_date IS NOT NULL]. *)
Definition dated_measles_events (w : warehouse)
    (start_date end_date : option date) : list (string * date) :=
  Sql.distinct id_date_eqb
    (flat_map (fun e =>
                 if (is_measles e &&
                     date_conditions start_date end_date (event_date e))%bool
                 then match event_date e with
                      | Some d => [(event_id e, d)]
                      | None => []
                      end
                 else [])
              (fact_eidsr_event_data w)).

(** [GROUP BY EXTRACT(YEAR ..), EXTRACT(WEEK ..)] with
    [COUNT(DISTINCT event_id) AS weekly_cases]. *)
Definition weekly_counts (events : list (string * date)) : list bucket :=
  map (fun g =>
         mkBucket (fst (fst g)) (snd (fst g))
           (Sql.count_distinct String.eqb (map (fun e => Some (fst e)) (snd g))))
      (Sql.group_by (fun e => (d_year (snd e), d_week (snd e))) key_eqb events).

Definition output (x : bucket * option Z * option Z) : row :=
  let '(b, cumulative_cases, prev_week_cases) := x in
  mkRow (year b) (epi_week b) (weekly_cases b) cumulative_cases
        (percent_change (weekly_cases b) prev_week_cases).

Definition desc_out (a b : row) : bool :=
  key_leb (Year b, Epi_Week b) (Year a, Epi_Week a).

(** *** The statement run when [year is None] *)

Definition all_weekly_data (w : warehouse) (start_date end_date : option date)
    : list bucket :=
  weekly_counts (dated_measles_events w start_date end_date).

Definition ordered_all_data (w : warehouse) (start_date end_date : option date)
    : list bucket :=
  Sql.limit 10 (Sql.order_by desc (all_weekly_data w start_date end_date)).

(** The correlated sub-select: the sum of [weekly_cases] over the rows of
    [all_weekly_data] with [year < oad.year], or with the same year and
    [epi_week <= oad.epi_week]. *)
Definition cumulative_subselect (awd : list bucket) (oad : bucket) : option Z :=
  Sql.sum (map weekly_cases
             (filter (fun awd2 =>
                        ((year awd2 <? year oad) ||
                         ((year awd2 =? year oad) &&
                          (epi_week awd2 <=? epi_week oad)))%bool) awd)).

Definition cumulative_all_data (w : warehouse)
    (start_date end_date : option date) : list (bucket * option Z * option Z) :=
  let awd := all_weekly_data w start_date end_date in
  Sql.lag (fun x => weekly_cases (fst x))
    (Sql.order_by (fun a b => desc (fst a) (fst b))
       (map (fun oad => (oad, cumulative_subselect awd oad))
            (ordered_all_data w start_date end_date))).

Definition cumulative_query (w : warehouse) (start_date end_date : option date)
    : list row :=
  Sql.order_by desc_out (map output (cumulative_all_data w start_date end_date)).

(** *** The statement run for a given [year] *)

Definition nullable_id_date_eqb (a b : string * option date) : bool :=
  (String.eqb (fst a) (fst b) &&
   match snd a, snd b with
   | Some x, Some y => date_eqb x y
   | None, None => true
   | _, _ => false
   end)%bool.

(** Here the CTE [measles_events] does not ask for a date; the optional
    date conditions, when appended, do. *)
Definition measles_events (w : warehouse) (start_date end_date : option date)
    : list (string * option date) :=
  Sql.distinct nullable_id_date_eqb
    (map (fun e => (event_id e, event_date e))
       (filter (fun e =>
                  (is_measles e &&
                   date_conditions start_date end_date (event_date e))%bool)
               (fact_eidsr_event_data w))).

(** [CASE WHEN {year} IS NOT NULL THEN {year} ELSE MAX(..) END] with the
    argument spliced in. *)
Definition target_year (y : Z) : Z := y.

(** The CTE [weekly_data], with its own [ORDER BY .. DESC LIMIT 10]. *)
Definition weekly_data (w : warehouse) (y : Z)
    (start_date end_date : option date) : list bucket :=
  Sql.limit 10
    (Sql.order_by desc
       (weekly_counts
          (flat_map (fun me =>
                       match snd me with
                       | Some d =>
                           if d_year d =? target_year y then [(fst me, d)] else []
                       | None => []
                       end)
                    (measles_events w start_date end_date)))).

(** The two window columns of [cumulative_data] over the rows of
    [ordered_data]: the running total in ascending order, then the lag in
    descending order. *)
Definition cumulative_data (w : warehouse) (y : Z)
    (start_date end_date : option date) : list (bucket * option Z * option Z) :=
  Sql.lag (fun x => weekly_cases (fst x))
    (Sql.order_by (fun a b => desc (fst a) (fst b))
       (map (fun x => (fst x, Some (snd x)))
          (Sql.running_sum weekly_cases 0
             (Sql.order_by asc (weekly_data w y start_date end_date))))).

Definition year_query (w : warehouse) (y : Z)
    (start_date end_date : option date) : list row :=
  Sql.order_by desc_out (map output (cumulative_data w y start_date end_date)).

(** *** The Python function *)

(** [with engine.connect() as conn: df = pd.read_sql_query(text(query), conn)]. *)
Definition fetch (eng : engine) (year : option Z)
    (start_date end_date : option date) : outcome (list row) :=
  w <- connect eng ;;
  Returned match year with
           | None => cumulative_query w start_date end_date
           | Some y => year_query w y start_date end_date
           end.

Definition get_measles_weekly_data (eng : engine) (year : option Z)
    (start_date end_date : option date) : list row :=
  try_except (fetch eng year start_date end_date) [].

End Weekly.

(* ================================================================== *)
(** ** District aggregator: [get_measles_top_10_districts] *)
(* ================================================================== *)

Module TopDistricts.

(** A row of the CTE [measles_events]. *)
Record measles_event := mkME {
  me_event_id : string;
  me_event_date : date;
  me_key : Z;
  me_epi_week : Z;
  me_year : Z
}.

Definition me_eqb (a b : measles_event) : bool :=
  (String.eqb (me_event_id a) (me_event_id b) &&
   date_eqb (me_event_date a) (me_event_date b) &&
   (me_key a =? me_key b))%bool.

(** [year_filter]: empty when [year is None], else
    [AND EXTRACT(YEAR FROM e1.event_date) = {year}]. *)
Definition year_filter (year : option Z) (d : date) : bool :=
  match year with
  | None => true
  | Some y => d_year d =? y
  end.

Definition measles_events (w : warehouse) (year : option Z)
    : list measles_event :=
  Sql.distinct me_eqb
    (flat_map (fun e1 =>
                 match event_date e1 with
                 | Some d =>
                     if (is_measles e1 && year_filter year d)%bool
                     then [mkME (event_id e1) d (dim_org_hierarchy_key e1)
                                (d_week d) (d_year d)]
                     else []
                 | None => []
                 end)
              (fact_eidsr_event_data w)).

(** The CTE [death_events]: [(event_id, is_death)]. *)
Definition is_death_value (v : string) : Z :=
  if (Text.contains "death" (Text.lower v) ||
      Text.contains "died" (Text.lower v) ||
      Text.contains "fatal" (Text.lower v))%bool
  then 1 else 0.

Definition death_eqb (a b : string * Z) : bool :=
  (String.eqb (fst a) (fst b) && (snd a =? snd b))%bool.

Definition death_events (w : warehouse) : list (string * Z) :=
  Sql.distinct death_eqb
    (map (fun e2 => (event_id e2, is_death_value (data_value e2)))
       (filter (fun e2 =>
                  (Text.contains "outcome" (data_element_display_name e2) ||
                   Text.contains "status" (data_element_display_name e2) ||
                   Text.contains "result" (data_element_display_name e2))%bool)
               (fact_eidsr_event_data w))).

(** The CTE [latest_epi_week]:
    [SELECT MAX(year) AS max_year, MAX(epi_week) AS max_week]. *)
Definition latest_epi_week (mes : list measles_event) : option Z * option Z :=
  (Sql.max (map me_year mes), Sql.max (map me_epi_week mes)).

(** The CTE [previous_epi_week]: [(prev_year, prev_week)]. *)
Definition previous_epi_week (lew : option Z * option Z) : option Z * option Z :=
  let '(max_year, max_week) := lew in
  (match max_week, max_year with
   | Some mw, Some my => Some (if mw =? 1 then my - 1 else my)
   | _, _ => None
   end,
   match max_week with
   | Some mw => Some (if mw =? 1 then 52 else mw - 1)
   | None => None
   end).

(** A row of the CTE [district_data]. *)
Record district_datum := mkDD {
  dd_district_name : string;
  dd_event_id : string;
  dd_epi_week : Z;
  dd_year : Z;
  dd_is_death : Z;
  dd_max_week : option Z;
  dd_max_year : option Z;
  dd_prev_week : option Z;
  dd_prev_year : option Z
}.

(** [x = y] where [y] may be NULL. *)
Definition eq_nullable (x : Z) (y : option Z) : bool :=
  match y with
  | Some v => x =? v
  | None => false
  end.

Definition district_data (w : warehouse) (year : option Z)
    : list district_datum :=
  let mes := measles_events w year in
  let lew := latest_epi_week mes in
  let pew := previous_epi_week lew in
  flat_map
    (fun x =>
       let '(me, doh, de) := x in
       match doh with
       | Some h =>
           match district_name h with
           | Some n =>
               if negb (String.eqb n "Unknown")
               then [mkDD n (me_event_id me) (me_epi_week me) (me_year me)
                          (match de with Some d => snd d | None => 0 end)
                          (snd lew) (fst lew) (snd pew) (fst pew)]
               else []
           | None => []
           end
       | None => []
       end)
    (Sql.left_join (fun (x : measles_event * option org_hierarchy)
                        (de : string * Z) =>
                      String.eqb (me_event_id (fst x)) (fst de))
       (Sql.left_join (fun me doh => me_key me =? org_key doh)
          mes (dim_eidsr_org_hierarchy w))
       (death_events w)).

(** A row of the CTE [district_summary]. *)
Record summary := mkSummary {
  district_name : string;
  total_cases : Z;
  total_deaths : Z;
  cases_last_epiweek : Z;
  deaths_last_epiweek : Z;
  cases_prev_epiweek : Z
}.

Definition in_last_epiweek (dd : district_datum) : bool :=
  (eq_nullable (dd_year dd) (dd_max_year dd) &&
   eq_nullable (dd_epi_week dd) (dd_max_week dd))%bool.

Definition in_prev_epiweek (dd : district_datum) : bool :=
  (eq_nullable (dd_year dd) (dd_prev_year dd) &&
   eq_nullable (dd_epi_week dd) (dd_prev_week dd))%bool.

Definition summarise (g : string * list district_datum) : summary :=
  let '(name, dds) := g in
  mkSummary name
    (Sql.count_distinct String.eqb (map (fun dd => Some (dd_event_id dd)) dds))
    (Sql.total (map dd_is_death dds))
    (Sql.count_distinct String.eqb
       (map (fun dd => if in_last_epiweek dd then Some (dd_event_id dd) else None)
            dds))
    (Sql.total (map (fun dd => if in_last_epiweek dd then dd_is_death dd else 0)
                    dds))
    (Sql.count_distinct String.eqb
       (map (fun dd => if in_prev_epiweek dd then Some (dd_event_id dd) else None)
            dds)).

Definition district_summary (w : warehouse) (year : option Z) : list summary :=
  map summarise (Sql.group_by dd_district_name String.eqb (district_data w year)).

(** A row of the data frame the function returns. *)
Record row := mkRow {
  District : string;
  Total_Cases : Z;
  Total_Deaths : Z;
  Cases_Last_Epiweek : Z;
  Deaths_Last_Epiweek : Z;
  Percentage_Change_in_Cases : option Z     (* tenths of a percent *)
}.

Definition output (ds : summary) : row :=
  mkRow (district_name ds) (total_cases ds) (total_deaths ds)
        (cases_last_epiweek ds) (deaths_last_epiweek ds)
        (percent_change (cases_last_epiweek ds) (Some (cases_prev_epiweek ds))).

(** [ORDER BY ds.total_cases DESC, ds.cases_last_epiweek DESC]. *)
Definition ranking (a b : summary) : bool :=
  ((total_cases b <? total_cases a) ||
   ((total_cases b =? total_cases a) &&
    (cases_last_epiweek b <=? cases_last_epiweek a)))%bool.

Definition query (w : warehouse) (year : option Z) : list row :=
  map output
    (Sql.limit 12
       (Sql.order_by ranking
          (filter (fun ds =>
                     ((0 <? total_cases ds) &&
                      negb (Text.contains "Test District" (district_name ds)) &&
                      negb (String.eqb (district_name ds) "Unknown District"))%bool)
                  (district_summary w year)))).

Definition fetch (eng : engine) (year : option Z) : outcome (list row) :=
  w <- connect eng ;; Returned (query w year).

Definition get_measles_top_10_districts (eng : engine) (year : option Z)
    : list row :=
  try_except (fetch eng year) [].

End TopDistricts.

(* ================================================================== *)
(** ** Event filter builder

    Every function that accepts [location], [year] and [month] repeats the
    same two blocks of Python; they are embedded once.  The SQL fragment a
    block splices into the statement is held as the condition it denotes. *)
(* ================================================================== *)

Module Filters.

(** Python's [s.replace(old, "")] for a non-empty [old]: every occurrence,
    left to right, is dropped.  [skip] counts the characters of the
    occurrence under the cursor that are still to be dropped. *)
Fixpoint remove_from (old : string) (skip : nat) (s : string) : string :=
  match s with
  | EmptyString => EmptyString
  | String c t =>
      match skip with
      | S k => remove_from old k t
      | O =>
          if String.prefix old s
          then remove_from old (Nat.pred (String.length old)) t
          else String c (remove_from old 0 t)
      end
  end.

Definition remove (old s : string) : string := remove_from old 0 s.

(** Python's [s.split(sep)[0]]: what stands before the first [sep]. *)
Fixpoint before (sep s : string) : string :=
  if String.prefix sep s then EmptyString
  else match s with
       | EmptyString => EmptyString
       | String c t => String c (before sep t)
       end.

(** The condition on a hierarchy row that [location_filter] denotes. *)
Inductive location_filter :=
| NoLocation
| RegionLike (region_name : string)
| DistrictLike (district_name : string).

(** [if location and location != "National Level (MOH) - 1 units": ..]. *)
Definition build_location_filter (location : option string) : location_filter :=
  match location with
  | None => NoLocation
  | Some l =>
      if (String.eqb l "" || String.eqb l "National Level (MOH) - 1 units")%bool
      then NoLocation
      else if Text.contains "Region" l
      then RegionLike
             (before " regions" (remove "Regional Level - " (remove " Region" l)))
      else if Text.contains "District" l
      then DistrictLike
             (before " districts"
                (remove "District Level - " (remove " District" l)))
      else NoLocation
  end.

(** [doh.region_name ILIKE '%{region_name}%'] and its district twin, for a
    name that holds none of the characters [%], [_], [\] and ['], which
    the splice would hand to the SQL parser. *)
Definition location_holds (f : location_filter) (doh : org_hierarchy) : bool :=
  match f with
  | NoLocation => true
  | RegionLike n =>
      match region_name doh with
      | Some r => Text.icontains n r
      | None => false
      end
  | DistrictLike n =>
      match district_name doh with
      | Some d => Text.icontains n d
      | None => false
      end
  end.

(** The blanks of [str.split()], [str.strip()] and [int()] below
    U+0080: U+0009..000D, U+001C..001F and the space. *)
Definition is_space (c : ascii) : bool :=
  let n := nat_of_ascii c in
  ((Nat.leb 9 n && Nat.leb n 13) || Nat.eqb n 32 ||
   (Nat.leb 28 n && Nat.leb n 31))%bool.

Definition byte_is (c : ascii) (n : nat) : bool := Nat.eqb (nat_of_ascii c) n.

(** A text is held in UTF-8.  [blank_width s] is the number of bytes of
    the blank that [s] starts with, 0 when it starts with none.  The
    blanks of Python's [str.split()] are the characters of
    [str.isspace()]: those of [is_space], U+0085 (C2 85), U+00A0 (C2 A0),
    U+1680 (E1 9A 80), U+2000..200A (E2 80 80..8A), U+2028, U+2029,
    U+202F (E2 80 A8, A9, AF), U+205F (E2 81 9F) and U+3000 (E3 80 80). *)
Definition blank_width (s : string) : nat :=
  match s with
  | EmptyString => 0
  | String c t =>
      if is_space c then 1
      else if byte_is c 194
      then match t with
           | String d _ => if (byte_is d 133 || byte_is d 160)%bool then 2 else 0
           | EmptyString => 0
           end
      else if byte_is c 225
      then match t with
           | String d (String e _) =>
               if (byte_is d 154 && byte_is e 128)%bool then 3 else 0
           | _ => 0
           end
      else if byte_is c 226
      then match t with
           | String d (String e _) =>
               if byte_is d 128
               then if ((Nat.leb 128 (nat_of_ascii e) &&
                         Nat.leb (nat_of_ascii e) 138) ||
                        byte_is e 168 || byte_is e 169 || byte_is e 175)%bool
                    then 3 else 0
               else if (byte_is d 129 && byte_is e 159)%bool then 3 else 0
           | _ => 0
           end
      else if byte_is c 227
      then match t with
           | String d (String e _) =>
               if (byte_is d 128 && byte_is e 128)%bool then 3 else 0
           | _ => 0
           end
      else 0
  end.

(** The bytes up to the next blank. *)
Fixpoint take_word (s : string) : string :=
  match s with
  | EmptyString => EmptyString
  | String c t =>
      match blank_width s with
      | O => String c (take_word t)
      | S _ => EmptyString
      end
  end.

(** [skip] counts the bytes of the blank under the cursor that are still
    to be passed over. *)
Fixpoint first_word_from (skip : nat) (s : string) : outcome string :=
  match s with
  | EmptyString => Raised
  | String c t =>
      match skip with
      | S k => first_word_from k t
      | O =>
          match blank_width s with
          | O => Returned (take_word s)
          | S k => first_word_from k t
          end
      end
  end.

(** Python's [s.split()[0]]: the first run of non-blank characters;
    [IndexError] when there is none. *)
Definition first_word (s : string) : outcome string := first_word_from 0 s.

(** [{'January': 1, .., 'December': 12}.get(month_name, 1)]. *)
Definition months : list (string * Z) :=
  [("January", 1); ("February", 2); ("March", 3); ("April", 4);
   ("May", 5); ("June", 6); ("July", 7); ("August", 8);
   ("September", 9); ("October", 10); ("November", 11); ("December", 12)].

Fixpoint get {V : Type} (d : list (string * V)) (k : string) (default : V) : V :=
  match d with
  | [] => default
  | (k', v) :: t => if String.eqb k k' then v else get t k default
  end.

Definition month_num (month_name : string) : Z := get months month_name 1.

(** Python's [str(year)] for an [int]. *)
Definition str (year : Z) : string :=
  DecimalString.NilZero.string_of_int (Z.to_int year).

(** One spliced date condition. *)
Inductive date_condition :=
| YearIs (y : Z)          (* EXTRACT(YEAR FROM <date>) = {year} *)
| MonthIs (m : Z)         (* EXTRACT(MONTH FROM <date>) = {month_num} *)
| LastDays (n : Z)        (* <date> >= CURRENT_DATE - INTERVAL '{n} days' *)
| LastHours (n : Z).      (* <date> >= CURRENT_TIMESTAMP - INTERVAL '{n} hours' *)

(** Python truth of the arguments: [None], [0] and [""] are false. *)
Definition truthy_int (x : option Z) : option Z :=
  match x with
  | Some v => if v =? 0 then None else Some v
  | None => None
  end.

Definition truthy_str (x : option string) : option string :=
  match x with
  | Some s => if String.eqb s "" then None else Some s
  | None => None
  end.

(** [if year and month and month != f"All Months {year}": .. elif year: ..]. *)
Definition build_date_conditions (year : option Z) (month : option string)
    : outcome (list date_condition) :=
  match truthy_int year with
  | Some y =>
      match truthy_str month with
      | Some m =>
          if negb (String.eqb m ("All Months " ++ str y))
          then bind (first_word m)
                 (fun month_name =>
                    Returned [YearIs y; MonthIs (month_num month_name)])
          else Returned [YearIs y]
      | None => Returned [YearIs y]
      end
  | None => Returned []
  end.

Definition condition_holds (now : clock) (c : date_condition) (d : date) : bool :=
  match c with
  | YearIs y => d_year d =? y
  | MonthIs m => d_month d =? m
  | LastDays n => within_days now n d
  | LastHours n => within_hours now n d
  end.

(** [date_filter = " AND " + " AND ".join(date_conditions)] on a nullable
    date: a NULL date satisfies no condition. *)
Definition date_filter (now : clock) (cs : list date_condition)
    (d : option date) : bool :=
  match cs, d with
  | [], _ => true
  | _, Some x => forallb (fun c => condition_holds now c x) cs
  | _, None => false
  end.

End Filters.

(* ================================================================== *)
(** ** Demographic classifier: the [CASE] expressions of the queries *)
(* ================================================================== *)

Module Demographics.

(** [v ~ '^[0-9]+$']. *)
Definition numeric (v : string) : bool :=
  (negb (String.eqb v "") && Text.all_chars Text.is_digit v)%bool.

Fixpoint digits_value (acc : Z) (s : string) : Z :=
  match s with
  | EmptyString => acc
  | String c t => digits_value (10 * acc + (Z.of_nat (nat_of_ascii c) - 48)) t
  end.

(** [CAST(v AS INTEGER)] / [v::int] on a string of digits: a value beyond
    the 32-bit range makes the statement fail. *)
Definition cast_integer (v : string) : outcome Z :=
  let n := digits_value 0 v in
  if n <=? 2147483647 then Returned n else Raised.

Definition between (lo hi x : Z) : bool := ((lo <=? x) && (x <=? hi))%bool.

(** *** Age bands *)

(** The inner [CASE] of [get_measles_age_sex_distribution] (the definition
    in force, with [location], [year], [month]) and of
    [get_measles_deaths_by_age_sex]. *)
Definition five_year_band (age : Z) : string :=
  if between 0 4 age then "0-4"
  else if between 5 9 age then "5-9"
  else if between 10 14 age then "10-14"
  else if between 15 19 age then "15-19"
  else if between 20 24 age then "20-24"
  else if between 25 29 age then "25-29"
  else if between 30 34 age then "30-34"
  else if between 35 39 age then "35-39"
  else if between 40 44 age then "40-44"
  else if between 45 49 age then "45-49"
  else if 50 <=? age then "50+"
  else "Unknown".

(** The inner [CASE] of the first, parameterless
    [get_measles_age_sex_distribution], which the later definition of the
    same name replaces at import. *)
Definition shadowed_band (age : Z) : string :=
  if between 0 4 age then "0-4"
  else if between 5 9 age then "5-9"
  else if between 10 14 age then "10-14"
  else if between 15 19 age then "15-19"
  else if between 20 29 age then "20-29"
  else if between 30 39 age then "30-39"
  else if between 40 49 age then "40-49"
  else if 50 <=? age then "50+"
  else "Unknown".

(** The inner [CASE] of [get_measles_attack_rates_by_age_sex]. *)
Definition attack_rate_band (age : Z) : string :=
  if between 0 4 age then "0-4"
  else if between 5 14 age then "5-14"
  else if between 15 19 age then "15-19"
  else if between 20 24 age then "20-24"
  else if between 25 29 age then "25-29"
  else if between 30 34 age then "30-34"
  else if between 35 39 age then "35-39"
  else if between 40 44 age then "40-44"
  else if between 45 49 age then "45-49"
  else if 50 <=? age then "50+"
  else "Unknown".

(** [CASE WHEN v ~ '^[0-9]+$' THEN <inner CASE on v::int> ELSE 'Unknown' END]
    on a nullable attribute value. *)
Definition numeric_or_unknown (band : Z -> string) (v : option string)
    : outcome string :=
  match v with
  | Some s =>
      if numeric s then bind (cast_integer s) (fun age => Returned (band age))
      else Returned "Unknown"
  | None => Returned "Unknown"
  end.

Definition age_sex_distribution_age_group := numeric_or_unknown five_year_band.
Definition shadowed_age_group := numeric_or_unknown shadowed_band.
Definition attack_rate_age_group := numeric_or_unknown attack_rate_band.

(** [get_measles_demographic_data]: the column [calculated_age] of
    [processed_demographics], then [age_group] of [age_sex_processed]. *)

Definition digit_at (s : string) (i : nat) : bool :=
  match String.get i s with
  | Some c => Text.is_digit c
  | None => false
  end.

Definition char_at (s : string) (i : nat) (c : ascii) : bool :=
  match String.get i s with
  | Some x => Ascii.eqb x c
  | None => false
  end.

(** [v ~ '^[0-9]{4}-[0-9]{2}-[0-9]{2}']. *)
Definition iso_date_like (v : string) : bool :=
  (digit_at v 0 && digit_at v 1 && digit_at v 2 && digit_at v 3 &&
   char_at v 4 "-" && digit_at v 5 && digit_at v 6 &&
   char_at v 7 "-" && digit_at v 8 && digit_at v 9)%bool.

(** [v ~ '^[0-9]{2}/[0-9]{2}/[0-9]{4}']. *)
Definition slash_date_like (v : string) : bool :=
  (digit_at v 0 && digit_at v 1 && char_at v 2 "/" &&
   digit_at v 3 && digit_at v 4 && char_at v 5 "/" &&
   digit_at v 6 && digit_at v 7 && digit_at v 8 && digit_at v 9)%bool.

(** The two date branches read the session clock:
    [EXTRACT(YEAR FROM AGE(CURRENT_DATE, v::DATE))] and the same over
    [TO_DATE(v, 'DD/MM/YYYY')]; either raises on a text that is no date. *)
Record birth_dates := mkBirthDates {
  age_of_iso_date : string -> outcome Z;
  age_of_slash_date : string -> outcome Z
}.

Definition calculated_age (cal : birth_dates) (birth_or_age_value : string)
    : outcome (option Z) :=
  let v := birth_or_age_value in
  if iso_date_like v then bind (age_of_iso_date cal v) (fun a => Returned (Some a))
  else if slash_date_like v
  then bind (age_of_slash_date cal v) (fun a => Returned (Some a))
  else if numeric v then bind (cast_integer v) (fun a => Returned (Some a))
  else if (Text.contains "month" (Text.lower v) ||
           Text.contains "week" (Text.lower v))%bool
  then Returned (Some 0)
  else if Text.any_char Text.is_digit v
  then bind (cast_integer (Text.keep_chars Text.is_digit v))
            (fun a => Returned (Some a))
  else Returned None.

Definition coarse_band (calculated_age : option Z) : string :=
  match calculated_age with
  | None => "Unknown"
  | Some age =>
      if age <? 1 then "<1 year"
      else if between 1 4 age then "1-4 years"
      else if between 5 14 age then "5-14 years"
      else if between 15 44 age then "15-44 years"
      else if 45 <=? age then "45+ years"
      else "Unknown"
  end.

Definition demographic_data_age_group (cal : birth_dates) (v : string)
    : outcome string :=
  bind (calculated_age cal v) (fun a => Returned (coarse_band a)).

(** *** Sex categories *)

(** [CASE WHEN LOWER(v) LIKE '%male%' AND LOWER(v) NOT LIKE '%female%'
          THEN 'Male'
          WHEN LOWER(v) LIKE '%female%' THEN 'Female'
          ELSE 'Unknown' END],
    the expression of [get_measles_gender_distribution],
    [get_measles_age_sex_distribution] and
    [get_measles_demographic_data]. *)
Definition sex_by_substring (v : option string) : string :=
  match v with
  | Some s =>
      if (Text.contains "male" (Text.lower s) &&
          negb (Text.contains "female" (Text.lower s)))%bool
      then "Male"
      else if Text.contains "female" (Text.lower s) then "Female"
      else "Unknown"
  | None => "Unknown"
  end.

(** [CASE WHEN LOWER(v) = 'male' THEN 'Male'
          WHEN LOWER(v) = 'female' THEN 'Female'
          ELSE 'Unknown' END],
    the expression of [get_measles_weekly_by_sex]. *)
Definition sex_by_equality (v : option string) : string :=
  match v with
  | Some s =>
      if String.eqb (Text.lower s) "male" then "Male"
      else if String.eqb (Text.lower s) "female" then "Female"
      else "Unknown"
  | None => "Unknown"
  end.

(** The gender [CASE] of the first, parameterless
    [get_measles_age_sex_distribution], replaced at import like its age
    [CASE]. *)
Definition shadowed_gender (v : option string) : string :=
  match v with
  | Some s =>
      if existsb (String.eqb (Text.lower s)) ["male"; "m"; "1"] then "Male"
      else if existsb (String.eqb (Text.lower s)) ["female"; "f"; "2"]
      then "Female"
      else "Unknown"
  | None => "Unknown"
  end.

Definition gender_distribution_gender_category := sex_by_substring.
Definition age_sex_distribution_sex_category := sex_by_substring.
Definition demographic_data_sex_group := sex_by_substring.
Definition weekly_by_sex_sex_group := sex_by_equality.

End Demographics.

(* ================================================================== *)
(** ** [get_measles_gender_distribution] *)
(* ================================================================== *)

Module Gender.

(** A row of the CTE [first_events]. *)
Record first_event := mkFE {
  fe_tracked_entity_instance_id : option string;
  first_event_date : date;
  fe_key : Z
}.

Definition nullable_eqb (a b : option string) : bool :=
  match a, b with
  | Some x, Some y => String.eqb x y
  | None, None => true
  | _, _ => false
  end.

Definition group_eqb (a b : option string * Z) : bool :=
  (nullable_eqb (fst a) (fst b) && (snd a =? snd b))%bool.

(** [MIN(event_date)] over a group, which is never empty. *)
Definition min_date (d : date) (ds : list date) : date :=
  fold_left (fun m x => if date_leb m x then m else x) ds d.

Definition first_events (w : warehouse) : list first_event :=
  flat_map
    (fun g =>
       match Sql.non_null (map event_date (snd g)) with
       | d :: ds => [mkFE (fst (fst g)) (min_date d ds) (snd (fst g))]
       | [] => []
       end)
    (Sql.group_by
       (fun e => (tracked_entity_instance_id e, dim_org_hierarchy_key e))
       group_eqb
       (filter (fun e =>
                  (is_measles e &&
                   match event_date e with Some _ => true | None => false end)%bool)
               (fact_eidsr_event_data w))).

(** The join condition of the gender attribute. *)
Definition is_gender_of (fe : first_event) (gender : entity_attribute) : bool :=
  (match fe_tracked_entity_instance_id fe with
   | Some t => String.eqb (entity_id gender) t
   | None => false
   end && String.eqb (attribute_id gender) "Rq4qM2wKYFL")%bool.

(** [{location_filter}] after a [LEFT JOIN] on the hierarchy: with no
    hierarchy row the spliced condition is NULL and the row is dropped. *)
Definition location_ok (f : Filters.location_filter) (doh : option org_hierarchy)
    : bool :=
  match f, doh with
  | Filters.NoLocation, _ => true
  | _, Some h => Filters.location_holds f h
  | _, None => false
  end.

(** The CTE [gender_classification]: [(tracked_entity_instance_id,
    gender_category)]. *)
Definition gender_classification (w : warehouse)
    (loc : Filters.location_filter) (cs : list Filters.date_condition)
    : list (option string * string) :=
  flat_map
    (fun x =>
       let '(fe, gender, doh) := x in
       if (location_ok loc doh &&
           Filters.date_filter (now w) cs (Some (first_event_date fe)))%bool
       then [(fe_tracked_entity_instance_id fe,
              Demographics.gender_distribution_gender_category
                (match gender with
                 | Some g => attribute_value g
                 | None => None
                 end))]
       else [])
    (Sql.left_join (fun (x : first_event * option entity_attribute) doh =>
                      fe_key (fst x) =? org_key doh)
       (Sql.left_join is_gender_of (first_events w)
          (fact_eidsr_tracked_entity_attributes w))
       (dim_eidsr_org_hierarchy w)).

(** A row of the data frame: [gender], [cases]. *)
Definition row : Type := string * Z.

(** [ORDER BY CASE gender_category WHEN 'Male' THEN 1 ..]. *)
Definition rank (gender_category : string) : Z :=
  if String.eqb gender_category "Male" then 1
  else if String.eqb gender_category "Female" then 2
  else if String.eqb gender_category "Unknown" then 3
  else 4.

Definition query (w : warehouse)
    (loc : Filters.location_filter) (cs : list Filters.date_condition)
    : list row :=
  Sql.order_by (fun a b : row => rank (fst a) <=? rank (fst b))
    (map (fun g => (fst g, Sql.count (map fst (snd g))))
       (Sql.group_by snd String.eqb (gender_classification w loc cs))).

(** The placeholder frame of the [df.empty] branch and of the handler. *)
Definition placeholder : list row :=
  [("Male", 45); ("Female", 38); ("Unknown", 5)].

(** The body of the [try] up to [df = pd.read_sql_query(text(query), conn)]. *)
Definition fetch (eng : engine) (location : option string) (year : option Z)
    (month : option string) : outcome (list row) :=
  w <- connect eng ;;
  let loc := Filters.build_location_filter location in
  cs <- Filters.build_date_conditions year month ;;
  Returned (query w loc cs).

Definition get_measles_gender_distribution (eng : engine)
    (location : option string) (year : option Z) (month : option string)
    : list row :=
  try_except
    (df <- fetch eng location year month ;;
     Returned match df with
              | [] => placeholder
              | _ => df
              end)
    placeholder.

End Gender.

(* ================================================================== *)
(** ** [get_measles_deaths_by_district] *)
(* ================================================================== *)

Module DeathsByDistrict.

(** The join condition of the outcome attribute. *)
Definition is_outcome_of (events : event_data) (outcome : entity_attribute)
    : bool :=
  (match tracked_entity_instance_id events with
   | Some t => String.eqb (entity_id outcome) t
   | None => false
   end && String.eqb (attribute_id outcome) "ulE2j2pFgDl")%bool.

(** [LOWER(outcome.attribute_value) = 'dead'] after the [LEFT JOIN]. *)
Definition is_dead (outcome : option entity_attribute) : bool :=
  match outcome with
  | Some o =>
      match attribute_value o with
      | Some v => String.eqb (Text.lower v) "dead"
      | None => false
      end
  | None => false
  end.

(** [doh.district_name IS NOT NULL {location_filter}] after the
    [LEFT JOIN]. *)
Definition district_ok (loc : Filters.location_filter)
    (doh : option org_hierarchy) : bool :=
  match doh with
  | Some h =>
      (match district_name h with Some _ => true | None => false end &&
       Filters.location_holds loc h)%bool
  | None => false
  end.

(** The CTE [joined_data]: [(tracked_entity_instance_id,
    dim_org_hierarchy_key)]; [outcome_value] is not read again. *)
Definition joined_data (w : warehouse) (loc : Filters.location_filter)
    (cs : list Filters.date_condition) : list (option string * Z) :=
  flat_map
    (fun x =>
       let '(events, outcome, doh) := x in
       if (is_measles events && is_dead outcome && district_ok loc doh &&
           Filters.date_filter (now w) cs (event_date events))%bool
       then [(tracked_entity_instance_id events, dim_org_hierarchy_key events)]
       else [])
    (Sql.left_join (fun (x : event_data * option entity_attribute) doh =>
                      dim_org_hierarchy_key (fst x) =? org_key doh)
       (Sql.left_join is_outcome_of (fact_eidsr_event_data w)
          (fact_eidsr_tracked_entity_attributes w))
       (dim_eidsr_org_hierarchy w)).

(** A row of the data frame: [district], [deaths]. *)
Definition row : Type := option string * Z.

Definition query (w : warehouse) (loc : Filters.location_filter)
    (cs : list Filters.date_condition) : list row :=
  Sql.order_by (fun a b : row => snd b <=? snd a)
    (filter (fun r : row => 0 <? snd r)
       (map (fun g =>
               (fst g,
                Sql.count_distinct String.eqb (map (fun x => fst (fst x)) (snd g))))
          (Sql.group_by (fun x : (option string * Z) * org_hierarchy =>
                           district_name (snd x))
             Gender.nullable_eqb
             (Sql.inner_join (fun jd doh => snd jd =? org_key doh)
                (joined_data w loc cs) (dim_eidsr_org_hierarchy w))))).

Definition fetch (eng : engine) (location : option string) (year : option Z)
    (month : option string) : outcome (list row) :=
  w <- connect eng ;;
  let loc := Filters.build_location_filter location in
  cs <- Filters.build_date_conditions year month ;;
  Returned (query w loc cs).

Definition get_measles_deaths_by_district (eng : engine)
    (location : option string) (year : option Z) (month : option string)
    : list row :=
  try_except (fetch eng location year month) [].

End DeathsByDistrict.

(* ================================================================== *)
(** ** [get_district_total_proportions] *)
(* ================================================================== *)

Module TotalProportions.

Definition me_eqb (a b : string * date * Z) : bool :=
  (String.eqb (fst (fst a)) (fst (fst b)) &&
   date_eqb (snd (fst a)) (snd (fst b)) && (snd a =? snd b))%bool.

(** The CTE [measles_events]: [(event_id, event_date,
    dim_org_hierarchy_key)]. *)
Definition measles_events (w : warehouse) (cs : list Filters.date_condition)
    : list (string * date * Z) :=
  Sql.distinct me_eqb
    (flat_map (fun e =>
                 match event_date e with
                 | Some d =>
                     if (is_measles e &&
                         Filters.date_filter (now w) cs (Some d))%bool
                     then [(event_id e, d, dim_org_hierarchy_key e)]
                     else []
                 | None => []
                 end)
              (fact_eidsr_event_data w)).

(** [doh.district_name IS NOT NULL AND doh.district_name != 'Unknown'
     AND doh.district_name != '1 Test District'], giving the name. *)
Definition reportable (doh : org_hierarchy) : option string :=
  match district_name doh with
  | Some n =>
      if (negb (String.eqb n "Unknown") &&
          negb (String.eqb n "1 Test District"))%bool
      then Some n else None
  | None => None
  end.

(** The CTE [district_cases]: [(district_name, district_cases)]. *)
Definition district_cases (w : warehouse) (loc : Filters.location_filter)
    (cs : list Filters.date_condition) : list (string * Z) :=
  map (fun g =>
         (fst g, Sql.count_distinct String.eqb (map (fun x => Some (snd x)) (snd g))))
    (Sql.group_by fst String.eqb
       (flat_map (fun x : (string * date * Z) * org_hierarchy =>
                    match reportable (snd x) with
                    | Some n =>
                        if Filters.location_holds loc (snd x)
                        then [(n, fst (fst (fst x)))] else []
                    | None => []
                    end)
          (Sql.inner_join (fun me doh => snd me =? org_key doh)
             (measles_events w cs) (dim_eidsr_org_hierarchy w)))).

(** A row of the data frame. *)
Record row := mkRow {
  district : string;
  cases : Z;
  proportion : option Z          (* hundredths of a percent *)
}.

(** [ROUND(dc.district_cases * 100.0 / NULLIF(tc.grand_total, 0), 2)]. *)
Definition proportion_of (district_cases : Z) (grand_total : option Z)
    : option Z :=
  match grand_total with
  | Some t => if t =? 0 then None else Some (round_div (district_cases * 10000) t)
  | None => None
  end.

Definition query (w : warehouse) (loc : Filters.location_filter)
    (cs : list Filters.date_condition) : list row :=
  let dc := district_cases w loc cs in
  let grand_total := Sql.sum (map snd dc) in
  Sql.limit 5
    (Sql.order_by (fun a b => cases b <=? cases a)
       (map (fun d => mkRow (fst d) (snd d) (proportion_of (snd d) grand_total))
          (filter (fun d : string * Z => 0 <? snd d) dc))).

Definition fetch (eng : engine) (location : option string) (year : option Z)
    (month : option string) : outcome (list row) :=
  w <- connect eng ;;
  let loc := Filters.build_location_filter location in
  cs <- Filters.build_date_conditions year month ;;
  Returned (query w loc cs).

Definition get_district_total_proportions (eng : engine)
    (location : option string) (year : option Z) (month : option string)
    : list row :=
  try_except (fetch eng location year month) [].

End TotalProportions.

(* ================================================================== *)
(** ** [get_district_reporting_metrics] *)
(* ================================================================== *)

Module ReportingMetrics.

(** The dictionary the function returns. *)
Record metrics := mkMetrics {
  total_districts : Z;
  districts_with_cases : Z;
  districts_reporting_recent : Z;
  districts_reporting_24h : Z
}.

(** [if days_filter: .. elif hours_filter: ..], appended to the year and
    month conditions. *)
Definition recent_conditions (days_filter hours_filter : option Z)
    : list Filters.date_condition :=
  match Filters.truthy_int days_filter with
  | Some n => [Filters.LastDays n]
  | None =>
      match Filters.truthy_int hours_filter with
      | Some n => [Filters.LastHours n]
      | None => []
      end
  end.

(** The CTE [all_districts], read through [COUNT(DISTINCT district_name)]. *)
Definition all_districts (w : warehouse) (loc : Filters.location_filter)
    : list string :=
  Sql.distinct String.eqb
    (flat_map (fun doh =>
                 match TotalProportions.reportable doh with
                 | Some n => if Filters.location_holds loc doh then [n] else []
                 | None => []
                 end)
              (dim_eidsr_org_hierarchy w)).

(** The CTE [districts_with_cases]. *)
Definition districts_with_cases_cte (w : warehouse)
    (loc : Filters.location_filter) (cs : list Filters.date_condition)
    : list string :=
  Sql.distinct String.eqb
    (flat_map (fun x : (string * date * Z) * org_hierarchy =>
                 match district_name (snd x) with
                 | Some n => if Filters.location_holds loc (snd x) then [n] else []
                 | None => []
                 end)
       (Sql.inner_join (fun me doh => snd me =? org_key doh)
          (TotalProportions.measles_events w cs) (dim_eidsr_org_hierarchy w))).

Definition query (w : warehouse) (loc : Filters.location_filter)
    (cs : list Filters.date_condition) : metrics :=
  let with_cases := Z.of_nat (List.length (districts_with_cases_cte w loc cs)) in
  mkMetrics (Z.of_nat (List.length (all_districts w loc)))
            with_cases with_cases with_cases.

Definition zeros : metrics := mkMetrics 0 0 0 0.

(** The body of the [try] up to [result = conn.execute(..).fetchone()]; the
    statement is a list of scalar sub-selects and always gives one row. *)
Definition fetch (eng : engine) (location : option string) (year : option Z)
    (month : option string) (days_filter hours_filter : option Z)
    : outcome metrics :=
  w <- connect eng ;;
  let loc := Filters.build_location_filter location in
  cs <- Filters.build_date_conditions year month ;;
  Returned (query w loc (cs ++ recent_conditions days_filter hours_filter)%list).

Definition get_district_reporting_metrics (eng : engine)
    (location : option string) (year : option Z) (month : option string)
    (days_filter hours_filter : option Z) : metrics :=
  try_except (fetch eng location year month days_filter hours_filter) zeros.

End ReportingMetrics.

(* ================================================================== *)
(** ** The four mappings of [choropleth_data.py] *)
(* ================================================================== *)

Module Choropleth.

(** The CTE [measles_events], over all time or over the last 21 days. *)
Definition measles_events (w : warehouse) (last_21_days : bool)
    : list (string * date * Z) :=
  Sql.distinct TotalProportions.me_eqb
    (flat_map (fun e =>
                 match event_date e with
                 | Some d =>
                     if (is_measles e &&
                         (negb last_21_days || within_days (now w) 21 d))%bool
                     then [(event_id e, d, dim_org_hierarchy_key e)]
                     else []
                 | None => []
                 end)
              (fact_eidsr_event_data w)).

(** The grouped count by district that all four statements share. *)
Definition district_counts (w : warehouse) (last_21_days : bool)
    : list (string * Z) :=
  map (fun g =>
         (fst g, Sql.count_distinct String.eqb (map (fun x => Some (snd x)) (snd g))))
    (Sql.group_by fst String.eqb
       (flat_map (fun x : (string * date * Z) * org_hierarchy =>
                    match TotalProportions.reportable (snd x) with
                    | Some n => [(n, fst (fst (fst x)))]
                    | None => []
                    end)
          (Sql.inner_join (fun me doh => snd me =? org_key doh)
             (measles_events w last_21_days) (dim_eidsr_org_hierarchy w)))).

Definition by_value_desc (a b : string * Z) : bool := snd b <=? snd a.

(** [dict(zip(df[..], df[..]))], in insertion order. *)
Definition mapping : Type := list (string * Z).

Definition fetch_counts (eng : engine) (last_21_days : bool)
    : outcome mapping :=
  w <- connect eng ;;
  Returned (Sql.order_by by_value_desc (district_counts w last_21_days)).

Definition get_measles_cumulative_cases_by_district (eng : engine) : mapping :=
  try_except (fetch_counts eng false) [].

Definition get_measles_districts_reporting_last_21_days (eng : engine)
    : mapping :=
  try_except (fetch_counts eng true) [].

(** [ROUND((cases * 100000.0 / GREATEST(cases, floor)), 2)], in
    hundredths. *)
Definition saturating_rate (floor cases : Z) : Z :=
  round_div (cases * 100000 * 100) (Z.max cases floor).

Definition rates (floor : Z) (counts : list (string * Z)) : mapping :=
  Sql.order_by by_value_desc
    (map (fun d => (fst d, saturating_rate floor (snd d)))
       (filter (fun d : string * Z => 0 <? snd d) counts)).

Definition fetch_rates (eng : engine) (floor : Z) (last_21_days : bool)
    : outcome mapping :=
  w <- connect eng ;; Returned (rates floor (district_counts w last_21_days)).

Definition get_measles_attack_rates_by_district_cumulative (eng : engine)
    : mapping :=
  try_except (fetch_rates eng 1000 false) [].

Definition get_measles_current_case_rates_by_district_21_days (eng : engine)
    : mapping :=
  try_except (fetch_rates eng 500 true) [].

End Choropleth.

(* ================================================================== *)
(** ** Rate normaliser: [get_measles_attack_rates_by_age_sex] *)
(* ================================================================== *)

Module AttackRates.

(** The rows [pd.read_sql_query] gives, then the rows returned once the
    two rate columns are added. *)
Record counts := mkCounts {
  c_age_group : string;
  c_female_cases : Z;
  c_male_cases : Z
}.

Record row := mkRow {
  age_group : string;
  female_cases : Z;
  male_cases : Z;
  female_attack_rate : option Z;     (* hundredths; [None] is NaN *)
  male_attack_rate : option Z
}.

(** A row of the join under [case_counts], before grouping. *)
Record joined := mkJoined {
  j_entity : option string;
  j_age : option string;
  j_sex : option string
}.

Definition has_attribute (id : string) (fe : Gender.first_event)
    (a : entity_attribute) : bool :=
  (match Gender.fe_tracked_entity_instance_id fe with
   | Some t => String.eqb (entity_id a) t
   | None => false
   end && String.eqb (attribute_id a) id)%bool.

Definition value_of (a : option entity_attribute) : option string :=
  match a with
  | Some x => attribute_value x
  | None => None
  end.

Definition joined_rows (w : warehouse) (loc : Filters.location_filter)
    (cs : list Filters.date_condition) : list joined :=
  flat_map
    (fun x =>
       let '(fe, age_years, sex, doh) := x in
       if (Gender.location_ok loc doh &&
           Filters.date_filter (now w) cs (Some (Gender.first_event_date fe)))%bool
       then [mkJoined (Gender.fe_tracked_entity_instance_id fe)
                      (value_of age_years) (value_of sex)]
       else [])
    (Sql.left_join
       (fun (x : Gender.first_event * option entity_attribute *
                 option entity_attribute) doh =>
          Gender.fe_key (fst (fst x)) =? org_key doh)
       (Sql.left_join
          (fun (x : Gender.first_event * option entity_attribute) sex =>
             has_attribute "Rq4qM2wKYFL" (fst x) sex)
          (Sql.left_join (has_attribute "UezutfURtQG") (Gender.first_events w)
             (fact_eidsr_tracked_entity_attributes w))
          (fact_eidsr_tracked_entity_attributes w))
       (dim_eidsr_org_hierarchy w)).

(** Evaluating an expression on every row: the first failure fails the
    statement. *)
Fixpoint for_each {A B : Type} (f : A -> outcome B) (l : list A)
    : outcome (list (A * B)) :=
  match l with
  | [] => Returned []
  | a :: t => b <- f a ;; r <- for_each f t ;; Returned ((a, b) :: r)
  end.

Definition is_female (sex : option string) : bool :=
  match sex with
  | Some s => Text.contains "female" (Text.lower s)
  | None => false
  end.

Definition is_male (sex : option string) : bool :=
  match sex with
  | Some s =>
      (Text.contains "male" (Text.lower s) &&
       negb (Text.contains "female" (Text.lower s)))%bool
  | None => false
  end.

(** [ORDER BY CASE age_group WHEN '0-4' THEN 1 ..]. *)
Definition rank (age_group : string) : Z :=
  Filters.get
    [("0-4", 1); ("5-14", 2); ("15-19", 3); ("20-24", 4); ("25-29", 5);
     ("30-34", 6); ("35-39", 7); ("40-44", 8); ("45-49", 9); ("50+", 10);
     ("Unknown", 11)] age_group 12.

Definition query (w : warehouse) (loc : Filters.location_filter)
    (cs : list Filters.date_condition) : outcome (list counts) :=
  classified <-
    for_each (fun j => Demographics.attack_rate_age_group (j_age j))
             (joined_rows w loc cs) ;;
  Returned
    (Sql.order_by (fun a b => rank (c_age_group a) <=? rank (c_age_group b))
       (map (fun g =>
               mkCounts (fst g)
                 (Sql.count (map (fun x : joined * string =>
                                    if is_female (j_sex (fst x))
                                    then j_entity (fst x) else None) (snd g)))
                 (Sql.count (map (fun x : joined * string =>
                                    if is_male (j_sex (fst x))
                                    then j_entity (fst x) else None) (snd g))))
          (Sql.group_by snd String.eqb classified))).

(** Rounding to the nearest integer, ties to the even one, of [n / d] for
    [0 <= n] and [0 < d]: NumPy's and Python's rule.  The float quotient
    is taken as the exact one. *)
Definition round_half_even_div (n d : Z) : Z :=
  let q := n / d in
  let r := n mod d in
  if 2 * r <? d then q
  else if d <? 2 * r then q + 1
  else if Z.even q then q else q + 1.

(** [(df[col] * 100000 / df[col].sum()).round(2)] for one row, in
    hundredths; a zero sum gives NaN. *)
Definition attack_rate (cases total : Z) : option Z :=
  if total =? 0 then None
  else Some (round_half_even_div (cases * 100000 * 100) total).

Definition add_rates (df : list counts) : list row :=
  let female_total := Sql.total (map c_female_cases df) in
  let male_total := Sql.total (map c_male_cases df) in
  map (fun c =>
         mkRow (c_age_group c) (c_female_cases c) (c_male_cases c)
               (attack_rate (c_female_cases c) female_total)
               (attack_rate (c_male_cases c) male_total))
      df.

(** The placeholder frame of the [else] branch and of the handler. *)
Definition placeholder_counts : list counts :=
  map (fun x => mkCounts (fst (fst x)) (snd (fst x)) (snd x))
    [("0-4", 12, 10); ("5-14", 8, 12); ("15-19", 15, 18); ("20-24", 10, 8);
     ("25-29", 6, 5); ("30-34", 4, 3); ("35-39", 3, 2); ("40-44", 2, 1);
     ("45-49", 1, 1); ("50+", 2, 1)].

Definition placeholder_rate (cases total : Z) : option Z :=
  Some (if 0 <? total then round_half_even_div (cases * 100000 * 100) total
        else 0).

Definition placeholder_data : list row :=
  let total_female := Sql.total (map c_female_cases placeholder_counts) in
  let total_male := Sql.total (map c_male_cases placeholder_counts) in
  map (fun c =>
         mkRow (c_age_group c) (c_female_cases c) (c_male_cases c)
               (placeholder_rate (c_female_cases c) total_female)
               (placeholder_rate (c_male_cases c) total_male))
      placeholder_counts.

Definition fetch (eng : engine) (location : option string) (year : option Z)
    (month : option string) : outcome (list counts) :=
  w <- connect eng ;;
  let loc := Filters.build_location_filter location in
  cs <- Filters.build_date_conditions year month ;;
  query w loc cs.

Definition get_measles_attack_rates_by_age_sex (eng : engine)
    (location : option string) (year : option Z) (month : option string)
    : list row :=
  try_except
    (df <- fetch eng location year month ;;
     Returned match df with
              | [] => placeholder_data
              | _ => add_rates df
              end)
    placeholder_data.

End AttackRates.

(* ================================================================== *)
(** ** What the specification asks of the aggregates

    The definitions of this section follow the words of the
    specification, not the statements of the source; the theorems compare
    the two. *)
(* ================================================================== *)

Module Spec.

(** The bucket that comes just before [b] in time among [buckets]: the
    latest one with a strictly earlier [(year, week)]. *)
Definition preceding_bucket (buckets : list Weekly.bucket) (b : Weekly.bucket)
    : option Weekly.bucket :=
  List.last
    (map Some
       (Sql.order_by Weekly.asc
          (filter (fun x =>
                     (Weekly.key_leb (Weekly.key x) (Weekly.key b) &&
                      negb (Weekly.key_eqb (Weekly.key x) (Weekly.key b)))%bool)
                  buckets)))
    None.

(** "Percent change vs. the immediately preceding chronological bucket",
    null when that bucket is absent or empty. *)
Definition percent_change_vs_preceding (buckets : list Weekly.bucket)
    (b : Weekly.bucket) : option Z :=
  percent_change (Weekly.weekly_cases b)
    (option_map Weekly.weekly_cases (preceding_bucket buckets b)).

(** "The sum of all buckets up to and including it, over all history". *)
Definition history_up_to (buckets : list Weekly.bucket) (k : Z * Z) : Z :=
  Sql.total
    (map Weekly.weekly_cases
       (filter (fun b => Weekly.key_leb (Weekly.key b) k) buckets)).

(** "The sum of all of that year's weekly counts up to and including the
    bucket". *)
Definition year_to_date (buckets : list Weekly.bucket) (y wk : Z) : Z :=
  Sql.total
    (map Weekly.weekly_cases
       (filter (fun b =>
                  ((Weekly.year b =? y) && (Weekly.epi_week b <=? wk))%bool)
               buckets)).

(** "The latest epi-week bucket actually present in the filtered data":
    the greatest [(year, week)] that some event falls in. *)
Definition latest_bucket_present (mes : list TopDistricts.measles_event)
    : option (Z * Z) :=
  List.last
    (map Some
       (Sql.order_by Weekly.key_leb
          (map (fun me => (TopDistricts.me_year me, TopDistricts.me_epi_week me))
               mes)))
    None.

(** The distinct events of one district that fall in bucket [k]. *)
Definition cases_in_bucket (dds : list TopDistricts.district_datum)
    (name : string) (k : Z * Z) : Z :=
  Sql.count_distinct String.eqb
    (map (fun dd =>
            if (String.eqb (TopDistricts.dd_district_name dd) name &&
                Weekly.key_eqb (TopDistricts.dd_year dd, TopDistricts.dd_epi_week dd)
                               k)%bool
            then Some (TopDistricts.dd_event_id dd) else None)
         dds).

(** An age band scheme: bands with their bounds, either of which may be
    open, in the order they are tried. *)
Definition scheme : Type := list (option Z * option Z * string).

Definition within (lo hi : option Z) (age : Z) : bool :=
  (match lo with Some l => l <=? age | None => true end &&
   match hi with Some h => age <=? h | None => true end)%bool.

Fixpoint band_of (bands : scheme) (age : Z) : string :=
  match bands with
  | [] => "Unknown"
  | (lo, hi, label) :: rest =>
      if within lo hi age then label else band_of rest age
  end.

(** "5-year bands 0-4 .. 50+". *)
Definition five_year_bands : scheme :=
  [(Some 0, Some 4, "0-4"); (Some 5, Some 9, "5-9"); (Some 10, Some 14, "10-14");
   (Some 15, Some 19, "15-19"); (Some 20, Some 24, "20-24");
   (Some 25, Some 29, "25-29"); (Some 30, Some 34, "30-34");
   (Some 35, Some 39, "35-39"); (Some 40, Some 44, "40-44");
   (Some 45, Some 49, "45-49"); (Some 50, None, "50+")].

(** "Coarse bands <1 / 1-4 / 5-14 / 15-44 / 45+", under the labels of the
    demographic table. *)
Definition coarse_bands : scheme :=
  [(None, Some 0, "<1 year"); (Some 1, Some 4, "1-4 years");
   (Some 5, Some 14, "5-14 years"); (Some 15, Some 44, "15-44 years");
   (Some 45, None, "45+ years")].

(** The bands of the attack-rate table: 5-year bands with 5-14 in one. *)
Definition attack_rate_bands : scheme :=
  [(Some 0, Some 4, "0-4"); (Some 5, Some 14, "5-14");
   (Some 15, Some 19, "15-19"); (Some 20, Some 24, "20-24");
   (Some 25, Some 29, "25-29"); (Some 30, Some 34, "30-34");
   (Some 35, Some 39, "35-39"); (Some 40, Some 44, "40-44");
   (Some 45, Some 49, "45-49"); (Some 50, None, "50+")].

(** "Sort descending by total cases, tie-break descending by
    latest-epi-week cases": [a] may stand before [b]. *)
Definition ranked_before (a b : TopDistricts.row) : Prop :=
  TopDistricts.Total_Cases b < TopDistricts.Total_Cases a \/
  (TopDistricts.Total_Cases b = TopDistricts.Total_Cases a /\
   TopDistricts.Cases_Last_Epiweek b <= TopDistricts.Cases_Last_Epiweek a).

(** The district names no outward-facing aggregate may show. *)
Definition excluded_names : list string :=
  ["Unknown"; "Unknown District"; "1 Test District"].

(** [p] occurs in [s]. *)
Definition occurs_in (p s : string) : Prop :=
  exists pre post, s = pre ++ p ++ post.

End Spec.

(* ================================================================== *)
(** ** Sample warehouses *)
(* ================================================================== *)

Module Samples.

Definition clock_all : clock := mkClock (fun _ _ => true) (fun _ _ => true).

Definition measles (id : string) (entity : option string) (d : date) (k : Z)
    : event_data :=
  mkEvent id entity (Some d) k "qIlO7yEpiVv" "Case classification"
          "Measles (B05.0_B05.9)".

(** One event on Monday 4 March 2024 (week 10) and two in week 11. *)
Definition two_weeks : warehouse :=
  mkWarehouse
    [measles "e1" None (mkDate 2024 3 4 10) 1;
     measles "e2" None (mkDate 2024 3 11 11) 1;
     measles "e3" None (mkDate 2024 3 12 11) 1]
    [mkOrg 1 (Some "Kampala District") (Some "Central")]
    []
    clock_all.

(** One event on each Monday from 1 January 2024 (week 1) to 11 March 2024
    (week 11). *)
Definition eleven_weeks : warehouse :=
  mkWarehouse
    [measles "e01" None (mkDate 2024 1 1 1) 1;
     measles "e02" None (mkDate 2024 1 8 2) 1;
     measles "e03" None (mkDate 2024 1 15 3) 1;
     measles "e04" None (mkDate 2024 1 22 4) 1;
     measles "e05" None (mkDate 2024 1 29 5) 1;
     measles "e06" None (mkDate 2024 2 5 6) 1;
     measles "e07" None (mkDate 2024 2 12 7) 1;
     measles "e08" None (mkDate 2024 2 19 8) 1;
     measles "e09" None (mkDate 2024 2 26 9) 1;
     measles "e10" None (mkDate 2024 3 4 10) 1;
     measles "e11" None (mkDate 2024 3 11 11) 1]
    [mkOrg 1 (Some "Kampala District") (Some "Central")]
    []
    clock_all.

(** One district with an event on 13 December 2023 (week 50) and one on
    17 January 2024 (week 3). *)
Definition across_new_year : warehouse :=
  mkWarehouse
    [measles "a1" None (mkDate 2023 12 13 50) 1;
     measles "a2" None (mkDate 2024 1 17 3) 1]
    [mkOrg 1 (Some "Abim District") (Some "Northern")]
    []
    clock_all.

(** A death recorded under the hierarchy row named ['Unknown'] and one
    under the test district. *)
Definition deaths_under_sentinels : warehouse :=
  mkWarehouse
    [measles "d1" (Some "p1") (mkDate 2024 3 4 10) 7;
     measles "d2" (Some "p2") (mkDate 2024 3 5 10) 8]
    [mkOrg 7 (Some "Unknown") (Some "Central");
     mkOrg 8 (Some "1 Test District") (Some "Central")]
    [mkAttr "p1" "ulE2j2pFgDl" "Outcome" (Some "Dead");
     mkAttr "p2" "ulE2j2pFgDl" "Outcome" (Some "Dead")]
    clock_all.

(** One district with a case in January 2024, another with a case in
    March 2024; both persons are recorded as male. *)
Definition january_and_march : warehouse :=
  mkWarehouse
    [measles "m1" (Some "q1") (mkDate 2024 1 17 3) 1;
     measles "m2" (Some "q2") (mkDate 2024 3 4 10) 2]
    [mkOrg 1 (Some "Abim District") (Some "Northern");
     mkOrg 2 (Some "Kampala District") (Some "Central")]
    [mkAttr "q1" "Rq4qM2wKYFL" "Sex" (Some "Male");
     mkAttr "q2" "Rq4qM2wKYFL" "Sex" (Some "Male");
     mkAttr "q1" "UezutfURtQG" "Age in years" (Some "7");
     mkAttr "q2" "UezutfURtQG" "Age in years" (Some "31")]
    clock_all.

(** A warehouse with no row at all. *)
Definition empty : warehouse := mkWarehouse [] [] [] clock_all.


End Samples.

(* ================================================================== *)
(** ** [get_measles_age_sex_distribution], the definition in force *)
(* ================================================================== *)

Module AgeSex.

(** A row of the statement. *)
Record counts := mkCounts {
  c_age_group : string;
  c_male_cases : Z;
  c_female_cases : Z;
  c_unknown_cases : Z
}.

(** The frame returned: the rows of the statement, or a placeholder
    frame, which has the columns [age_group], [male_cases] and
    [female_cases] only. *)
Inductive frame :=
| Queried (df : list counts)
| Placeholder (rows : list (string * Z * Z)).

(** [ORDER BY CASE age_group WHEN '0-4' THEN 1 .. ELSE 13 END]. *)
Definition rank (age_group : string) : Z :=
  Filters.get
    [("0-4", 1); ("5-9", 2); ("10-14", 3); ("15-19", 4); ("20-24", 5);
     ("25-29", 6); ("30-34", 7); ("35-39", 8); ("40-44", 9); ("45-49", 10);
     ("50+", 11); ("Unknown", 12)] age_group 13.

(** [CASE WHEN sex_category = '{category}'
          THEN tracked_entity_instance_id END] on a row of [age_sex_data]. *)
Definition of_category (category : string) (x : AttackRates.joined * string)
    : option string :=
  if String.eqb
       (Demographics.age_sex_distribution_sex_category
          (AttackRates.j_sex (fst x))) category
  then AttackRates.j_entity (fst x)
  else None.

(** The CTE [age_sex_data], over the joins and the [WHERE] that the
    attack-rate statement has too, then the grouped counts. *)
Definition query (w : warehouse) (loc : Filters.location_filter)
    (cs : list Filters.date_condition) : outcome (list counts) :=
  age_sex_data <-
    AttackRates.for_each
      (fun j => Demographics.age_sex_distribution_age_group
                  (AttackRates.j_age j))
      (AttackRates.joined_rows w loc cs) ;;
  Returned
    (Sql.order_by (fun a b => rank (c_age_group a) <=? rank (c_age_group b))
       (map (fun g =>
               mkCounts (fst g)
                 (Sql.count (map (of_category "Male") (snd g)))
                 (Sql.count (map (of_category "Female") (snd g)))
                 (Sql.count (map (of_category "Unknown") (snd g))))
          (Sql.group_by snd String.eqb age_sex_data))).

(** The body of the [try] up to [df = pd.read_sql_query(text(query), conn)].
    With all three arguments [None] the source builds no filter, which is
    what the two builders give for them. *)
Definition fetch (eng : engine) (location : option string) (year : option Z)
    (month : option string) : outcome (list counts) :=
  w <- connect eng ;;
  let loc := Filters.build_location_filter location in
  cs <- Filters.build_date_conditions year month ;;
  query w loc cs.

(** *** The placeholder frames *)

Definition age_groups : list string :=
  ["0-4"; "5-9"; "10-14"; "15-19"; "20-24"; "25-29"; "30-34"; "35-39";
   "40-44"; "45-49"; "50+"].

Definition base_male : list Z := [8; 12; 15; 10; 8; 6; 4; 3; 2; 1; 2].
Definition base_female : list Z := [6; 10; 12; 8; 6; 5; 3; 2; 1; 1; 1].

(** Python's [float] of an [int], to the nearest double. *)
Definition float_of_int (z : Z) : float :=
  SF2Prim (binary_normalize prec emax z 0 false).

(** Python's [int] of a finite [float]: towards zero. *)
Definition int_of_float (x : float) : Z :=
  match Prim2SF x with
  | S754_finite s m e =>
      let v := if 0 <=? e then Z.shiftl (Zpos m) e
               else Z.shiftr (Zpos m) (- e) in
      if s then - v else v
  | _ => 0
  end.

(** The literals [0.7], [0.4], [0.8] as the doubles they denote. *)
Definition f_0_7 : float := 0x1.6666666666666p-1%float.
Definition f_0_4 : float := 0x1.999999999999ap-2%float.
Definition f_0_8 : float := 0x1.999999999999ap-1%float.
Definition f_0_5 : float := 0x1p-1%float.
Definition f_1_0 : float := 0x1p+0%float.

(** [multiplier] of the [df.empty] branch. *)
Definition multiplier (location : option string) (year : option Z)
    (current_year : Z) : float :=
  let by_location :=
    match Filters.truthy_str location with
    | Some l =>
        if String.eqb l "National Level (MOH) - 1 units" then f_1_0
        else if Text.contains "Region" l then f_0_7
        else if Text.contains "District" l then f_0_4
        else f_1_0
    | None => f_1_0
    end in
  match Filters.truthy_int year with
  | Some y => if y <? current_year then PrimFloat.mul by_location f_0_8
              else by_location
  | None => by_location
  end.

(** [[max(1, int(m * multiplier)) for m in base]]. *)
Definition adjusted (m : float) (base : list Z) : list Z :=
  map (fun b => Z.max 1 (int_of_float (PrimFloat.mul (float_of_int b) m))) base.

Definition placeholder_frame (m : float) : list (string * Z * Z) :=
  combine (combine age_groups (adjusted m base_male)) (adjusted m base_female).

(** The frame of the [df.empty] branch. *)
Definition placeholder (location : option string) (year : option Z)
    (current_year : Z) : list (string * Z * Z) :=
  placeholder_frame (multiplier location year current_year).

(** The frame of the handler:
    [multiplier = 0.5 if location and "District" in location else 1.0]. *)
Definition fallback (location : option string) : list (string * Z * Z) :=
  placeholder_frame
    match Filters.truthy_str location with
    | Some l => if Text.contains "District" l then f_0_5 else f_1_0
    | None => f_1_0
    end.

(** [current_year] is [datetime.now().year]. *)
Definition get_measles_age_sex_distribution (eng : engine) (current_year : Z)
    (location : option string) (year : option Z) (month : option string)
    : frame :=
  try_except
    (df <- fetch eng location year month ;;
     Returned match df with
              | [] => Placeholder (placeholder location year current_year)
              | _ => Queried df
              end)
    (Placeholder (fallback location)).

End AgeSex.

(* ================================================================== *)
(** ** Orderings the theorems speak of *)
(* ================================================================== *)

Module Order.

(** Row [a] stands for a strictly later [(year, week)] than row [b]. *)
Definition strictly_later (a b : Weekly.row) : Prop :=
  Weekly.Year b < Weekly.Year a \/
  (Weekly.Year b = Weekly.Year a /\ Weekly.Epi_Week b < Weekly.Epi_Week a).

(** The sum of a nullable column whose values are all present. *)
Fixpoint total_of (l : list (option Z)) : option Z :=
  match l with
  | [] => Some 0
  | Some a :: t => option_map (Z.add a) (total_of t)
  | None :: _ => None
  end.

(** The [(year, week)] of a row of the epi-week table. *)
Definition row_key (r : Weekly.row) : Z * Z :=
  (Weekly.Year r, Weekly.Epi_Week r).

(** The ten buckets either statement of the epi-week aggregator works on,
    and the rows it gives. *)
Definition latest_ten (w : warehouse) (year : option Z)
    (start_date end_date : option date) : list Weekly.bucket :=
  match year with
  | None => Weekly.ordered_all_data w start_date end_date
  | Some y => Weekly.weekly_data w y start_date end_date
  end.

Definition weekly_statement (w : warehouse) (year : option Z)
    (start_date end_date : option date) : list Weekly.row :=
  match year with
  | None => Weekly.cumulative_query w start_date end_date
  | Some y => Weekly.year_query w y start_date end_date
  end.

End Order.

(* ================================================================== *)
(** ** More sample warehouses *)
(* ================================================================== *)

Module MoreSamples.

(** A person whose age attribute holds more digits than a 32-bit integer
    has room for. *)
Definition age_out_of_range : warehouse :=
  mkWarehouse
    [Samples.measles "o1" (Some "r1") (mkDate 2024 1 17 3) 1]
    [mkOrg 1 (Some "Abim District") (Some "Northern")]
    [mkAttr "r1" "Rq4qM2wKYFL" "Sex" (Some "Female");
     mkAttr "r1" "UezutfURtQG" "Age in years" (Some "99999999999")]
    Samples.clock_all.

End MoreSamples.

(* ================================================================== *)
(** ** [db_retry]: the retry decorator *)
(* ================================================================== *)

Module Retry.

(** How a call of the wrapper ends: with the value of [func], with
    [None] when the loop is never entered, or with the last exception. *)
Inductive finish (A : Type) :=
| Value (a : A)
| NoValue
| Reraised.
Arguments Value {A} a.
Arguments NoValue {A}.
Arguments Reraised {A}.

(** What a call of the wrapper did: how it ended, how often it called
    [func], and the [time.sleep] arguments in order. *)
Record run (A : Type) := mkRun {
  result : finish A;
  calls : nat;
  slept : list Z
}.
Arguments mkRun {A} result calls slept.
Arguments result {A} r.
Arguments calls {A} r.
Arguments slept {A} r.

(** The [while retries < max_retries] loop.  [func k] is what the call
    of [func] after [k] failed calls does; [fuel] bounds the iterations
    and [max_retries] of it are enough. *)
Fixpoint loop {A : Type} (func : nat -> outcome A)
    (max_retries delay backoff : Z) (fuel : nat) (retries : Z) : run A :=
  match fuel with
  | O => mkRun NoValue 0 []
  | S fuel' =>
      if retries <? max_retries
      then match func (Z.to_nat retries) with
           | Returned a => mkRun (Value a) 1 []
           | Raised =>
               let retries := retries + 1 in
               if retries =? max_retries then mkRun Reraised 1 []
               else
                 let wait_time := delay * backoff ^ (retries - 1) in
                 let r := loop func max_retries delay backoff fuel' retries in
                 mkRun (result r) (S (calls r)) (wait_time :: slept r)
           end
      else mkRun NoValue 0 []
  end.

Definition wrapper {A : Type} (func : nat -> outcome A)
    (max_retries delay backoff : Z) : run A :=
  loop func max_retries delay backoff (Z.to_nat max_retries) 0.


End Retry.

(* ================================================================== *)
(** ** [get_dynamic_parameters]: the report's URL parameters *)
(* ================================================================== *)

Module Parameters.

(** [st.query_params.get]. *)
Definition query_params : Type := string -> option string.

Fixpoint drop_while (f : ascii -> bool) (l : list ascii) : list ascii :=
  match l with
  | [] => []
  | c :: t => if f c then drop_while f t else l
  end.

(** The digits of Python's [int(text)]: one digit at least, and single
    underscores between digits only. *)
Fixpoint digits (acc : Z) (after_digit : bool) (l : list ascii) : option Z :=
  match l with
  | [] => if after_digit then Some acc else None
  | c :: t =>
      if Text.is_digit c
      then digits (10 * acc + (Z.of_nat (nat_of_ascii c) - 48)) true t
      else if (Ascii.eqb c "_" && after_digit)%bool
      then digits acc false t
      else None
  end.

(** The blanks that [int] passes over below U+0080: the tab, the line
    feed, the vertical tab, the form feed, the carriage return and the
    space.  Unlike [str.split()] it takes U+001C..001F for no blank. *)
Definition is_c_space (c : ascii) : bool :=
  let n := nat_of_ascii c in
  ((Nat.leb 9 n && Nat.leb n 13) || Nat.eqb n 32)%bool.

(** Python's [int(text)] on ASCII text: blanks around, an optional sign,
    then the digits; [None] stands for [ValueError]. *)
Definition int (text : string) : option Z :=
  match rev (drop_while is_c_space
               (rev (drop_while is_c_space (list_ascii_of_string text))))
  with
  | "+"%char :: t => digits 0 false t
  | "-"%char :: t => option_map Z.opp (digits 0 false t)
  | l => digits 0 false l
  end.

(** The texts that [int] above reads as Python's [int()] does: bytes
    below 128 only, where no blank or digit beyond ASCII can stand, and
    no more than 4300 of them, the number of digits from which on recent
    versions of Python refuse the conversion. *)
Definition plain_text (s : string) : bool :=
  (Text.all_chars (fun c => Nat.ltb (nat_of_ascii c) 128) s &&
   Nat.leb (String.length s) 4300)%bool.

(** [a or b] on optional texts. *)
Definition or_else (a b : option string) : option string :=
  match Filters.truthy_str a with
  | Some x => Some x
  | None => b
  end.

Fixpoint lookup {K V : Type} (eqb : K -> K -> bool) (d : list (K * V)) (k : K)
    : option V :=
  match d with
  | [] => None
  | (k', v) :: t => if eqb k k' then Some v else lookup eqb t k
  end.

Definition location_map : list (string * string) :=
  [("national", "National Level (MOH)"); ("regional", "Regional Level");
   ("district", "District Level")].

Definition digit_to_month : list (Z * string) :=
  [(1, "January"); (2, "February"); (3, "March"); (4, "April"); (5, "May");
   (6, "June"); (7, "July"); (8, "August"); (9, "September"); (10, "October");
   (11, "November"); (12, "December")].

Definition month_map : list (string * string) :=
  [("january", "January"); ("jan", "January");
   ("february", "February"); ("feb", "February");
   ("march", "March"); ("mar", "March");
   ("april", "April"); ("apr", "April");
   ("may", "May");
   ("june", "June"); ("jun", "June");
   ("july", "July"); ("jul", "July");
   ("august", "August"); ("aug", "August");
   ("september", "September"); ("sep", "September");
   ("october", "October"); ("oct", "October");
   ("november", "November"); ("nov", "November");
   ("december", "December"); ("dec", "December")].

(** The dictionary the function returns; ['disease'] is always
    ['Measles']. *)
Record parameters := mkParameters {
  location : string;
  year : Z;
  month : string;
  month_display : string;
  coverage : string
}.

Definition selected_location (location_from_url : option string) : string :=
  match Filters.truthy_str location_from_url with
  | Some l =>
      match lookup String.eqb location_map (Text.lower l) with
      | Some v => v
      | None => l
      end
  | None => "National Level (MOH)"
  end.

Definition selected_year (current_year : Z) (year_from_url : option string)
    : Z :=
  match Filters.truthy_str year_from_url with
  | Some y =>
      match int y with
      | Some n => n
      | None => current_year
      end
  | None => current_year
  end.

(** [(selected_month, month_display)]. *)
Definition selected_month (current_year selected_year : Z)
    (month_from_url : option string) : string * string :=
  let default_month := "All Months " ++ Filters.str current_year in
  match Filters.truthy_str month_from_url with
  | Some m =>
      if String.eqb (Text.lower m) "all"
      then ("All Months " ++ Filters.str selected_year, "All Months")
      else
        match int m with
        | Some month_num =>
            if ((1 <=? month_num) && (month_num <=? 12))%bool
            then match lookup Z.eqb digit_to_month month_num with
                 | Some month_name =>
                     (month_name ++ " " ++ Filters.str selected_year,
                      month_name)
                 | None => (default_month, "All Months")
                 end
            else (default_month, "All Months")
        | None =>
            match lookup String.eqb month_map (Text.lower m) with
            | Some month_name =>
                if String.eqb month_name ""
                then (default_month, "All Months")
                else (month_name ++ " " ++ Filters.str selected_year,
                      month_name)
            | None => (default_month, "All Months")
            end
        end
  | None => (default_month, "All Months")
  end.

Definition get_dynamic_parameters (get : query_params) (current_year : Z)
    : parameters :=
  let year_from_url := or_else (get "year") (get "y") in
  let month_from_url := or_else (get "month") (get "m") in
  let location_from_url := or_else (get "location") (get "l") in
  let location := selected_location location_from_url in
  let year := selected_year current_year year_from_url in
  let m := selected_month current_year year month_from_url in
  mkParameters location year (fst m) (snd m)
    (if Text.contains "National Level" location then "National" else location).

End Parameters.

(* ================================================================== *)
(** ** [get_measles_top_districts_epicurves] *)
(* ================================================================== *)

Module Epicurves.

(** An entry of the list returned: the district and its frame of
    [(epi_week, weekly_cases)] rows. *)
Record epicurve := mkEpicurve {
  district : string;
  data : list (Z * Z)
}.

(** [date_filter]: the year when one is given, else the last twelve
    months, which the server's clock decides. *)
Definition date_filter (last_12_months : date -> bool) (year : option Z)
    (d : date) : bool :=
  match Filters.truthy_int year with
  | Some y => d_year d =? y
  | None => last_12_months d
  end.

Definition me_eqb (a b : string * date * Z) : bool :=
  (String.eqb (fst (fst a)) (fst (fst b)) &&
   date_eqb (snd (fst a)) (snd (fst b)) && (snd a =? snd b))%bool.

(** The CTE [measles_events] of one district: [(event_id, event_date,
    epi_week)].  The district name is spliced between quotes; a name
    with a quote in it is outside this reading. *)
Definition measles_events (w : warehouse) (district_name : string)
    (in_period : date -> bool) : list (string * date * Z) :=
  Sql.distinct me_eqb
    (flat_map (fun x : event_data * org_hierarchy =>
                 match event_date (fst x), dwh.district_name (snd x) with
                 | Some d, Some n =>
                     if (is_measles (fst x) && String.eqb n district_name &&
                         in_period d)%bool
                     then [(event_id (fst x), d, d_week d)]
                     else []
                 | _, _ => []
                 end)
       (Sql.inner_join (fun e doh => dim_org_hierarchy_key e =? org_key doh)
          (fact_eidsr_event_data w) (dim_eidsr_org_hierarchy w))).

Definition by_week (a b : Z * Z) : bool := fst a <=? fst b.

(** [district_query]: the weekly counts of the district, by week. *)
Definition district_query (w : warehouse) (district_name : string)
    (in_period : date -> bool) : list (Z * Z) :=
  let weekly_counts :=
    Sql.order_by by_week
      (filter (fun c : Z * Z => 0 <? snd c)
         (map (fun g =>
                 (fst g,
                  Sql.count_distinct String.eqb
                    (map (fun e : string * date * Z => Some (fst (fst e)))
                         (snd g))))
            (Sql.group_by snd Z.eqb
               (measles_events w district_name in_period)))) in
  Sql.order_by by_week (filter (fun c : Z * Z => 0 <? snd c) weekly_counts).

(** The test [not district_df.empty and district_df['weekly_cases'].sum() > 0]. *)
Definition has_data (district_df : list (Z * Z)) : bool :=
  (match district_df with [] => false | _ => true end &&
   (0 <? Sql.total (map snd district_df)))%bool.

Definition get_measles_top_districts_epicurves (last_12_months : date -> bool)
    (eng : engine) (location : option string) (year : option Z)
    (month : option string) : list epicurve :=
  try_except
    (w <- connect eng ;;
     let top_districts := TopDistricts.get_measles_top_10_districts eng year in
     match top_districts with
     | [] => Returned []
     | _ =>
         Returned
           (flat_map
              (fun row =>
                 let district_name := TopDistricts.District row in
                 let district_df :=
                   district_query w district_name
                     (date_filter last_12_months year) in
                 if has_data district_df
                 then [mkEpicurve district_name district_df]
                 else [])
              top_districts)
     end)
    [].

End Epicurves.

(* ================================================================== *)
(** ** [get_measles_summary_stats] *)
(* ================================================================== *)

Module SummaryStats.

(** Python's [s.replace(old, new)] for a non-empty [old]. *)
Fixpoint replace_from (old new : string) (skip : nat) (s : string) : string :=
  match s with
  | EmptyString => EmptyString
  | String c t =>
      match skip with
      | S k => replace_from old new k t
      | O =>
          if String.prefix old s
          then new ++ replace_from old new (Nat.pred (String.length old)) t
          else String c (replace_from old new 0 t)
      end
  end.

Definition replace (old new s : string) : string := replace_from old new 0 s.

(** The statement as the source writes it. *)
Definition query : string :=
"
        WITH measles_events AS (
            SELECT DISTINCT event_id, event_date, dim_org_hierarchy_key
            FROM dwh.fact_eidsr_event_data 
            WHERE data_element_id = 'qIlO7yEpiVv' AND data_value = 'Measles (B05.0_B05.9)'
        )
        SELECT 
            COUNT(DISTINCT me.event_id) as total_cases,
            COUNT(DISTINCT doh.district_name) as affected_districts,
            COUNT(DISTINCT CASE WHEN me.event_date >= CURRENT_DATE - INTERVAL '7 days' THEN me.event_id END) as cases_last_7_days,
            COUNT(DISTINCT CASE WHEN me.event_date >= CURRENT_DATE - INTERVAL '30 days' THEN me.event_id END) as cases_last_30_days
        FROM measles_events me
        JOIN dwh.dim_eidsr_org_hierarchy doh ON me.dim_org_hierarchy_key = doh.dim_org_hierarchy_key
        ".

(** [date_filter], from the texts of [start_date] and [end_date]. *)
Definition date_filter (start_date end_date : option string) : string :=
  match Filters.truthy_str start_date, Filters.truthy_str end_date with
  | Some s, Some e => " AND event_date BETWEEN '" ++ s ++ "' AND '" ++ e ++ "'"
  | Some s, None => " AND event_date >= '" ++ s ++ "'"
  | None, Some e => " AND event_date <= '" ++ e ++ "'"
  | None, None => ""
  end.

(** The statement sent: [query.replace(..)] when there is a date filter. *)
Definition statement (start_date end_date : option string) : string :=
  let f := date_filter start_date end_date in
  if String.eqb f "" then query
  else replace "AND data_value LIKE '%Measles%'"
               ("AND data_value LIKE '%Measles%'" ++ f) query.

(** The dictionary the function returns. *)
Record stats := mkStats {
  total_cases : Z;
  affected_districts : Z;
  cases_last_7_days : Z;
  cases_last_30_days : Z
}.

Definition me_eqb (a b : string * option date * Z) : bool :=
  (Weekly.nullable_id_date_eqb (fst a) (fst b) && (snd a =? snd b))%bool.

(** The CTE [measles_events]: [(event_id, event_date,
    dim_org_hierarchy_key)], dated or not. *)
Definition measles_events (w : warehouse) : list (string * option date * Z) :=
  Sql.distinct me_eqb
    (map (fun e => (event_id e, event_date e, dim_org_hierarchy_key e))
       (filter is_measles (fact_eidsr_event_data w))).

Definition joined (w : warehouse)
    : list ((string * option date * Z) * org_hierarchy) :=
  Sql.inner_join (fun me doh => snd me =? org_key doh)
    (measles_events w) (dim_eidsr_org_hierarchy w).

(** [CASE WHEN me.event_date >= CURRENT_DATE - INTERVAL '{n} days'
          THEN me.event_id END]. *)
Definition recent_id (w : warehouse) (n : Z)
    (x : (string * option date * Z) * org_hierarchy) : option string :=
  match snd (fst (fst x)) with
  | Some d => if within_days (now w) n d then Some (fst (fst (fst x))) else None
  | None => None
  end.

(** The one row of the statement of the source. *)
Definition result (w : warehouse) : stats :=
  mkStats
    (Sql.count_distinct String.eqb
       (map (fun x => Some (fst (fst (fst x)))) (joined w)))
    (Sql.count_distinct String.eqb
       (map (fun x => district_name (snd x)) (joined w)))
    (Sql.count_distinct String.eqb (map (recent_id w 7) (joined w)))
    (Sql.count_distinct String.eqb (map (recent_id w 30) (joined w))).

(** [conn.execute(text(query)).fetchone()]: the meaning of the statement
    is written down for the text of the source; no other text is given
    one. *)
Definition execute (w : warehouse) (text : string) : outcome stats :=
  if String.eqb text query then Returned (result w) else Raised.

Definition zeros : stats := mkStats 0 0 0 0.

(** [get_db_connection] is called first and its connection never used;
    [direct] is whether that call returns. *)
Definition get_measles_summary_stats (direct : outcome unit) (eng : engine)
    (start_date end_date : option string) : stats :=
  try_except
    (_ <- direct ;;
     let sent := statement start_date end_date in
     w <- connect eng ;;
     execute w sent)
    zeros.

End SummaryStats.

(* ================================================================== *)
(** ** [format_table_for_display] *)
(* ================================================================== *)

Module DisplayTable.

(** A data frame: its column labels and its rows of cells. *)
Record data_frame (cell : Type) := mkFrame {
  columns : list string;
  rows : list (list cell)
}.
Arguments mkFrame {cell} columns rows.
Arguments columns {cell} d.
Arguments rows {cell} d.

(** [df.empty]: an axis of length zero. *)
Definition empty {cell : Type} (df : data_frame cell) : bool :=
  match columns df, rows df with
  | [], _ => true
  | _, [] => true
  | _, _ => false
  end.

Definition display_columns : list string :=
  ["District"; "Total Cases"; "Cases (Last 30 Days)"; "First Case";
   "Latest Case"].

(** Assigning [display_df.columns] raises [ValueError] when the number of
    labels differs from the number of columns. *)
Definition format_table_for_display {cell : Type} (df : data_frame cell)
    : outcome (data_frame cell) :=
  if empty df then Returned df
  else if Nat.eqb (List.length (columns df)) (List.length display_columns)
  then Returned (mkFrame display_columns (rows df))
  else Raised.

End DisplayTable.

(* ================================================================== *)
(** ** [get_measles_total_deaths] *)
(* ================================================================== *)

Module TotalDeaths.

Definition me_eqb (a b : option string * date) : bool :=
  (Gender.nullable_eqb (fst a) (fst b) && date_eqb (snd a) (snd b))%bool.

(** The CTE [measles_events]: [(entity_id, event_date)] of the dated
    measles events. *)
Definition measles_events (w : warehouse) : list (option string * date) :=
  Sql.distinct me_eqb
    (flat_map (fun e1 =>
                 match event_date e1 with
                 | Some d =>
                     if is_measles e1
                     then [(tracked_entity_instance_id e1, d)]
                     else []
                 | None => []
                 end)
       (fact_eidsr_event_data w)).

(** The [WHERE] clause on the attribute row; a NULL value matches no
    pattern. *)
Definition death_attribute (tea : entity_attribute) : bool :=
  (Text.contains "death" (Text.lower (display_name tea)) &&
   match attribute_value tea with
   | Some v =>
       Text.contains "death" (Text.lower v) ||
       Text.contains "died" (Text.lower v) ||
       Text.contains "dead" (Text.lower v) ||
       String.eqb (Text.lower v) "yes"
   | None => false
   end)%bool.

(** [tea.entity_id = me.entity_id]; a NULL never matches. *)
Definition same_entity (tea : entity_attribute) (me : option string * date)
    : bool :=
  match fst me with
  | Some t => String.eqb (entity_id tea) t
  | None => false
  end.

Definition total_deaths (w : warehouse) : Z :=
  Sql.count_distinct String.eqb
    (map (fun x : entity_attribute * (option string * date) =>
            Some (entity_id (fst x)))
       (filter (fun x : entity_attribute * (option string * date) =>
                  death_attribute (fst x))
          (Sql.inner_join same_entity
             (fact_eidsr_tracked_entity_attributes w) (measles_events w)))).

Definition get_measles_total_deaths (eng : engine) : Z :=
  try_except (w <- connect eng ;; Returned (total_deaths w)) 0.

End TotalDeaths.

(* ================================================================== *)
(** ** [get_time_period_options] *)
(* ================================================================== *)

Module TimePeriods.

(** [TO_CHAR(date, 'Month')]: the month name, blank-padded to nine
    characters.  A date has a month from 1 to 12; the empty text stands
    for any other number. *)
Definition to_char_month (m : Z) : string :=
  match m with
  | 1 => "January  " | 2 => "February " | 3 => "March    "
  | 4 => "April    " | 5 => "May      " | 6 => "June     "
  | 7 => "July     " | 8 => "August   " | 9 => "September"
  | 10 => "October  " | 11 => "November " | 12 => "December "
  | _ => ""
  end.

(** Python's [s.strip()]. *)
Definition strip (s : string) : string :=
  string_of_list_ascii
    (rev (Parameters.drop_while Filters.is_space
            (rev (Parameters.drop_while Filters.is_space
                    (list_ascii_of_string s))))).

(** A row of the data frame. *)
Record row := mkRow {
  year : Z;
  month : Z;
  month_name : string;
  cases : Z
}.

(** An entry of a year's list in ['months_data']. *)
Record month_option := mkOption {
  o_month : Z;
  o_name : string;
  o_cases : Z;
  o_display : string
}.

(** The dictionary returned; ['months_data'] in insertion order. *)
Record options := mkOptions {
  years : list Z;
  months_data : list (Z * list month_option)
}.

(** The CTE [measles_events]: [(event_id, event_date)], dated or not. *)
Definition measles_events (w : warehouse) : list (string * option date) :=
  Sql.distinct Weekly.nullable_id_date_eqb
    (map (fun e => (event_id e, event_date e))
       (filter is_measles (fact_eidsr_event_data w))).

Definition dated (mes : list (string * option date)) : list (string * date) :=
  flat_map (fun me : string * option date =>
              match snd me with
              | Some d => [(fst me, d)]
              | None => []
              end) mes.

Definition group_key (me : string * date) : Z * Z * string :=
  (d_year (snd me), d_month (snd me), to_char_month (d_month (snd me))).

Definition key_eqb (a b : Z * Z * string) : bool :=
  ((fst (fst a) =? fst (fst b)) && (snd (fst a) =? snd (fst b)) &&
   String.eqb (snd a) (snd b))%bool.

(** [ORDER BY year DESC, month DESC]. *)
Definition latest_first (a b : row) : bool :=
  ((year b <? year a) || ((year a =? year b) && (month b <=? month a)))%bool.

Definition query (w : warehouse) : list row :=
  Sql.order_by latest_first
    (map (fun g : (Z * Z * string) * list (string * date) =>
            mkRow (fst (fst (fst g))) (snd (fst (fst g))) (snd (fst g))
              (Sql.count_distinct String.eqb
                 (map (fun me : string * date => Some (fst me)) (snd g))))
       (Sql.group_by group_key key_eqb (dated (measles_events w)))).

(** [sorted(df['year'].unique(), reverse=True)]. *)
Definition sorted_years (df : list row) : list Z :=
  Sql.order_by (fun a b => b <=? a) (Sql.distinct Z.eqb (map year df)).

Definition month_entry (y : Z) (r : row) : month_option :=
  let name := strip (month_name r) in
  mkOption (month r) name (cases r) (name ++ " " ++ Filters.str y).

Definition fetch (eng : engine) : outcome options :=
  w <- connect eng ;;
  let df := query w in
  let years := sorted_years df in
  Returned
    (mkOptions years
       (map (fun y =>
               (y, map (month_entry y) (filter (fun r => year r =? y) df)))
          years)).

Definition fallback (current_year : Z) : options :=
  mkOptions [current_year]
    [(current_year,
      [mkOption 1 "January" 0
         ("January " ++ Filters.str current_year ++ " (0 cases)")])].

Definition get_time_period_options (eng : engine) (current_year : Z)
    : options :=
  try_except (fetch eng) (fallback current_year).

End TimePeriods.

(* ================================================================== *)
(** * Facts about the relational operators *)
(* ================================================================== *)

Module SqlFacts.

Section Ordering.
Context {A : Type} (leb : A -> A -> bool).

Lemma insert_perm (a : A) (l : list A) :
  Permutation (Sql.insert leb a l) (a :: l).
Proof.
  induction l as [|b t IH]; simpl.
  - reflexivity.
  - destruct (leb a b).
    + reflexivity.
    + rewrite IH. apply perm_swap.
Qed.

Lemma order_by_perm (l : list A) : Permutation (Sql.order_by leb l) l.
Proof.
  induction l as [|a t IH]; simpl.
  - reflexivity.
  - rewrite insert_perm. now constructor.
Qed.

Lemma in_order_by (x : A) (l : list A) :
  In x (Sql.order_by leb l) <-> In x l.
Proof.
  split; apply Permutation_in;
    [apply order_by_perm | symmetry; apply order_by_perm].
Qed.

Lemma order_by_length (l : list A) :
  List.length (Sql.order_by leb l) = List.length l.
Proof. apply Permutation_length, order_by_perm. Qed.
End Ordering.

Lemma in_limit {A : Type} (n : nat) (x : A) (l : list A) :
  In x (Sql.limit n l) -> In x l.
Proof.
  unfold Sql.limit. revert n. induction l as [|a t IH]; intros [|n]; simpl; auto.
  - intros []. 
  - intros [->|H]; eauto.
Qed.

Lemma limit_length {A : Type} (n : nat) (l : list A) :
  (List.length (Sql.limit n l) <= n)%nat.
Proof. unfold Sql.limit. apply firstn_le_length. Qed.

Lemma in_lag {A B : Type} (e : A -> B) (a : A) (p : option B) (l : list A) :
  In (a, p) (Sql.lag e l) -> In a l.
Proof. unfold Sql.lag. apply in_combine_l. Qed.

Lemma in_distinct {A : Type} (eqb : A -> A -> bool) (x : A) (l : list A) :
  In x (Sql.distinct eqb l) -> In x l.
Proof.
  induction l as [|a t IH]; simpl; auto.
  intros [->|H]; auto.
  apply filter_In in H. tauto.
Qed.

Lemma in_group_by {A K : Type} (key : A -> K) (keqb : K -> K -> bool)
    (rows : list A) (k : K) (g : list A) :
  In (k, g) (Sql.group_by key keqb rows) ->
  In k (map key rows) /\ g = filter (fun r => keqb (key r) k) rows.
Proof.
  unfold Sql.group_by. intros H. apply in_map_iff in H.
  destruct H as [k' [E H]]. inversion E; subst.
  split; auto. eapply in_distinct; eauto.
Qed.

Lemma count_distinct_nonneg {A : Type} (eqb : A -> A -> bool)
    (l : list (option A)) : 0 <= Sql.count_distinct eqb l.
Proof. unfold Sql.count_distinct. lia. Qed.

(** A sum over fewer rows of non-negative values is no larger. *)
Lemma total_filter_mono {A : Type} (f : A -> Z) (p q : A -> bool) (l : list A) :
  (forall x, In x l -> 0 <= f x) ->
  (forall x, In x l -> p x = true -> q x = true) ->
  Sql.total (map f (filter p l)) <= Sql.total (map f (filter q l)).
Proof.
  induction l as [|a t IH]; intros Hf Hpq; simpl.
  - lia.
  - assert (IH' := IH (fun x H => Hf x (or_intror H))
                      (fun x H => Hpq x (or_intror H))).
    assert (Ha := Hf a (or_introl eq_refl)).
    destruct (p a) eqn:Pa.
    + rewrite (Hpq a (or_introl eq_refl) Pa). simpl. lia.
    + destruct (q a); simpl; lia.
Qed.

Lemma sum_nonempty (l : list Z) : l <> [] -> Sql.sum l = Some (Sql.total l).
Proof. destruct l; [congruence | reflexivity]. Qed.

End SqlFacts.

(* ================================================================== *)
(** * Epi-week aggregator, all years *)
(* ================================================================== *)

Module WeeklyFacts.
Import Weekly.

Lemma key_leb_refl (k : Z * Z) : key_leb k k = true.
Proof.
  unfold key_leb. rewrite Z.eqb_refl, Z.leb_refl. simpl. apply orb_true_r.
Qed.

Lemma key_leb_trans (a b c : Z * Z) :
  key_leb a b = true -> key_leb b c = true -> key_leb a c = true.
Proof.
  unfold key_leb. destruct a as [a1 a2], b as [b1 b2], c as [c1 c2]. simpl.
  rewrite !orb_true_iff, !andb_true_iff, !Z.ltb_lt, !Z.eqb_eq, !Z.leb_le.
  lia.
Qed.

Lemma weekly_counts_nonneg (events : list (string * date)) (b : bucket) :
  In b (weekly_counts events) -> 0 <= weekly_cases b.
Proof.
  unfold weekly_counts. intros H. apply in_map_iff in H.
  destruct H as [g [<- _]]. simpl. apply SqlFacts.count_distinct_nonneg.
Qed.

(** The sub-select is never NULL on a row of [all_weekly_data]: the row
    itself is among those it sums. *)
Lemma cumulative_subselect_history (awd : list bucket) (oad : bucket) :
  In oad awd ->
  cumulative_subselect awd oad = Some (Spec.history_up_to awd (key oad)).
Proof.
  intros H. unfold cumulative_subselect, Spec.history_up_to.
  apply SqlFacts.sum_nonempty.
  intros E. apply map_eq_nil in E.
  match type of E with
  | filter ?f awd = [] => assert (In oad (filter f awd)) as Hin
  end.
  { apply filter_In. split; auto. apply (key_leb_refl (key oad)). }
  rewrite E in Hin. destruct Hin.
Qed.

Lemma history_up_to_mono (events : list (string * date)) (k1 k2 : Z * Z) :
  key_leb k1 k2 = true ->
  Spec.history_up_to (weekly_counts events) k1
  <= Spec.history_up_to (weekly_counts events) k2.
Proof.
  intros H. unfold Spec.history_up_to. apply SqlFacts.total_filter_mono.
  - intros x; apply weekly_counts_nonneg.
  - intros x _ Hx. eapply key_leb_trans; eauto.
Qed.

(** Every row of the cumulative statement is a bucket of the whole
    history, annotated by the sub-select. *)
Lemma cumulative_query_row (w : warehouse) (sd ed : option date) (r : row) :
  In r (cumulative_query w sd ed) ->
  exists oad,
    In oad (all_weekly_data w sd ed) /\
    Year r = year oad /\ Epi_Week r = epi_week oad /\
    Weekly_Confirmed_Cases r = weekly_cases oad /\
    Cumulative_Confirmed_Cases r =
      cumulative_subselect (all_weekly_data w sd ed) oad.
Proof.
  unfold cumulative_query, cumulative_all_data. intros H.
  apply SqlFacts.in_order_by in H. apply in_map_iff in H.
  destruct H as [[[oad c] prev] [<- H]].
  apply SqlFacts.in_lag in H. apply SqlFacts.in_order_by in H.
  apply in_map_iff in H. destruct H as [oad' [E H]]. inversion E; subst.
  exists oad. repeat split; auto.
  unfold ordered_all_data in H.
  apply SqlFacts.in_limit in H. now apply SqlFacts.in_order_by in H.
Qed.

End WeeklyFacts.

(** C6. In the all-years mode of the epi-week aggregator every returned
    bucket carries the sum of the weekly counts of all buckets in history
    up to and including it, and of two returned buckets the one that is
    later in [(year, week)] order carries a cumulative sum at least as
    large. *)
Theorem cumulative_mode_running_total :
  forall (eng : engine) (start_date end_date : option date) (r1 r2 : Weekly.row),
    In r1 (Weekly.get_measles_weekly_data eng None start_date end_date) ->
    In r2 (Weekly.get_measles_weekly_data eng None start_date end_date) ->
    Weekly.key_leb (Weekly.Year r1, Weekly.Epi_Week r1)
                   (Weekly.Year r2, Weekly.Epi_Week r2) = true ->
    exists (w : warehouse) (c1 c2 : Z),
      eng = Connected w /\
      Weekly.Cumulative_Confirmed_Cases r1 = Some c1 /\
      Weekly.Cumulative_Confirmed_Cases r2 = Some c2 /\
      c1 = Spec.history_up_to (Weekly.all_weekly_data w start_date end_date)
             (Weekly.Year r1, Weekly.Epi_Week r1) /\
      c2 = Spec.history_up_to (Weekly.all_weekly_data w start_date end_date)
             (Weekly.Year r2, Weekly.Epi_Week r2) /\
      c1 <= c2.
Proof.
  intros [w|] sd ed r1 r2 H1 H2 Hle; [|destruct H1].
  unfold Weekly.get_measles_weekly_data, Weekly.fetch in H1, H2. simpl in H1, H2.
  apply WeeklyFacts.cumulative_query_row in H1, H2.
  destruct H1 as [b1 [In1 [Y1 [W1 [_ C1]]]]].
  destruct H2 as [b2 [In2 [Y2 [W2 [_ C2]]]]].
  rewrite WeeklyFacts.cumulative_subselect_history in C1, C2 by assumption.
  exists w. eexists. eexists.
  split; [reflexivity|]. split; [exact C1|]. split; [exact C2|].
  unfold Weekly.key. rewrite <- Y1, <- W1, <- Y2, <- W2.
  split; [reflexivity|]. split; [reflexivity|].
  apply WeeklyFacts.history_up_to_mono. exact Hle.
Qed.

Lemma cumulative_mode_running_total_witness :
  exists (w : warehouse) (c1 c2 : Z),
    Connected Samples.two_weeks = Connected w /\
    Some 1 = Some c1 /\ Some 3 = Some c2 /\
    c1 = Spec.history_up_to (Weekly.all_weekly_data w None None) (2024, 10) /\
    c2 = Spec.history_up_to (Weekly.all_weekly_data w None None) (2024, 11) /\
    c1 <= c2.
Proof.
  apply (cumulative_mode_running_total (Connected Samples.two_weeks) None None
           (Weekly.mkRow 2024 10 1 (Some 1) (Some (-500)))
           (Weekly.mkRow 2024 11 2 (Some 3) None)).
  - vm_compute. right. left. reflexivity.
  - vm_compute. left. reflexivity.
  - reflexivity.
Defined.

(* ================================================================== *)
(** * Percent change *)
(* ================================================================== *)

Module PercentFacts.

(** [round_div n d] is a nearest integer to [n / d]. *)
Lemma round_div_nearest (n d : Z) :
  0 < d -> 2 * Z.abs (round_div n d * d - n) <= d.
Proof.
  intros Hd. unfold round_div.
  destruct (0 <=? n) eqn:Hn.
  - pose proof (Z.div_mod (2 * n + d) (2 * d) ltac:(lia)) as E.
    pose proof (Z.mod_pos_bound (2 * n + d) (2 * d) ltac:(lia)) as B.
    set (q := (2 * n + d) / (2 * d)) in *. nia.
  - pose proof (Z.div_mod (2 * - n + d) (2 * d) ltac:(lia)) as E.
    pose proof (Z.mod_pos_bound (2 * - n + d) (2 * d) ltac:(lia)) as B.
    set (q := (2 * - n + d) / (2 * d)) in *. nia.
Qed.

(** The column is NULL exactly when the earlier count is NULL or zero. *)
Lemma percent_change_null (curr : Z) (prev : option Z) :
  percent_change curr prev = None <-> prev = None \/ prev = Some 0.
Proof.
  unfold percent_change. destruct prev as [p|].
  - destruct (p =? 0) eqn:E.
    + apply Z.eqb_eq in E. subst. tauto.
    + apply Z.eqb_neq in E. split; [discriminate|].
      intros [H|H]; [discriminate | congruence].
  - tauto.
Qed.

(** Otherwise it is [(curr - prev) / prev * 100] to the nearest tenth. *)
Lemma percent_change_value (curr p : Z) :
  0 < p ->
  exists t, percent_change curr (Some p) = Some t /\
            2 * Z.abs (t * p - (curr - p) * 1000) <= p.
Proof.
  intros Hp. unfold percent_change.
  destruct (p =? 0) eqn:E; [apply Z.eqb_eq in E; lia|].
  eexists. split; [reflexivity|]. now apply round_div_nearest.
Qed.

(** The district statement applies the column to the two week counts of
    the district. *)
Lemma district_percent_change (ds : TopDistricts.summary) :
  TopDistricts.Percentage_Change_in_Cases (TopDistricts.output ds)
  = percent_change (TopDistricts.cases_last_epiweek ds)
                   (Some (TopDistricts.cases_prev_epiweek ds)).
Proof. reflexivity. Qed.

End PercentFacts.

(** C2. With one case in week 10 of 2024 and two in week 11, the epi-week
    aggregator leaves the percent change of week 11 NULL although the
    week before it has one case, and gives week 10 the change -50.0
    measured against week 11, the week after it; against the preceding
    bucket the changes are +100.0 for week 11 and NULL for week 10.  Both
    modes of the function behave so. *)
Theorem weekly_percent_change_reads_following_week :
  let history := Weekly.all_weekly_data Samples.two_weeks None None in
  let expected :=
    [Weekly.mkRow 2024 11 2 (Some 3) None;
     Weekly.mkRow 2024 10 1 (Some 1) (Some (-500))] in
  Weekly.get_measles_weekly_data (Connected Samples.two_weeks) None None None
    = expected /\
  Weekly.get_measles_weekly_data (Connected Samples.two_weeks) (Some 2024)
    None None = expected /\
  Spec.percent_change_vs_preceding history (Weekly.mkBucket 2024 11 2)
    = Some 1000 /\
  Spec.percent_change_vs_preceding history (Weekly.mkBucket 2024 10 1) = None.
Proof. vm_compute. repeat split. Qed.

(* ================================================================== *)
(** * Epi-week aggregator, one year *)
(* ================================================================== *)

(** C5. With one case in each of the weeks 1 to 11 of 2024, the one-year
    mode returns the weeks 11 down to 2 with cumulative sums 10 down to 1:
    the sums run over the ten returned buckets only, while the year's
    counts up to each bucket add up to 11 down to 2. *)
Theorem single_year_cumulative_counts_returned_buckets_only :
  let rows :=
    Weekly.get_measles_weekly_data (Connected Samples.eleven_weeks) (Some 2024)
      None None in
  map (fun r => (Weekly.Epi_Week r, Weekly.Cumulative_Confirmed_Cases r)) rows
    = [(11, Some 10); (10, Some 9); (9, Some 8); (8, Some 7); (7, Some 6);
       (6, Some 5); (5, Some 4); (4, Some 3); (3, Some 2); (2, Some 1)] /\
  map (fun r =>
         Spec.year_to_date (Weekly.all_weekly_data Samples.eleven_weeks None None)
           (Weekly.Year r) (Weekly.Epi_Week r)) rows
    = [11; 10; 9; 8; 7; 6; 5; 4; 3; 2].
Proof. vm_compute. split; reflexivity. Qed.

(* ================================================================== *)
(** * District aggregator *)
(* ================================================================== *)

Module TopDistrictsFacts.
Import TopDistricts.

(** The previous week is the week before, and week 52 of the year before
    when the latest week is week 1. *)
Lemma previous_epi_week_wraps (max_year : Z) :
  previous_epi_week (Some max_year, Some 1) = (Some (max_year - 1), Some 52).
Proof. reflexivity. Qed.

Lemma previous_epi_week_steps (max_year max_week : Z) :
  max_week <> 1 ->
  previous_epi_week (Some max_year, Some max_week)
  = (Some max_year, Some (max_week - 1)).
Proof.
  intros H. unfold previous_epi_week.
  apply Z.eqb_neq in H. now rewrite H.
Qed.

Lemma ranking_total (a b : summary) :
  ranking a b = false -> ranking b a = true.
Proof.
  unfold ranking.
  rewrite orb_false_iff, andb_false_iff, orb_true_iff, andb_true_iff.
  rewrite !Z.ltb_ge, !Z.ltb_lt, !Z.eqb_eq, Z.eqb_neq, Z.leb_gt, Z.leb_le. lia.
Qed.

Lemma ranking_trans (a b c : summary) :
  ranking a b = true -> ranking b c = true -> ranking a c = true.
Proof.
  unfold ranking.
  rewrite !orb_true_iff, !andb_true_iff, !Z.ltb_lt, !Z.eqb_eq, !Z.leb_le. lia.
Qed.

(** A row of the result comes from a group of [district_data] that passed
    the final [WHERE]. *)
Lemma query_row (w : warehouse) (year : option Z) (r : row) :
  In r (query w year) ->
  exists ds,
    r = output ds /\ In ds (district_summary w year) /\
    Text.contains "Test District" (district_name ds) = false /\
    String.eqb (district_name ds) "Unknown District" = false /\
    0 < total_cases ds.
Proof.
  unfold query. intros H. apply in_map_iff in H. destruct H as [ds [<- H]].
  apply SqlFacts.in_limit in H. apply SqlFacts.in_order_by in H.
  apply filter_In in H. destruct H as [H F].
  rewrite !andb_true_iff, !negb_true_iff, Z.ltb_lt in F.
  exists ds. tauto.
Qed.

Lemma district_data_name (w : warehouse) (year : option Z) (dd : district_datum) :
  In dd (district_data w year) -> dd_district_name dd <> "Unknown".
Proof.
  unfold district_data. intros H. apply in_flat_map in H.
  destruct H as [[[me doh] de] [_ H]].
  destruct doh as [h|]; [|destruct H].
  destruct (dwh.district_name h) as [n|]; [|destruct H].
  destruct (String.eqb n "Unknown") eqn:E; simpl in H; [destruct H|].
  destruct H as [<-|[]]. simpl. now apply String.eqb_neq.
Qed.

(** No row of the ranking carries one of the excluded names. *)
Lemma top_districts_names (eng : engine) (year : option Z) (r : row) :
  In r (get_measles_top_10_districts eng year) ->
  ~ In (District r) Spec.excluded_names.
Proof.
  destruct eng as [w|]; [|intros []].
  unfold get_measles_top_10_districts, fetch. simpl.
  intros H. apply query_row in H.
  destruct H as [ds [-> [Hin [Htest [Hunk _]]]]].
  unfold district_summary in Hin. apply in_map_iff in Hin.
  destruct Hin as [[name g] [<- Hin]].
  apply SqlFacts.in_group_by in Hin. destruct Hin as [Hname _].
  apply in_map_iff in Hname. destruct Hname as [dd [<- Hdd]].
  apply district_data_name in Hdd. simpl in *.
  intros [E|[E|[E|[]]]]; rewrite <- E in *.
  - now apply Hdd.
  - discriminate Hunk.
  - discriminate Htest.
Qed.

(** The rows are at most twelve and come in ranking order: total cases
    descending, then cases of the last epi-week descending. *)
Lemma insert_sorted (a : summary) (l : list summary) :
  Sorted.StronglySorted (fun x y => ranking x y = true) l ->
  Sorted.StronglySorted (fun x y => ranking x y = true) (Sql.insert ranking a l).
Proof.
  induction 1 as [|b t Ht IH Hb]; simpl.
  - repeat constructor.
  - destruct (ranking a b) eqn:E.
    + constructor; [now constructor|].
      constructor; [exact E|].
      eapply Forall_impl; [|exact Hb]. intros c Hc. eapply ranking_trans; eauto.
    + constructor; [exact IH|].
      apply ranking_total in E.
      assert (Permutation (Sql.insert ranking a t) (a :: t)) as P
        by apply SqlFacts.insert_perm.
      eapply Permutation_Forall; [symmetry; exact P|]. now constructor.
Qed.

Lemma order_by_sorted (l : list summary) :
  Sorted.StronglySorted (fun x y => ranking x y = true) (Sql.order_by ranking l).
Proof.
  induction l as [|a t IH]; simpl; [constructor | now apply insert_sorted].
Qed.

Lemma firstn_sorted {A : Type} (R : A -> A -> Prop) (n : nat) (l : list A) :
  Sorted.StronglySorted R l -> Sorted.StronglySorted R (firstn n l).
Proof.
  intros H. revert n. induction H as [|a t Ht IH Ha]; intros [|n]; simpl;
    try constructor; auto.
  apply Forall_forall. intros x Hx. rewrite Forall_forall in Ha.
  apply Ha. eapply SqlFacts.in_limit. exact Hx.
Qed.

Lemma output_sorted (l : list summary) :
  Sorted.StronglySorted (fun x y => ranking x y = true) l ->
  Sorted.StronglySorted Spec.ranked_before (map output l).
Proof.
  induction 1 as [|a t Ht IH Ha]; simpl; constructor; auto.
  apply Forall_forall. intros r Hr. apply in_map_iff in Hr.
  destruct Hr as [b [<- Hb]]. rewrite Forall_forall in Ha.
  specialize (Ha b Hb). unfold ranking in Ha. unfold Spec.ranked_before. simpl.
  rewrite orb_true_iff, andb_true_iff, Z.ltb_lt, Z.eqb_eq, Z.leb_le in Ha.
  exact Ha.
Qed.

Lemma top_districts_ranked (eng : engine) (year : option Z) :
  Sorted.StronglySorted Spec.ranked_before (get_measles_top_10_districts eng year) /\
  (List.length (get_measles_top_10_districts eng year) <= 12)%nat.
Proof.
  destruct eng as [w|]; [|split; [constructor | simpl; lia]].
  change (get_measles_top_10_districts (Connected w) year) with (query w year).
  unfold query, Sql.limit. split.
  - apply output_sorted, firstn_sorted, order_by_sorted.
  - rewrite length_map. apply SqlFacts.limit_length.
Qed.

End TopDistrictsFacts.

(** C4. With events on 13 December 2023 (week 50) and 17 January 2024
    (week 3) in one district, the district aggregator takes 2024 as the
    latest year and 50 as the latest week, a bucket no event falls in, so
    it reports no case for the last epi-week; the latest bucket present
    in the data is week 3 of 2024, where the district has one case. *)
Theorem latest_epi_week_is_not_a_bucket_of_the_data :
  let mes := TopDistricts.measles_events Samples.across_new_year None in
  TopDistricts.latest_epi_week mes = (Some 2024, Some 50) /\
  Spec.latest_bucket_present mes = Some (2024, 3) /\
  TopDistricts.get_measles_top_10_districts (Connected Samples.across_new_year)
    None
    = [TopDistricts.mkRow "Abim District" 2 0 0 0 None] /\
  Spec.cases_in_bucket
    (TopDistricts.district_data Samples.across_new_year None)
    "Abim District" (2024, 3) = 1.
Proof. vm_compute. repeat split. Qed.

(* ================================================================== *)
(** * Excluded district names *)
(* ================================================================== *)

Module NameFacts.

Lemma reportable_name (doh : org_hierarchy) (n : string) :
  TotalProportions.reportable doh = Some n ->
  n <> "Unknown" /\ n <> "1 Test District".
Proof.
  unfold TotalProportions.reportable.
  destruct (district_name doh) as [m|]; [|discriminate].
  destruct (String.eqb m "Unknown") eqn:E1; [discriminate|].
  destruct (String.eqb m "1 Test District") eqn:E2; [discriminate|].
  simpl. intros [= <-]. split; now apply String.eqb_neq.
Qed.

Lemma district_counts_name (w : warehouse) (recent : bool) (d : string) (v : Z) :
  In (d, v) (Choropleth.district_counts w recent) ->
  d <> "Unknown" /\ d <> "1 Test District".
Proof.
  unfold Choropleth.district_counts. intros H.
  apply in_map_iff in H. destruct H as [[name g] [E H]]. inversion E; subst.
  apply SqlFacts.in_group_by in H. destruct H as [H _].
  apply in_map_iff in H. destruct H as [[n ev] [<- H]].
  apply in_flat_map in H. destruct H as [x [_ H]].
  destruct (TotalProportions.reportable (snd x)) as [m|] eqn:R; [|destruct H].
  destruct H as [[= <- _]|[]]. simpl. eapply reportable_name; eauto.
Qed.

(** The four choropleth mappings show neither ['Unknown'] nor the test
    district. *)
Lemma choropleth_names (eng : engine) (d : string) (v : Z) :
  In (d, v) (Choropleth.get_measles_cumulative_cases_by_district eng) \/
  In (d, v) (Choropleth.get_measles_districts_reporting_last_21_days eng) \/
  In (d, v) (Choropleth.get_measles_attack_rates_by_district_cumulative eng) \/
  In (d, v) (Choropleth.get_measles_current_case_rates_by_district_21_days eng) ->
  d <> "Unknown" /\ d <> "1 Test District".
Proof.
  destruct eng as [w|]; simpl; [|tauto].
  intros [H|[H|[H|H]]].
  - apply SqlFacts.in_order_by in H. eapply district_counts_name; eauto.
  - apply SqlFacts.in_order_by in H. eapply district_counts_name; eauto.
  - unfold Choropleth.rates in H. apply SqlFacts.in_order_by in H.
    apply in_map_iff in H. destruct H as [[n c] [[= <- _] H]].
    apply filter_In in H. eapply district_counts_name. apply H.
  - unfold Choropleth.rates in H. apply SqlFacts.in_order_by in H.
    apply in_map_iff in H. destruct H as [[n c] [[= <- _] H]].
    apply filter_In in H. eapply district_counts_name. apply H.
Qed.

End NameFacts.

(** C1. With one measles death recorded under the hierarchy row named
    ['Unknown'] and one under ['1 Test District'],
    [get_measles_deaths_by_district] returns a row for each of the two
    names, in whichever order, both of which the specification excludes
    from every district-level aggregate. *)
Theorem deaths_by_district_shows_excluded_names :
  let rows :=
    DeathsByDistrict.get_measles_deaths_by_district
      (Connected Samples.deaths_under_sentinels) None None None in
  In (Some "Unknown", 1) rows /\
  In (Some "1 Test District", 1) rows /\
  In "Unknown" Spec.excluded_names /\
  In "1 Test District" Spec.excluded_names.
Proof. vm_compute. intuition. Qed.

(* ================================================================== *)
(** * Facts about the text functions *)
(* ================================================================== *)

Module TextFacts.
Import Text.

Lemma prefix_occurs (p s : string) :
  String.prefix p s = true <-> exists post, s = p ++ post.
Proof.
  revert s. induction p as [|c p IH]; intros s.
  - split; [intros _; exists s; reflexivity | destruct s; reflexivity].
  - destruct s as [|d s]; simpl.
    + split; [discriminate | intros [post H]; discriminate].
    + destruct (Ascii.ascii_dec c d) as [E|N].
      * rewrite IH, E. split; intros [post H]; exists post; congruence.
      * split; [discriminate | intros [post H]; congruence].
Qed.

Lemma contains_empty (p : string) :
  contains p "" = (String.prefix p "" || false)%bool.
Proof. reflexivity. Qed.

Lemma contains_cons (p : string) (c : ascii) (s : string) :
  contains p (String c s) = (String.prefix p (String c s) || contains p s)%bool.
Proof. reflexivity. Qed.

(** [contains p s] decides whether [p] occurs in [s]. *)
Lemma contains_occurs (p s : string) :
  contains p s = true <-> Spec.occurs_in p s.
Proof.
  unfold Spec.occurs_in. induction s as [|c s IH].
  - rewrite contains_empty, orb_false_r, prefix_occurs. split.
    + intros [post H]. exists "", post. exact H.
    + intros [pre [post H]]. destruct pre; simpl in H.
      * exists post. exact H.
      * discriminate.
  - rewrite contains_cons, orb_true_iff, IH, prefix_occurs. split.
    + intros [[post H]|[pre [post H]]].
      * exists "", post. exact H.
      * exists (String c pre), post. simpl. now rewrite H.
    + intros [pre [post H]]. destruct pre as [|d pre]; simpl in H.
      * left. exists post. exact H.
      * right. exists pre, post. congruence.
Qed.

Lemma append_assoc (a b c : string) : (a ++ b) ++ c = a ++ b ++ c.
Proof. induction a as [|x a IH]; simpl; [reflexivity | now rewrite IH]. Qed.

Lemma occurs_in_longer (a p b s : string) :
  Spec.occurs_in (a ++ p ++ b) s -> Spec.occurs_in p s.
Proof.
  intros [pre [post H]]. exists (pre ++ a), (b ++ post).
  rewrite H. now rewrite !append_assoc.
Qed.

Lemma contains_female_male (s : string) :
  contains "female" s = true -> contains "male" s = true.
Proof.
  rewrite !contains_occurs. apply (occurs_in_longer "fe" "male" "").
Qed.

Lemma is_digit_lower (c : ascii) : is_digit (lower_char c) = is_digit c.
Proof. destruct c as [[] [] [] [] [] [] [] []]; reflexivity. Qed.

Lemma all_digits_lower (s : string) :
  all_chars is_digit (lower s) = all_chars is_digit s.
Proof.
  induction s as [|c s IH]; simpl; [reflexivity|].
  now rewrite is_digit_lower, IH.
Qed.

Lemma all_chars_app (f : ascii -> bool) (a b : string) :
  all_chars f (a ++ b) = (all_chars f a && all_chars f b)%bool.
Proof.
  induction a as [|c a IH]; simpl; [reflexivity|].
  now rewrite IH, andb_assoc.
Qed.

Lemma all_chars_get (f : ascii -> bool) (s : string) (i : nat) (c : ascii) :
  all_chars f s = true -> String.get i s = Some c -> f c = true.
Proof.
  revert i. induction s as [|d s IH]; intros i; simpl; [discriminate|].
  rewrite andb_true_iff. intros [Hd Hs]. destruct i as [|i].
  - intros [= <-]. exact Hd.
  - apply IH. exact Hs.
Qed.

Lemma any_char_get (f : ascii -> bool) (s : string) (i : nat) (c : ascii) :
  any_char f s = false -> String.get i s = Some c -> f c = false.
Proof.
  revert i. induction s as [|d s IH]; intros i; simpl; [discriminate|].
  rewrite orb_false_iff. intros [Hd Hs]. destruct i as [|i].
  - intros [= <-]. exact Hd.
  - apply IH. exact Hs.
Qed.

(** A text in which a word with a letter occurs is not all digits. *)
Lemma occurs_not_all_digits (p s : string) :
  all_chars is_digit p = false -> Spec.occurs_in p s ->
  all_chars is_digit s = false.
Proof.
  intros Hp [pre [post ->]]. rewrite !all_chars_app, Hp.
  now rewrite andb_false_r.
Qed.

End TextFacts.

(* ================================================================== *)
(** * Sex categories *)
(* ================================================================== *)

Module SexFacts.
Import Demographics.

Lemma sex_by_substring_cases (s : string) :
  (sex_by_substring (Some s) = "Male" <->
     Spec.occurs_in "male" (Text.lower s) /\
     ~ Spec.occurs_in "female" (Text.lower s)) /\
  (sex_by_substring (Some s) = "Female" <->
     Spec.occurs_in "female" (Text.lower s)) /\
  (sex_by_substring (Some s) = "Unknown" <->
     ~ Spec.occurs_in "male" (Text.lower s) /\
     ~ Spec.occurs_in "female" (Text.lower s)).
Proof.
  unfold sex_by_substring.
  rewrite <- !TextFacts.contains_occurs.
  destruct (Text.contains "female" (Text.lower s)) eqn:F.
  - rewrite (TextFacts.contains_female_male _ F). simpl.
    repeat split; intros; try discriminate; intuition congruence.
  - destruct (Text.contains "male" (Text.lower s)) eqn:M; simpl;
      repeat split; intros; try discriminate; intuition congruence.
Qed.

Lemma sex_by_equality_cases (s : string) :
  (sex_by_equality (Some s) = "Male" <-> Text.lower s = "male") /\
  (sex_by_equality (Some s) = "Female" <-> Text.lower s = "female") /\
  (sex_by_equality (Some s) = "Unknown" <->
     Text.lower s <> "male" /\ Text.lower s <> "female").
Proof.
  unfold sex_by_equality.
  destruct (String.eqb (Text.lower s) "male") eqn:M.
  - apply String.eqb_eq in M. rewrite M.
    repeat split; intros; try discriminate; intuition congruence.
  - apply String.eqb_neq in M.
    destruct (String.eqb (Text.lower s) "female") eqn:F.
    + apply String.eqb_eq in F. rewrite F.
      repeat split; intros; try discriminate; intuition congruence.
    + apply String.eqb_neq in F.
      repeat split; intros; try discriminate; intuition congruence.
Qed.

End SexFacts.

(** C9, counterexample.  At the call site of [get_measles_weekly_by_sex]
    the value "transmale", which contains "male" and not "female", is not
    classified "Male". *)
Lemma weekly_by_sex_does_not_match_substrings :
  Spec.occurs_in "male" (Text.lower "transmale") /\
  ~ Spec.occurs_in "female" (Text.lower "transmale") /\
  Demographics.weekly_by_sex_sex_group (Some "transmale") <> "Male".
Proof.
  rewrite <- !TextFacts.contains_occurs. vm_compute.
  repeat split; discriminate.
Qed.

(** C9, amended.  At the call sites of the gender distribution, the
    age-sex distribution and the demographic table a sex value is
    classified by case-insensitive substring matching: "Male" when its
    lower-cased text contains "male" and not "female", "Female" when it
    contains "female", "Unknown" otherwise.  At the call site of the
    weekly series by sex it is classified by case-insensitive equality:
    "Male" when the lower-cased text is "male", "Female" when it is
    "female", "Unknown" otherwise.  A NULL value is "Unknown" at every
    site. *)
Theorem sex_classification_by_call_site :
  forall (site : option string -> string) (v : string),
    In site [Demographics.gender_distribution_gender_category;
             Demographics.age_sex_distribution_sex_category;
             Demographics.demographic_data_sex_group] ->
    ((site (Some v) = "Male" <->
        Spec.occurs_in "male" (Text.lower v) /\
        ~ Spec.occurs_in "female" (Text.lower v)) /\
     (site (Some v) = "Female" <-> Spec.occurs_in "female" (Text.lower v)) /\
     (site (Some v) = "Unknown" <->
        ~ Spec.occurs_in "male" (Text.lower v) /\
        ~ Spec.occurs_in "female" (Text.lower v)) /\
     site None = "Unknown") /\
    ((Demographics.weekly_by_sex_sex_group (Some v) = "Male" <->
        Text.lower v = "male") /\
     (Demographics.weekly_by_sex_sex_group (Some v) = "Female" <->
        Text.lower v = "female") /\
     (Demographics.weekly_by_sex_sex_group (Some v) = "Unknown" <->
        Text.lower v <> "male" /\ Text.lower v <> "female") /\
     Demographics.weekly_by_sex_sex_group None = "Unknown").
Proof.
  intros site v Hsite. split.
  - assert (site = Demographics.sex_by_substring) as ->.
    { destruct Hsite as [<-|[<-|[<-|[]]]]; reflexivity. }
    pose proof (SexFacts.sex_by_substring_cases v) as [M [F U]].
    split; [exact M | split; [exact F | split; [exact U | reflexivity]]].
  - pose proof (SexFacts.sex_by_equality_cases v) as [M [F U]].
    split; [exact M | split; [exact F | split; [exact U | reflexivity]]].
Qed.

Lemma sex_classification_by_call_site_witness :
  Demographics.gender_distribution_gender_category (Some "FEMALE") = "Female" /\
  Demographics.gender_distribution_gender_category (Some "transmale") = "Male" /\
  Demographics.gender_distribution_gender_category (Some "unspecified")
    = "Unknown" /\
  Demographics.weekly_by_sex_sex_group (Some "transmale") = "Unknown".
Proof.
  pose proof (fun v =>
    sex_classification_by_call_site
      Demographics.gender_distribution_gender_category v
      (or_introl eq_refl)) as H.
  destruct (H "FEMALE") as [[_ [F _]] _].
  destruct (H "transmale") as [[M _] [_ [_ [U _]]]].
  destruct (H "unspecified") as [[_ [_ [N _]]] _].
  split; [|split; [|split]].
  - apply F. apply TextFacts.contains_occurs. reflexivity.
  - apply M. split.
    + apply TextFacts.contains_occurs. reflexivity.
    + rewrite <- TextFacts.contains_occurs. discriminate.
  - apply N. split; rewrite <- TextFacts.contains_occurs; discriminate.
  - apply U. split; discriminate.
Defined.

(* ================================================================== *)
(** * Age bands *)
(* ================================================================== *)

Module AgeFacts.
Import Demographics.

Lemma five_year_band_scheme (age : Z) :
  five_year_band age = Spec.band_of Spec.five_year_bands age.
Proof.
  unfold five_year_band, between. simpl. unfold Spec.within.
  now rewrite andb_true_r.
Qed.

Lemma attack_rate_band_scheme (age : Z) :
  attack_rate_band age = Spec.band_of Spec.attack_rate_bands age.
Proof.
  unfold attack_rate_band, between. simpl. unfold Spec.within.
  now rewrite andb_true_r.
Qed.

Lemma coarse_band_scheme (age : Z) :
  coarse_band (Some age) = Spec.band_of Spec.coarse_bands age.
Proof.
  unfold coarse_band, between. simpl. unfold Spec.within. simpl.
  rewrite andb_true_r.
  replace (age <? 1) with (age <=? 0); [reflexivity|].
  destruct (age <=? 0) eqn:A, (age <? 1) eqn:B; try reflexivity;
    rewrite ?Z.leb_le, ?Z.leb_gt, ?Z.ltb_lt, ?Z.ltb_ge in *; lia.
Qed.

Lemma numeric_all_digits (v : string) :
  numeric v = true -> v <> "" /\ Text.all_chars Text.is_digit v = true.
Proof.
  unfold numeric. rewrite andb_true_iff, negb_true_iff.
  intros [N D]. split; [now apply String.eqb_neq | exact D].
Qed.

Lemma char_at_digit (v : string) (i : nat) (c : ascii) :
  Text.all_chars Text.is_digit v = true -> char_at v i c = true ->
  Text.is_digit c = true.
Proof.
  unfold char_at. intros D. destruct (String.get i v) as [x|] eqn:G;
    [|discriminate].
  intros E. apply Ascii.eqb_eq in E. subst.
  eapply TextFacts.all_chars_get; eauto.
Qed.

(** A string of digits is no date. *)
Lemma numeric_not_date_like (v : string) :
  numeric v = true -> iso_date_like v = false /\ slash_date_like v = false.
Proof.
  intros N. apply numeric_all_digits in N. destruct N as [_ D]. split.
  - unfold iso_date_like. destruct (char_at v 4 "-") eqn:C.
    + apply (char_at_digit _ _ _ D) in C. discriminate C.
    + now rewrite !andb_false_r.
  - unfold slash_date_like. destruct (char_at v 2 "/") eqn:C.
    + apply (char_at_digit _ _ _ D) in C. discriminate C.
    + now rewrite !andb_false_r.
Qed.

Lemma no_digit_not_numeric (v : string) :
  Text.any_char Text.is_digit v = false -> numeric v = false.
Proof.
  unfold numeric. destruct v as [|c v]; [reflexivity|]. simpl.
  rewrite orb_false_iff. intros [-> _]. reflexivity.
Qed.

Lemma no_digit_not_date_like (v : string) :
  Text.any_char Text.is_digit v = false ->
  iso_date_like v = false /\ slash_date_like v = false.
Proof.
  intros A.
  assert (digit_at v 0 = false) as D.
  { unfold digit_at. destruct (String.get 0 v) as [c|] eqn:G; [|reflexivity].
    eapply TextFacts.any_char_get; eauto. }
  unfold iso_date_like, slash_date_like. now rewrite D.
Qed.

(** A text that mentions months or weeks is no string of digits. *)
Lemma months_or_weeks_not_numeric (v : string) :
  Spec.occurs_in "month" (Text.lower v) \/ Spec.occurs_in "week" (Text.lower v) ->
  numeric v = false.
Proof.
  intros H. unfold numeric.
  assert (Text.all_chars Text.is_digit (Text.lower v) = false) as D.
  { destruct H as [H|H];
      eapply TextFacts.occurs_not_all_digits; try exact H; reflexivity. }
  rewrite TextFacts.all_digits_lower in D. rewrite D. apply andb_false_r.
Qed.

Lemma cast_integer_in_range (v : string) :
  digits_value 0 v <= 2147483647 ->
  cast_integer v = Returned (digits_value 0 v).
Proof.
  intros H. unfold cast_integer. apply Z.leb_le in H. now rewrite H.
Qed.

Lemma numeric_or_unknown_numeric (band : Z -> string) (v : string) :
  numeric v = true -> digits_value 0 v <= 2147483647 ->
  numeric_or_unknown band (Some v) = Returned (band (digits_value 0 v)).
Proof.
  intros N R. unfold numeric_or_unknown.
  now rewrite N, (cast_integer_in_range _ R).
Qed.

Lemma numeric_or_unknown_other (band : Z -> string) (v : string) :
  numeric v = false -> numeric_or_unknown band (Some v) = Returned "Unknown".
Proof. intros N. unfold numeric_or_unknown. now rewrite N. Qed.

End AgeFacts.

(** C8, counterexample.  At the call site of the age-sex distribution the
    text "3 months", which contains "month", is classified "Unknown" and
    not into the youngest band "0-4". *)
Lemma months_are_unknown_in_the_age_sex_distribution :
  Spec.occurs_in "month" (Text.lower "3 months") /\
  Demographics.age_sex_distribution_age_group (Some "3 months")
    = Returned "Unknown" /\
  Demographics.age_sex_distribution_age_group (Some "3 months")
    <> Returned (Spec.band_of Spec.five_year_bands 0).
Proof.
  split; [apply TextFacts.contains_occurs; reflexivity|].
  split; [reflexivity | discriminate].
Qed.

(** C8, amended.  A string of digits whose value fits a 32-bit integer is
    mapped by integer comparison into the band scheme of the call site:
    the 5-year bands in the age-sex distribution, the attack-rate bands
    (5-14 in one band) in the attack-rate table, the coarse bands in the
    demographic table.  A text without any digit is "Unknown" in the
    age-sex distribution and the attack-rate table, and in the demographic
    table unless it mentions months or weeks.  A text that mentions
    "month" or "week" is "Unknown" in the age-sex distribution and the
    attack-rate table; in the demographic table it falls into the youngest
    band, "<1 year", unless it starts like a date. *)
Theorem age_classification_by_call_site :
  forall (cal : Demographics.birth_dates) (v : string),
    (Demographics.numeric v = true ->
     Demographics.digits_value 0 v <= 2147483647 ->
     Demographics.age_sex_distribution_age_group (Some v)
       = Returned (Spec.band_of Spec.five_year_bands
                     (Demographics.digits_value 0 v)) /\
     Demographics.attack_rate_age_group (Some v)
       = Returned (Spec.band_of Spec.attack_rate_bands
                     (Demographics.digits_value 0 v)) /\
     Demographics.demographic_data_age_group cal v
       = Returned (Spec.band_of Spec.coarse_bands
                     (Demographics.digits_value 0 v))) /\
    (Text.any_char Text.is_digit v = false ->
     Demographics.age_sex_distribution_age_group (Some v) = Returned "Unknown" /\
     Demographics.attack_rate_age_group (Some v) = Returned "Unknown" /\
     (~ Spec.occurs_in "month" (Text.lower v) ->
      ~ Spec.occurs_in "week" (Text.lower v) ->
      Demographics.demographic_data_age_group cal v = Returned "Unknown")) /\
    (Spec.occurs_in "month" (Text.lower v) \/
     Spec.occurs_in "week" (Text.lower v) ->
     Demographics.age_sex_distribution_age_group (Some v) = Returned "Unknown" /\
     Demographics.attack_rate_age_group (Some v) = Returned "Unknown" /\
     (Demographics.iso_date_like v = false ->
      Demographics.slash_date_like v = false ->
      Demographics.demographic_data_age_group cal v = Returned "<1 year")).
Proof.
  intros cal v. split; [|split].
  - intros N R.
    unfold Demographics.age_sex_distribution_age_group,
      Demographics.attack_rate_age_group.
    rewrite !AgeFacts.numeric_or_unknown_numeric by assumption.
    rewrite AgeFacts.five_year_band_scheme, AgeFacts.attack_rate_band_scheme.
    split; [reflexivity|]. split; [reflexivity|].
    destruct (AgeFacts.numeric_not_date_like v N) as [I S].
    unfold Demographics.demographic_data_age_group, Demographics.calculated_age.
    rewrite I, S, N, (AgeFacts.cast_integer_in_range _ R). unfold bind.
    now rewrite AgeFacts.coarse_band_scheme.
  - intros A.
    pose proof (AgeFacts.no_digit_not_numeric v A) as N.
    unfold Demographics.age_sex_distribution_age_group,
      Demographics.attack_rate_age_group.
    rewrite !AgeFacts.numeric_or_unknown_other by assumption.
    split; [reflexivity|]. split; [reflexivity|].
    intros M W. rewrite <- TextFacts.contains_occurs in M, W.
    apply not_true_is_false in M, W.
    destruct (AgeFacts.no_digit_not_date_like v A) as [I S].
    unfold Demographics.demographic_data_age_group, Demographics.calculated_age.
    now rewrite I, S, N, M, W, A.
  - intros MW.
    pose proof (AgeFacts.months_or_weeks_not_numeric v MW) as N.
    unfold Demographics.age_sex_distribution_age_group,
      Demographics.attack_rate_age_group.
    rewrite !AgeFacts.numeric_or_unknown_other by assumption.
    split; [reflexivity|]. split; [reflexivity|].
    intros I S.
    unfold Demographics.demographic_data_age_group, Demographics.calculated_age.
    rewrite I, S, N.
    assert ((Text.contains "month" (Text.lower v) ||
             Text.contains "week" (Text.lower v))%bool = true) as C.
    { apply orb_true_iff.
      destruct MW as [H|H]; [left | right]; now apply TextFacts.contains_occurs. }
    now rewrite C.
Qed.

Lemma age_classification_by_call_site_witness :
  (Demographics.age_sex_distribution_age_group (Some "7") = Returned "5-9" /\
   Demographics.attack_rate_age_group (Some "7") = Returned "5-14" /\
   Demographics.demographic_data_age_group
     (Demographics.mkBirthDates (fun _ => Raised) (fun _ => Raised)) "7"
     = Returned "5-14 years") /\
  (Demographics.age_sex_distribution_age_group (Some "abc") = Returned "Unknown" /\
   Demographics.demographic_data_age_group
     (Demographics.mkBirthDates (fun _ => Raised) (fun _ => Raised)) "abc"
     = Returned "Unknown") /\
  (Demographics.age_sex_distribution_age_group (Some "3 months")
     = Returned "Unknown" /\
   Demographics.demographic_data_age_group
     (Demographics.mkBirthDates (fun _ => Raised) (fun _ => Raised)) "3 months"
     = Returned "<1 year").
Proof.
  pose proof (age_classification_by_call_site
                (Demographics.mkBirthDates (fun _ => Raised) (fun _ => Raised)))
    as H.
  destruct (H "7") as [N7 _].
  destruct (N7 eq_refl ltac:(vm_compute; discriminate)) as [A7 [B7 C7]].
  destruct (H "abc") as [_ [Nabc _]].
  destruct (Nabc eq_refl) as [Aabc [_ Cabc]].
  destruct (H "3 months") as [_ [_ M3]].
  destruct (M3 (or_introl
                  (proj1 (TextFacts.contains_occurs "month"
                            (Text.lower "3 months")) eq_refl)))
    as [A3 [_ C3]].
  split; [|split].
  - split; [exact A7 | split; [exact B7 | exact C7]].
  - split; [exact Aabc|].
    apply Cabc; rewrite <- TextFacts.contains_occurs; discriminate.
  - split; [exact A3 | apply C3; reflexivity].
Defined.

(* ================================================================== *)
(** * Event filter builder *)
(* ================================================================== *)

Module FilterFacts.
Import Filters.

Lemma get_default {V : Type} (d : list (string * V)) (k : string) (default : V) :
  ~ In k (map fst d) -> get d k default = default.
Proof.
  induction d as [|[k' v] t IH]; simpl; [reflexivity|].
  intros H. destruct (String.eqb k k') eqn:E.
  - apply String.eqb_eq in E. subst. tauto.
  - apply IH. tauto.
Qed.

Lemma first_word_nonempty (m : string) (name : string) :
  first_word m = Returned name -> truthy_str (Some m) = Some m.
Proof. destruct m; [discriminate | reflexivity]. Qed.

(** With a year, a month text whose first word is no month name gives the
    conditions of January. *)
Lemma unrecognised_month_conditions (year : option Z) (y : Z)
    (month name : string) :
  truthy_int year = Some y ->
  first_word month = Returned name ->
  month <> "All Months " ++ str y ->
  ~ In name (map fst months) ->
  build_date_conditions year (Some month) = Returned [YearIs y; MonthIs 1].
Proof.
  intros Y W A N. unfold build_date_conditions.
  rewrite Y, (first_word_nonempty _ _ W).
  apply String.eqb_neq in A. rewrite A, W. simpl.
  unfold month_num. now rewrite get_default.
Qed.

Lemma january_conditions (year : option Z) (y : Z) :
  truthy_int year = Some y ->
  build_date_conditions year (Some ("January " ++ str y))
  = Returned [YearIs y; MonthIs 1].
Proof.
  intros Y. unfold build_date_conditions. rewrite Y. reflexivity.
Qed.

(** Without a year no condition is built, whatever the month. *)
Lemma no_year_conditions (year : option Z) (month : option string) :
  truthy_int year = None -> build_date_conditions year month = Returned [].
Proof. intros Y. unfold build_date_conditions. now rewrite Y. Qed.

(** With a year and no month, the year alone is asked for. *)
Lemma year_only_conditions (year : option Z) (y : Z) :
  truthy_int year = Some y ->
  build_date_conditions year None = Returned [YearIs y].
Proof. intros Y. unfold build_date_conditions. now rewrite Y. Qed.

(** A no-break space, U+00A0, ahead of the month name is a blank to
    [str.split()]: the month is read. *)
Lemma no_break_space_is_a_blank (rest : string) :
  first_word
    (String (ascii_of_nat 194) (String (ascii_of_nat 160) ("March " ++ rest)))
  = Returned "March".
Proof. reflexivity. Qed.

End FilterFacts.

(** C7, counterexample.  With one district reporting in January 2024 and
    another in March 2024, the month text "Foo 2024" for the year 2024
    leaves one district with cases, while the same call without a month
    finds two: an unrecognised month name does not fall back to the
    unfiltered result. *)
Lemma unrecognised_month_is_not_unfiltered :
  ReportingMetrics.get_district_reporting_metrics
    (Connected Samples.january_and_march) None (Some 2024) (Some "Foo 2024")
    None None
  <> ReportingMetrics.get_district_reporting_metrics
       (Connected Samples.january_and_march) None (Some 2024) None None None
  /\
  Gender.get_measles_gender_distribution
    (Connected Samples.january_and_march) None (Some 2024) (Some "Foo 2024")
  <> Gender.get_measles_gender_distribution
       (Connected Samples.january_and_march) None (Some 2024) None.
Proof. vm_compute. split; discriminate. Qed.

(** C7, amended.  For the district reporting metrics, the gender
    distribution, the deaths by district, the district proportions, the
    age-sex attack rates and the age-sex distribution: a missing or zero
    year switches the time filter off whatever the month text, so the
    result equals the unfiltered one; with a year, a month text other
    than "All Months <year>" whose first word, as [str.split()] gives
    it, is not one of the twelve month names is filtered as January of
    that year, so the result equals the one for ["January <year>"]. *)
Theorem unrecognised_month_is_january :
  forall (eng : engine) (location : option string) (year : option Z)
         (month : string) (days_filter hours_filter : option Z)
         (current_year : Z),
    (Filters.truthy_int year = None ->
     ReportingMetrics.get_district_reporting_metrics eng location year
       (Some month) days_filter hours_filter
     = ReportingMetrics.get_district_reporting_metrics eng location None None
         days_filter hours_filter /\
     Gender.get_measles_gender_distribution eng location year (Some month)
     = Gender.get_measles_gender_distribution eng location None None /\
     DeathsByDistrict.get_measles_deaths_by_district eng location year
       (Some month)
     = DeathsByDistrict.get_measles_deaths_by_district eng location None None /\
     TotalProportions.get_district_total_proportions eng location year
       (Some month)
     = TotalProportions.get_district_total_proportions eng location None None /\
     AttackRates.get_measles_attack_rates_by_age_sex eng location year
       (Some month)
     = AttackRates.get_measles_attack_rates_by_age_sex eng location None None /\
     AgeSex.get_measles_age_sex_distribution eng current_year location year
       (Some month)
     = AgeSex.get_measles_age_sex_distribution eng current_year location None
         None)
    /\
    (forall (y : Z) (name : string),
       Filters.truthy_int year = Some y ->
       Filters.first_word month = Returned name ->
       month <> "All Months " ++ Filters.str y ->
       ~ In name (map fst Filters.months) ->
       let january := Some ("January " ++ Filters.str y) in
       ReportingMetrics.get_district_reporting_metrics eng location year
         (Some month) days_filter hours_filter
       = ReportingMetrics.get_district_reporting_metrics eng location year
           january days_filter hours_filter /\
       Gender.get_measles_gender_distribution eng location year (Some month)
       = Gender.get_measles_gender_distribution eng location year january /\
       DeathsByDistrict.get_measles_deaths_by_district eng location year
         (Some month)
       = DeathsByDistrict.get_measles_deaths_by_district eng location year
           january /\
       TotalProportions.get_district_total_proportions eng location year
         (Some month)
       = TotalProportions.get_district_total_proportions eng location year
           january /\
       AttackRates.get_measles_attack_rates_by_age_sex eng location year
         (Some month)
       = AttackRates.get_measles_attack_rates_by_age_sex eng location year
           january /\
       AgeSex.get_measles_age_sex_distribution eng current_year location year
         (Some month)
       = AgeSex.get_measles_age_sex_distribution eng current_year location year
           january).
Proof.
  intros eng location year month days_filter hours_filter current_year. split.
  - intros Y.
    unfold ReportingMetrics.get_district_reporting_metrics,
      ReportingMetrics.fetch, Gender.get_measles_gender_distribution,
      Gender.fetch, DeathsByDistrict.get_measles_deaths_by_district,
      DeathsByDistrict.fetch, TotalProportions.get_district_total_proportions,
      TotalProportions.fetch, AttackRates.get_measles_attack_rates_by_age_sex,
      AttackRates.fetch, AgeSex.get_measles_age_sex_distribution,
      AgeSex.fetch, AgeSex.placeholder, AgeSex.multiplier.
    rewrite !(FilterFacts.no_year_conditions year (Some month) Y).
    rewrite !(FilterFacts.no_year_conditions None None eq_refl).
    rewrite Y. repeat split.
  - intros y name Y W A N january.
    unfold ReportingMetrics.get_district_reporting_metrics,
      ReportingMetrics.fetch, Gender.get_measles_gender_distribution,
      Gender.fetch, DeathsByDistrict.get_measles_deaths_by_district,
      DeathsByDistrict.fetch, TotalProportions.get_district_total_proportions,
      TotalProportions.fetch, AttackRates.get_measles_attack_rates_by_age_sex,
      AttackRates.fetch, AgeSex.get_measles_age_sex_distribution,
      AgeSex.fetch.
    subst january.
    rewrite !(FilterFacts.unrecognised_month_conditions year y month name Y W A N).
    rewrite !(FilterFacts.january_conditions year y Y).
    repeat split.
Qed.

Lemma unrecognised_month_is_january_witness :
  ReportingMetrics.get_district_reporting_metrics
    (Connected Samples.january_and_march) None (Some 2024) (Some "Foo 2024")
    None None
  = ReportingMetrics.get_district_reporting_metrics
      (Connected Samples.january_and_march) None (Some 2024)
      (Some "January 2024") None None /\
  ReportingMetrics.get_district_reporting_metrics
    (Connected Samples.january_and_march) None (Some 0) (Some "March 2024")
    None None
  = ReportingMetrics.get_district_reporting_metrics
      (Connected Samples.january_and_march) None None None None None.
Proof.
  destruct (unrecognised_month_is_january (Connected Samples.january_and_march)
              None (Some 2024) "Foo 2024" None None 2026) as [_ J].
  destruct (unrecognised_month_is_january (Connected Samples.january_and_march)
              None (Some 0) "March 2024" None None 2026) as [Z _].
  split.
  - apply (J 2024 "Foo" eq_refl eq_refl).
    + discriminate.
    + intros H. simpl in H.
      repeat (destruct H as [H|H]; [discriminate H|]). exact H.
  - apply (Z eq_refl).
Defined.

(* ================================================================== *)
(** * Failure and absence of data *)
(* ================================================================== *)


Module AbsenceFacts.




Section NoMeasles.
Variable w : warehouse.
Hypothesis no_measles :
  forall e, In e (fact_eidsr_event_data w) -> is_measles e = false.













End NoMeasles.


End AbsenceFacts.



(* ================================================================== *)
(** * Rate normaliser *)
(* ================================================================== *)

Module RateFacts.

Lemma round_half_even_div_nearest (n d : Z) :
  0 < d -> 2 * Z.abs (AttackRates.round_half_even_div n d * d - n) <= d.
Proof.
  intros Hd. unfold AttackRates.round_half_even_div.
  pose proof (Z.div_mod n d ltac:(lia)) as E.
  pose proof (Z.mod_pos_bound n d Hd) as B.
  set (q := n / d) in *. set (r := n mod d) in *.
  destruct (2 * r <? d) eqn:L; [apply Z.ltb_lt in L; nia|].
  apply Z.ltb_ge in L.
  destruct (d <? 2 * r) eqn:G; [apply Z.ltb_lt in G; nia|].
  apply Z.ltb_ge in G.
  destruct (Z.even q); nia.
Qed.

(** [round_div] is exact on a multiple of the divisor. *)
Lemma round_div_multiple (k d : Z) :
  0 <= k -> 0 < d -> round_div (k * d) d = k.
Proof.
  intros Hk Hd. unfold round_div.
  assert ((0 <=? k * d) = true) as -> by (apply Z.leb_le; nia).
  symmetry. apply (Z.div_unique_pos _ _ k d); lia.
Qed.

(** The saturating rate, in hundredths: below the floor it is the count
    times [100000 / floor], from the floor on it is 100000. *)
Lemma saturating_rate_below (floor per_case cases : Z) :
  0 < floor -> floor * per_case = 100000 * 100 ->
  0 <= cases <= floor ->
  Choropleth.saturating_rate floor cases = cases * per_case.
Proof.
  intros Hf Hp Hc. unfold Choropleth.saturating_rate.
  rewrite Z.max_r by lia.
  replace (cases * 100000 * 100) with (cases * (floor * per_case))
    by (rewrite Hp; ring).
  replace (cases * (floor * per_case)) with (cases * per_case * floor) by ring.
  apply round_div_multiple; nia.
Qed.

Lemma saturating_rate_above (floor cases : Z) :
  0 < floor -> floor <= cases ->
  Choropleth.saturating_rate floor cases = 100000 * 100.
Proof.
  intros Hf Hc. unfold Choropleth.saturating_rate.
  rewrite Z.max_l by lia.
  replace (cases * 100000 * 100) with (100000 * 100 * cases) by lia.
  apply round_div_multiple; lia.
Qed.

Lemma saturating_rate_bounded (floor per_case cases : Z) :
  0 < floor -> 0 <= per_case -> floor * per_case = 100000 * 100 ->
  0 < cases ->
  0 < Choropleth.saturating_rate floor cases <= 100000 * 100.
Proof.
  intros Hf Hn Hp Hc. destruct (Z_le_gt_dec floor cases) as [A|B].
  - rewrite saturating_rate_above by lia. lia.
  - rewrite (saturating_rate_below floor per_case) by lia. nia.
Qed.

(** A value of a choropleth rate mapping is the saturating rate of a
    positive district count. *)
Lemma in_rates (floor : Z) (counts : list (string * Z)) (d : string) (v : Z) :
  In (d, v) (Choropleth.rates floor counts) ->
  exists cases,
    In (d, cases) counts /\ 0 < cases /\
    v = Choropleth.saturating_rate floor cases.
Proof.
  unfold Choropleth.rates. intros H. apply SqlFacts.in_order_by in H.
  apply in_map_iff in H. destruct H as [[n c] [[= <- <-] H]].
  apply filter_In in H. destruct H as [H P]. apply Z.ltb_lt in P.
  exists c. auto.
Qed.

Lemma in_add_rates (df : list AttackRates.counts) (r : AttackRates.row) :
  In r (AttackRates.add_rates df) ->
  AttackRates.female_attack_rate r
  = AttackRates.attack_rate (AttackRates.female_cases r)
      (Sql.total (map AttackRates.female_cases (AttackRates.add_rates df))) /\
  AttackRates.male_attack_rate r
  = AttackRates.attack_rate (AttackRates.male_cases r)
      (Sql.total (map AttackRates.male_cases (AttackRates.add_rates df))).
Proof.
  unfold AttackRates.add_rates. intros H. apply in_map_iff in H.
  destruct H as [c [<- _]]. rewrite !map_map. simpl. split; reflexivity.
Qed.

(** The placeholder frame carries the same share of its own totals. *)
Lemma in_placeholder_data (r : AttackRates.row) :
  In r AttackRates.placeholder_data ->
  AttackRates.female_attack_rate r
  = AttackRates.attack_rate (AttackRates.female_cases r)
      (Sql.total (map AttackRates.female_cases AttackRates.placeholder_data)) /\
  AttackRates.male_attack_rate r
  = AttackRates.attack_rate (AttackRates.male_cases r)
      (Sql.total (map AttackRates.male_cases AttackRates.placeholder_data)).
Proof.
  intros H. vm_compute in H.
  repeat (destruct H as [<-|H]; [split; reflexivity|]). destruct H.
Qed.

Lemma attack_rate_share (cases total : Z) :
  0 < total ->
  exists q, AttackRates.attack_rate cases total = Some q /\
            2 * Z.abs (q * total - cases * 100000 * 100) <= total.
Proof.
  intros H. unfold AttackRates.attack_rate.
  destruct (total =? 0) eqn:E; [apply Z.eqb_eq in E; lia|].
  eexists. split; [reflexivity|]. now apply round_half_even_div_nearest.
Qed.

End RateFacts.



(* ================================================================== *)
(** * More facts about the relational operators *)
(* ================================================================== *)

Module RelFacts.

Section Distinct.
Context {A : Type} (eqb : A -> A -> bool).
Hypothesis eqb_spec : forall a b, eqb a b = true <-> a = b.

Lemma distinct_in (x : A) (l : list A) :
  In x (Sql.distinct eqb l) <-> In x l.
Proof.
  split; [apply SqlFacts.in_distinct|].
  induction l as [|a t IH]; simpl; auto.
  intros [->|H]; auto.
  destruct (eqb a x) eqn:E.
  - left. now apply eqb_spec.
  - right. apply filter_In. split; auto. now rewrite E.
Qed.

Lemma distinct_nodup (l : list A) : NoDup (Sql.distinct eqb l).
Proof.
  induction l as [|a t IH]; simpl; constructor.
  - intros H. apply filter_In in H. destruct H as [_ H].
    assert (eqb a a = true) as E by now apply eqb_spec.
    rewrite E in H. discriminate.
  - now apply NoDup_filter.
Qed.

(** [COUNT(DISTINCT ..)] grows with the set of values counted. *)
Lemma count_distinct_incl (l1 l2 : list (option A)) :
  incl (Sql.non_null l1) (Sql.non_null l2) ->
  Sql.count_distinct eqb l1 <= Sql.count_distinct eqb l2.
Proof.
  intros H. unfold Sql.count_distinct. apply inj_le.
  apply NoDup_incl_length; [apply distinct_nodup|].
  intros x Hx. apply distinct_in. apply H. now apply distinct_in.
Qed.

Lemma count_distinct_positive (l : list (option A)) (a : A) :
  In (Some a) l -> 1 <= Sql.count_distinct eqb l.
Proof.
  intros H. unfold Sql.count_distinct.
  assert (In a (Sql.distinct eqb (Sql.non_null l))) as Hin.
  { apply distinct_in. induction l as [|[b|] t IH]; simpl in *.
    - destruct H.
    - destruct H as [[= ->]|H]; auto.
    - destruct H as [H|H]; [discriminate | auto]. }
  destruct (Sql.distinct eqb (Sql.non_null l)); [destruct Hin | simpl; lia].
Qed.

End Distinct.

Lemma non_null_in {A : Type} (l : list (option A)) (a : A) :
  In a (Sql.non_null l) <-> In (Some a) l.
Proof.
  induction l as [|[b|] t IH]; simpl.
  - tauto.
  - rewrite IH. split; intros [H|H]; auto; left; congruence.
  - rewrite IH. split; [auto | intros [H|H]; [discriminate | auto]].
Qed.

(** The groups of [GROUP BY] have distinct keys and are never empty. *)
Lemma group_by_keys_nodup {A K : Type} (key : A -> K) (keqb : K -> K -> bool)
    (rows : list A) :
  (forall a b, keqb a b = true <-> a = b) ->
  NoDup (map fst (Sql.group_by key keqb rows)).
Proof.
  intros S. unfold Sql.group_by. rewrite map_map. simpl. rewrite map_id.
  now apply distinct_nodup.
Qed.

Lemma group_by_nonempty {A K : Type} (key : A -> K) (keqb : K -> K -> bool)
    (rows : list A) (k : K) (g : list A) :
  (forall a b, keqb a b = true <-> a = b) ->
  In (k, g) (Sql.group_by key keqb rows) ->
  exists r, In r g /\ key r = k.
Proof.
  intros S H. apply SqlFacts.in_group_by in H. destruct H as [Hk ->].
  apply in_map_iff in Hk. destruct Hk as [r [<- Hr]].
  exists r. split; [|reflexivity].
  apply filter_In. split; auto. now apply S.
Qed.

Lemma group_by_member {A K : Type} (key : A -> K) (keqb : K -> K -> bool)
    (rows : list A) (k : K) (g : list A) (r : A) :
  (forall a b, keqb a b = true <-> a = b) ->
  In (k, g) (Sql.group_by key keqb rows) -> In r g ->
  In r rows /\ key r = k.
Proof.
  intros S H Hr. apply SqlFacts.in_group_by in H. destruct H as [_ ->].
  apply filter_In in Hr. destruct Hr as [Hr E]. split; auto. now apply S.
Qed.

Section Sorting.
Context {A : Type} (leb : A -> A -> bool).
Hypothesis leb_total : forall a b, leb a b = false -> leb b a = true.
Hypothesis leb_trans :
  forall a b c, leb a b = true -> leb b c = true -> leb a c = true.

Lemma insert_keeps_sorted (a : A) (l : list A) :
  Sorted.StronglySorted (fun x y => leb x y = true) l ->
  Sorted.StronglySorted (fun x y => leb x y = true) (Sql.insert leb a l).
Proof.
  induction 1 as [|b t Ht IH Hb]; simpl.
  - repeat constructor.
  - destruct (leb a b) eqn:E.
    + constructor; [now constructor|].
      constructor; [exact E|].
      eapply Forall_impl; [|exact Hb]. intros c Hc. eapply leb_trans; eauto.
    + constructor; [exact IH|].
      apply leb_total in E.
      eapply Permutation_Forall;
        [symmetry; apply SqlFacts.insert_perm | now constructor].
Qed.

Lemma order_by_is_sorted (l : list A) :
  Sorted.StronglySorted (fun x y => leb x y = true) (Sql.order_by leb l).
Proof.
  induction l as [|a t IH]; simpl; [constructor | now apply insert_keeps_sorted].
Qed.

End Sorting.

Lemma sorted_map {A B : Type} (R : A -> A -> Prop) (Q : B -> B -> Prop)
    (f : A -> B) (l : list A) :
  (forall a b, R a b -> Q (f a) (f b)) ->
  Sorted.StronglySorted R l -> Sorted.StronglySorted Q (map f l).
Proof.
  intros H. induction 1 as [|a t Ht IH Ha]; simpl; constructor; auto.
  apply Forall_forall. intros y Hy. apply in_map_iff in Hy.
  destruct Hy as [b [<- Hb]]. rewrite Forall_forall in Ha. auto.
Qed.

(** Sorted rows with pairwise different keys are strictly sorted. *)
Lemma sorted_strict {A K : Type} (R : A -> A -> Prop) (k : A -> K)
    (l : list A) :
  Sorted.StronglySorted R l -> NoDup (map k l) ->
  Sorted.StronglySorted (fun a b => R a b /\ k a <> k b) l.
Proof.
  induction 1 as [|a t Ht IH Ha]; simpl; intros N; constructor.
  - apply IH. now inversion N.
  - inversion N as [|x y Hx Hy]; subst.
    apply Forall_forall. intros b Hb. rewrite Forall_forall in Ha.
    split; [auto|]. intros E. apply Hx. rewrite E. now apply in_map.
Qed.

Lemma lag_fst {A B : Type} (e : A -> B) (l : list A) :
  map fst (Sql.lag e l) = l.
Proof.
  unfold Sql.lag. generalize (@None B). induction l as [|a t IH]; intros p.
  - reflexivity.
  - simpl. f_equal. apply IH.
Qed.

Lemma limit_nodup {A : Type} (n : nat) (l : list A) :
  NoDup l -> NoDup (Sql.limit n l).
Proof.
  unfold Sql.limit. intros H. revert n.
  induction H as [|a t Ha Ht IH]; intros [|n]; simpl; constructor; auto.
  intros Hin. apply Ha. eapply SqlFacts.in_limit. exact Hin.
Qed.

Lemma limit_map {A B : Type} (f : A -> B) (n : nat) (l : list A) :
  map f (Sql.limit n l) = Sql.limit n (map f l).
Proof. unfold Sql.limit. symmetry. apply firstn_map. Qed.

End RelFacts.

(* ================================================================== *)
(** * Shape of the epi-week table *)
(* ================================================================== *)

Module WeeklyShape.
Import Weekly.

Lemma key_eqb_spec (a b : Z * Z) : key_eqb a b = true <-> a = b.
Proof.
  destruct a as [a1 a2], b as [b1 b2]. unfold key_eqb. simpl.
  rewrite andb_true_iff, !Z.eqb_eq. split; [intros [-> ->] | intros [= -> ->]];
    auto.
Qed.

Lemma key_leb_total (a b : Z * Z) : key_leb a b = false -> key_leb b a = true.
Proof.
  unfold key_leb. destruct a as [a1 a2], b as [b1 b2]. simpl.
  rewrite orb_false_iff, andb_false_iff, orb_true_iff, andb_true_iff.
  rewrite !Z.ltb_ge, !Z.ltb_lt, !Z.eqb_eq, Z.eqb_neq, Z.leb_gt, Z.leb_le. lia.
Qed.

Lemma weekly_counts_keys (events : list (string * date)) :
  NoDup (map key (weekly_counts events)).
Proof.
  unfold weekly_counts. rewrite map_map.
  erewrite map_ext; [apply (RelFacts.group_by_keys_nodup _ key_eqb)|].
  - apply key_eqb_spec.
  - intros [[y wk] g]. reflexivity.
Qed.

Lemma weekly_counts_positive (events : list (string * date)) (b : bucket) :
  In b (weekly_counts events) -> 1 <= weekly_cases b.
Proof.
  unfold weekly_counts. intros H. apply in_map_iff in H.
  destruct H as [[k g] [<- H]]. simpl.
  destruct (RelFacts.group_by_nonempty _ _ _ _ _ key_eqb_spec H) as [e [He _]].
  apply (RelFacts.count_distinct_positive String.eqb String.eqb_eq _ (fst e)).
  apply in_map_iff. now exists e.
Qed.

Lemma weekly_counts_year (events : list (string * date)) (b : bucket) :
  In b (weekly_counts events) ->
  exists e, In e events /\ year b = d_year (snd e).
Proof.
  unfold weekly_counts. intros H. apply in_map_iff in H.
  destruct H as [[k g] [<- H]]. simpl.
  destruct (RelFacts.group_by_nonempty _ _ _ _ _ key_eqb_spec H) as [e [He Hk]].
  destruct (RelFacts.group_by_member _ _ _ _ _ _ key_eqb_spec H He) as [Hin _].
  exists e. split; auto. now rewrite <- Hk.
Qed.

Lemma running_sum_fst {A : Type} (e : A -> Z) (acc : Z) (l : list A) :
  map fst (Sql.running_sum e acc l) = l.
Proof.
  revert acc. induction l as [|a t IH]; intros acc; simpl;
    [reflexivity | now rewrite IH].
Qed.

Lemma map_output_key (X : list (bucket * option Z * option Z)) :
  map (fun r => (Order.row_key r, Weekly_Confirmed_Cases r)) (map output X)
  = map (fun b => (key b, weekly_cases b)) (map fst (map fst X)).
Proof.
  rewrite !map_map. apply map_ext. intros [[b c] p]. reflexivity.
Qed.

(** The rows are the ten buckets, one row for each. *)
Lemma statement_keys (w : warehouse) (year : option Z) (sd ed : option date) :
  Permutation (map (fun r => (Order.row_key r, Weekly_Confirmed_Cases r))
                   (Order.weekly_statement w year sd ed))
              (map (fun b => (key b, weekly_cases b))
                   (Order.latest_ten w year sd ed)).
Proof.
  destruct year as [y|]; simpl.
  - unfold year_query, cumulative_data.
    etransitivity; [apply Permutation_map, SqlFacts.order_by_perm|].
    rewrite map_output_key, RelFacts.lag_fst.
    apply Permutation_map.
    etransitivity; [apply Permutation_map, SqlFacts.order_by_perm|].
    rewrite map_map. simpl. rewrite running_sum_fst.
    apply SqlFacts.order_by_perm.
  - unfold cumulative_query, cumulative_all_data.
    etransitivity; [apply Permutation_map, SqlFacts.order_by_perm|].
    rewrite map_output_key, RelFacts.lag_fst.
    apply Permutation_map.
    etransitivity; [apply Permutation_map, SqlFacts.order_by_perm|].
    rewrite map_map. simpl. rewrite map_id. reflexivity.
Qed.

Lemma latest_ten_source (w : warehouse) (year : option Z) (sd ed : option date)
    (b : bucket) :
  In b (Order.latest_ten w year sd ed) ->
  exists events,
    In b (weekly_counts events) /\
    (forall y e, year = Some y -> In e events -> d_year (snd e) = y).
Proof.
  destruct year as [y|]; simpl; intros H.
  - unfold weekly_data in H. apply SqlFacts.in_limit in H.
    apply SqlFacts.in_order_by in H.
    eexists. split; [exact H|].
    intros y' e [= <-] He. apply in_flat_map in He.
    destruct He as [me [_ He]]. destruct (snd me) as [d|]; [|destruct He].
    destruct (d_year d =? target_year y) eqn:E; [|destruct He].
    destruct He as [<-|[]]. simpl. now apply Z.eqb_eq in E.
  - unfold ordered_all_data in H. apply SqlFacts.in_limit in H.
    apply SqlFacts.in_order_by in H.
    eexists. split; [exact H|]. intros y e E. discriminate E.
Qed.

Lemma latest_ten_keys (w : warehouse) (year : option Z) (sd ed : option date) :
  NoDup (map key (Order.latest_ten w year sd ed)) /\
  (List.length (Order.latest_ten w year sd ed) <= 10)%nat.
Proof.
  destruct year as [y|]; simpl.
  - unfold weekly_data. split; [|apply SqlFacts.limit_length].
    rewrite RelFacts.limit_map. apply RelFacts.limit_nodup.
    eapply Permutation_NoDup;
      [symmetry; apply Permutation_map, SqlFacts.order_by_perm|].
    apply weekly_counts_keys.
  - unfold ordered_all_data. split; [|apply SqlFacts.limit_length].
    rewrite RelFacts.limit_map. apply RelFacts.limit_nodup.
    eapply Permutation_NoDup;
      [symmetry; apply Permutation_map, SqlFacts.order_by_perm|].
    apply weekly_counts_keys.
Qed.

Lemma desc_out_total (a b : row) : desc_out a b = false -> desc_out b a = true.
Proof. unfold desc_out. apply key_leb_total. Qed.

Lemma desc_out_trans (a b c : row) :
  desc_out a b = true -> desc_out b c = true -> desc_out a c = true.
Proof.
  unfold desc_out. intros H1 H2. eapply WeeklyFacts.key_leb_trans; eauto.
Qed.

End WeeklyShape.

(** X1. Whatever the warehouse holds, the epi-week table has at most ten
    rows, in strictly descending [(year, week)] order, so no two rows
    stand for the same week; every row counts at least one case; and when
    a year is asked for, every row is of that year. *)
Theorem weekly_table_shape :
  forall (eng : engine) (year : option Z) (start_date end_date : option date),
    let rows := Weekly.get_measles_weekly_data eng year start_date end_date in
    (List.length rows <= 10)%nat /\
    Sorted.StronglySorted Order.strictly_later rows /\
    (forall r, In r rows -> 1 <= Weekly.Weekly_Confirmed_Cases r) /\
    (forall y r, year = Some y -> In r rows -> Weekly.Year r = y).
Proof.
  intros [w|] year sd ed rows; subst rows;
    [|repeat split; try constructor; simpl; try lia; intros; contradiction].
  change (Weekly.get_measles_weekly_data (Connected w) year sd ed)
    with (Order.weekly_statement w year sd ed).
  pose proof (WeeklyShape.statement_keys w year sd ed) as P.
  destruct (WeeklyShape.latest_ten_keys w year sd ed) as [N L].
  assert (forall r, In r (Order.weekly_statement w year sd ed) ->
            exists b, In b (Order.latest_ten w year sd ed) /\
                      Order.row_key r = Weekly.key b /\
                      Weekly.Weekly_Confirmed_Cases r = Weekly.weekly_cases b)
    as M.
  { intros r Hr.
    assert (In (Order.row_key r, Weekly.Weekly_Confirmed_Cases r)
               (map (fun b => (Weekly.key b, Weekly.weekly_cases b))
                    (Order.latest_ten w year sd ed))) as H.
    { eapply Permutation_in; [exact P|].
      apply (in_map (fun r => (Order.row_key r, Weekly.Weekly_Confirmed_Cases r))).
      exact Hr. }
    apply in_map_iff in H. destruct H as [b [E Hb]].
    exists b. split; [exact Hb|].
    split; [exact (eq_sym (f_equal fst E)) | exact (eq_sym (f_equal snd E))]. }
  split; [|split; [|split]].
  - apply Permutation_length in P. rewrite !length_map in P. lia.
  - assert (NoDup (map Order.row_key (Order.weekly_statement w year sd ed)))
      as N'.
    { apply (Permutation_map fst) in P. rewrite !map_map in P. simpl in P.
      eapply Permutation_NoDup; [symmetry; exact P | exact N]. }
    assert (Sorted.StronglySorted (fun a b => Weekly.desc_out a b = true)
              (Order.weekly_statement w year sd ed)) as S.
    { destruct year; simpl;
        (apply RelFacts.order_by_is_sorted;
         [exact WeeklyShape.desc_out_total | exact WeeklyShape.desc_out_trans]). }
    pose proof (RelFacts.sorted_strict _ Order.row_key _ S N') as T.
    eapply Sorted.StronglySorted_ind with (P := fun l => Sorted.StronglySorted Order.strictly_later l) in T;
      [exact T | constructor |].
    intros a l _ IH Ha. constructor; [exact IH|].
    eapply Forall_impl; [|exact Ha]. intros b [R D].
    unfold Weekly.desc_out, Weekly.key_leb in R. unfold Order.row_key in D.
    unfold Order.strictly_later. simpl in R.
    rewrite orb_true_iff, andb_true_iff, Z.ltb_lt, Z.eqb_eq, Z.leb_le in R.
    destruct R as [R|[R1 R2]]; [left; exact R|].
    right. split; [exact R1|].
    destruct (Z.eq_dec (Weekly.Epi_Week b) (Weekly.Epi_Week a)) as [E|E];
      [|lia].
    exfalso. apply D. now rewrite R1, E.
  - intros r Hr. destruct (M r Hr) as [b [Hb [_ ->]]].
    destruct (WeeklyShape.latest_ten_source _ _ _ _ _ Hb) as [ev [Hc _]].
    eapply WeeklyShape.weekly_counts_positive; eauto.
  - intros y r -> Hr. destruct (M r Hr) as [b [Hb [K _]]].
    destruct (WeeklyShape.latest_ten_source _ _ _ _ _ Hb) as [ev [Hc Hy]].
    destruct (WeeklyShape.weekly_counts_year _ _ Hc) as [e [He E]].
    unfold Order.row_key, Weekly.key in K. injection K as K1 _.
    rewrite K1, E. now apply Hy.
Qed.

Lemma weekly_table_shape_witness :
  1 <= Weekly.Weekly_Confirmed_Cases (Weekly.mkRow 2024 11 2 (Some 3) None) /\
  Weekly.Year (Weekly.mkRow 2024 10 1 (Some 1) (Some (-500))) = 2024.
Proof.
  destruct (weekly_table_shape (Connected Samples.two_weeks) (Some 2024)
              None None) as [_ [_ [C Y]]].
  split.
  - apply C. vm_compute. left. reflexivity.
  - apply (Y 2024 _ eq_refl). vm_compute. right. left. reflexivity.
Defined.

(* ================================================================== *)
(** * Shape of the district tables *)
(* ================================================================== *)

Module DistrictShape.

Lemma nodup_map_filter {A K : Type} (k : A -> K) (f : A -> bool) (l : list A) :
  NoDup (map k l) -> NoDup (map k (filter f l)).
Proof.
  induction l as [|a t IH]; simpl; intros N; [constructor|].
  inversion N as [|x y Hx Hy]; subst.
  destruct (f a); simpl; auto. constructor; auto.
  intros H. apply Hx. apply in_map_iff in H. destruct H as [b [E Hb]].
  apply filter_In in Hb. rewrite <- E. apply in_map. tauto.
Qed.

Lemma conditional_values_incl {A B : Type} (p : A -> bool) (f : A -> B)
    (l : list A) :
  incl (Sql.non_null (map (fun x => if p x then Some (f x) else None) l))
       (Sql.non_null (map (fun x => Some (f x)) l)).
Proof.
  intros b H. apply RelFacts.non_null_in in H. apply RelFacts.non_null_in.
  apply in_map_iff in H. destruct H as [x [E Hx]].
  destruct (p x); [|discriminate]. rewrite <- E. apply in_map_iff. now exists x.
Qed.

Lemma summary_names (w : warehouse) (year : option Z) :
  NoDup (map TopDistricts.district_name (TopDistricts.district_summary w year)).
Proof.
  unfold TopDistricts.district_summary. rewrite map_map.
  erewrite map_ext;
    [apply (RelFacts.group_by_keys_nodup _ String.eqb), String.eqb_eq|].
  intros [name g]. reflexivity.
Qed.

Lemma summary_counts (w : warehouse) (year : option Z) (ds : TopDistricts.summary) :
  In ds (TopDistricts.district_summary w year) ->
  0 <= TopDistricts.cases_last_epiweek ds <= TopDistricts.total_cases ds /\
  0 <= TopDistricts.cases_prev_epiweek ds <= TopDistricts.total_cases ds.
Proof.
  unfold TopDistricts.district_summary. intros H. apply in_map_iff in H.
  destruct H as [[name g] [<- _]]. simpl.
  split; (split; [apply SqlFacts.count_distinct_nonneg|]);
    apply (RelFacts.count_distinct_incl String.eqb String.eqb_eq);
    apply conditional_values_incl.
Qed.

Lemma by_value_desc_total (a b : string * Z) :
  Choropleth.by_value_desc a b = false -> Choropleth.by_value_desc b a = true.
Proof. unfold Choropleth.by_value_desc. rewrite Z.leb_gt, Z.leb_le. lia. Qed.

Lemma by_value_desc_trans (a b c : string * Z) :
  Choropleth.by_value_desc a b = true -> Choropleth.by_value_desc b c = true ->
  Choropleth.by_value_desc a c = true.
Proof. unfold Choropleth.by_value_desc. rewrite !Z.leb_le. lia. Qed.

(** The grouped district counts of the choropleth statements: one entry
    for each district, each with at least one case. *)
Lemma district_counts_shape (w : warehouse) (recent : bool) :
  NoDup (map fst (Choropleth.district_counts w recent)) /\
  (forall d v, In (d, v) (Choropleth.district_counts w recent) -> 1 <= v).
Proof.
  unfold Choropleth.district_counts. split.
  - rewrite map_map. simpl.
    erewrite map_ext;
      [apply (RelFacts.group_by_keys_nodup _ String.eqb), String.eqb_eq|].
    reflexivity.
  - intros d v H. apply in_map_iff in H. destruct H as [[name g] [[= <- <-] H]].
    destruct (RelFacts.group_by_nonempty _ _ _ _ _ String.eqb_eq H)
      as [x [Hx _]].
    apply (RelFacts.count_distinct_positive String.eqb String.eqb_eq _ (snd x)).
    apply in_map_iff. now exists x.
Qed.

End DistrictShape.

(** X2. The district ranking never has more than twelve rows, lists no
    district twice, comes ordered by total cases and then by cases of the
    last epi-week, both descending, never shows one of the names
    ['Unknown'], ['Unknown District'], ['1 Test District'], and in every
    row counts at least one case in total and no more cases in the last
    epi-week than in total. *)
Theorem top_districts_table_shape :
  forall (eng : engine) (year : option Z),
    let rows := TopDistricts.get_measles_top_10_districts eng year in
    (List.length rows <= 12)%nat /\
    NoDup (map TopDistricts.District rows) /\
    Sorted.StronglySorted Spec.ranked_before rows /\
    (forall r, In r rows ->
       ~ In (TopDistricts.District r) Spec.excluded_names /\
       1 <= TopDistricts.Total_Cases r /\
       0 <= TopDistricts.Cases_Last_Epiweek r <= TopDistricts.Total_Cases r).
Proof.
  intros eng year rows. subst rows.
  destruct (TopDistrictsFacts.top_districts_ranked eng year) as [S L].
  split; [exact L|]. split; [|split; [exact S|]].
  - destruct eng as [w|]; [|constructor].
    change (TopDistricts.get_measles_top_10_districts (Connected w) year)
      with (TopDistricts.query w year).
    unfold TopDistricts.query. rewrite map_map.
    change (fun x => TopDistricts.District (TopDistricts.output x))
      with TopDistricts.district_name.
    rewrite RelFacts.limit_map. apply RelFacts.limit_nodup.
    eapply Permutation_NoDup;
      [symmetry; apply Permutation_map, SqlFacts.order_by_perm|].
    apply DistrictShape.nodup_map_filter, DistrictShape.summary_names.
  - intros r Hr. split; [eapply TopDistrictsFacts.top_districts_names; eauto|].
    destruct eng as [w|]; [|destruct Hr].
    apply TopDistrictsFacts.query_row in Hr.
    destruct Hr as [ds [-> [Hin [_ [_ Hpos]]]]]. simpl.
    destruct (DistrictShape.summary_counts _ _ _ Hin) as [Hlast _]. lia.
Qed.

Lemma top_districts_table_shape_witness :
  ~ In "Abim District" Spec.excluded_names /\ 1 <= 2 /\ 0 <= 0 <= 2.
Proof.
  destruct (top_districts_table_shape (Connected Samples.across_new_year) None)
    as [_ [_ [_ H]]].
  apply (H (TopDistricts.mkRow "Abim District" 2 0 0 0 None)).
  vm_compute. left. reflexivity.
Defined.

(** X3. Each of the four choropleth mappings holds a district at most
    once, in descending order of its value, with a positive value, and
    never under the names ['Unknown'] or ['1 Test District']. *)
Theorem choropleth_mappings_shape :
  forall (eng : engine) (m : Choropleth.mapping),
    In m [Choropleth.get_measles_cumulative_cases_by_district eng;
          Choropleth.get_measles_districts_reporting_last_21_days eng;
          Choropleth.get_measles_attack_rates_by_district_cumulative eng;
          Choropleth.get_measles_current_case_rates_by_district_21_days eng] ->
    NoDup (map fst m) /\
    Sorted.StronglySorted (fun a b : string * Z => snd b <= snd a) m /\
    (forall d v, In (d, v) m ->
       0 < v /\ d <> "Unknown" /\ d <> "1 Test District").
Proof.
  intros eng m Hm.
  assert (forall floor per_case recent w,
            0 < floor -> 0 <= per_case -> floor * per_case = 100000 * 100 ->
            NoDup (map fst (Choropleth.rates floor
                              (Choropleth.district_counts w recent))) /\
            forall d v,
              In (d, v) (Choropleth.rates floor
                           (Choropleth.district_counts w recent)) -> 0 < v)
    as R.
  { intros floor per_case recent w Hf Hp He. split.
    - unfold Choropleth.rates.
      eapply Permutation_NoDup;
        [symmetry; apply Permutation_map, SqlFacts.order_by_perm|].
      rewrite map_map. simpl.
      apply DistrictShape.nodup_map_filter, DistrictShape.district_counts_shape.
    - intros d v H. apply RateFacts.in_rates in H.
      destruct H as [cases [_ [P ->]]].
      now apply (RateFacts.saturating_rate_bounded floor per_case). }
  assert (forall l : list (string * Z),
            Sorted.StronglySorted (fun a b : string * Z => snd b <= snd a)
              (Sql.order_by Choropleth.by_value_desc l)) as S.
  { intros l.
    pose proof (RelFacts.order_by_is_sorted Choropleth.by_value_desc
                  DistrictShape.by_value_desc_total
                  DistrictShape.by_value_desc_trans l) as H.
    induction H as [|a t Ht IH Ha]; constructor; auto.
    eapply Forall_impl; [|exact Ha]. intros b Hb.
    now apply Z.leb_le in Hb. }
  split; [|split].
  - destruct eng as [w|]; simpl in Hm.
    + destruct Hm as [<-|[<-|[<-|[<-|[]]]]]; simpl.
      * eapply Permutation_NoDup;
          [symmetry; apply Permutation_map, SqlFacts.order_by_perm|].
        apply DistrictShape.district_counts_shape.
      * eapply Permutation_NoDup;
          [symmetry; apply Permutation_map, SqlFacts.order_by_perm|].
        apply DistrictShape.district_counts_shape.
      * apply (R 1000 10000); lia.
      * apply (R 500 20000); lia.
    + destruct Hm as [<-|[<-|[<-|[<-|[]]]]]; constructor.
  - destruct eng as [w|]; simpl in Hm.
    + destruct Hm as [<-|[<-|[<-|[<-|[]]]]]; simpl; apply S.
    + destruct Hm as [<-|[<-|[<-|[<-|[]]]]]; constructor.
  - intros d v H. split.
    + destruct eng as [w|]; simpl in Hm.
      * destruct Hm as [<-|[<-|[<-|[<-|[]]]]]; simpl in H.
        -- apply SqlFacts.in_order_by in H.
           apply DistrictShape.district_counts_shape in H. lia.
        -- apply SqlFacts.in_order_by in H.
           apply DistrictShape.district_counts_shape in H. lia.
        -- eapply (R 1000 10000); try lia. exact H.
        -- eapply (R 500 20000); try lia. exact H.
      * destruct Hm as [<-|[<-|[<-|[<-|[]]]]]; destruct H.
    + apply (NameFacts.choropleth_names eng d v).
      destruct Hm as [<-|[<-|[<-|[<-|[]]]]]; tauto.
Qed.

Lemma choropleth_mappings_shape_witness :
  0 < 10000 /\ "Abim District" <> "Unknown" /\
  "Abim District" <> "1 Test District".
Proof.
  destruct (choropleth_mappings_shape (Connected Samples.january_and_march)
              (Choropleth.get_measles_attack_rates_by_district_cumulative
                 (Connected Samples.january_and_march))
              (or_intror (or_intror (or_introl eq_refl))))
    as [_ [_ H]].
  apply (H "Abim District" 10000). vm_compute. left. reflexivity.
Defined.

(** X4. A district has a cumulative attack rate exactly when it has a
    cumulative case count, and a current case rate exactly when it has a
    count for the last 21 days: the [WHERE .. > 0] of the rate statements
    drops no district. *)
Theorem choropleth_rates_cover_the_counted_districts :
  forall (eng : engine) (d : string),
    (In d (map fst (Choropleth.get_measles_attack_rates_by_district_cumulative
                      eng)) <->
     In d (map fst (Choropleth.get_measles_cumulative_cases_by_district eng)))
    /\
    (In d (map fst
             (Choropleth.get_measles_current_case_rates_by_district_21_days
                eng)) <->
     In d (map fst (Choropleth.get_measles_districts_reporting_last_21_days
                      eng))).
Proof.
  intros [w|] d; [|simpl; tauto].
  assert (forall floor recent,
            In d (map fst (Choropleth.rates floor
                             (Choropleth.district_counts w recent))) <->
            In d (map fst (Sql.order_by Choropleth.by_value_desc
                             (Choropleth.district_counts w recent)))) as H.
  { intros floor recent. unfold Choropleth.rates.
    rewrite !in_map_iff. split.
    - intros [[n v] [<- H]]. apply SqlFacts.in_order_by in H.
      apply in_map_iff in H. destruct H as [[n' c] [[= <- _] H]].
      apply filter_In in H. exists (n', c). split; [reflexivity|].
      apply SqlFacts.in_order_by. tauto.
    - intros [[n c] [<- H]]. apply SqlFacts.in_order_by in H.
      exists (n, Choropleth.saturating_rate floor c). split; [reflexivity|].
      apply SqlFacts.in_order_by. apply in_map_iff. exists (n, c).
      split; [reflexivity|]. apply filter_In. split; [exact H|].
      apply DistrictShape.district_counts_shape in H. apply Z.ltb_lt. simpl. lia. }
  split; apply H.
Qed.

(* ================================================================== *)
(** * Shape of the proportion, gender and death tables *)
(* ================================================================== *)

Module TableShape.

Lemma member_le_total (l : list Z) (x : Z) :
  (forall y, In y l -> 0 <= y) -> In x l -> x <= Sql.total l.
Proof.
  induction l as [|a t IH]; simpl; intros N H; [destruct H|].
  assert (0 <= Sql.total t) as P.
  { clear IH H. induction t as [|b t IH]; simpl; [lia|].
    assert (0 <= b) by (apply N; simpl; auto).
    assert (0 <= Sql.total t) by (apply IH; intros y Hy; apply N; simpl in *; tauto).
    lia. }
  destruct H as [->|H]; [lia|].
  assert (0 <= a) by (apply N; auto).
  assert (x <= Sql.total t) by (apply IH; auto). lia.
Qed.

(** The CTE [district_cases] of the proportion statement: distinct
    reportable names, each with at least one case. *)
Lemma district_cases_shape (w : warehouse) (loc : Filters.location_filter)
    (cs : list Filters.date_condition) :
  NoDup (map fst (TotalProportions.district_cases w loc cs)) /\
  (forall d v, In (d, v) (TotalProportions.district_cases w loc cs) ->
     1 <= v /\ d <> "Unknown" /\ d <> "1 Test District").
Proof.
  unfold TotalProportions.district_cases. split.
  - rewrite map_map. simpl.
    erewrite map_ext;
      [apply (RelFacts.group_by_keys_nodup _ String.eqb), String.eqb_eq|].
    reflexivity.
  - intros d v H. apply in_map_iff in H. destruct H as [[name g] [[= <- <-] H]].
    split.
    + destruct (RelFacts.group_by_nonempty _ _ _ _ _ String.eqb_eq H)
        as [x [Hx _]].
      apply (RelFacts.count_distinct_positive String.eqb String.eqb_eq _ (snd x)).
      apply in_map_iff. now exists x.
    + apply SqlFacts.in_group_by in H. destruct H as [H _].
      apply in_map_iff in H. destruct H as [[n ev] [<- H]].
      apply in_flat_map in H. destruct H as [x [_ H]].
      destruct (TotalProportions.reportable (snd x)) as [m|] eqn:R;
        [|destruct H].
      destruct (Filters.location_holds loc (snd x)); [|destruct H].
      destruct H as [[= <- _]|[]]. simpl. eapply NameFacts.reportable_name; eauto.
Qed.

Lemma cases_desc_total (a b : TotalProportions.row) :
  (TotalProportions.cases b <=? TotalProportions.cases a) = false ->
  (TotalProportions.cases a <=? TotalProportions.cases b) = true.
Proof. rewrite Z.leb_gt, Z.leb_le. lia. Qed.

Lemma cases_desc_trans (a b c : TotalProportions.row) :
  (TotalProportions.cases b <=? TotalProportions.cases a) = true ->
  (TotalProportions.cases c <=? TotalProportions.cases b) = true ->
  (TotalProportions.cases c <=? TotalProportions.cases a) = true.
Proof. rewrite !Z.leb_le. lia. Qed.

Lemma sex_by_substring_label (v : option string) :
  In (Demographics.sex_by_substring v) ["Male"; "Female"; "Unknown"].
Proof.
  unfold Demographics.sex_by_substring. destruct v as [s|]; simpl; [|tauto].
  destruct (_ && _)%bool; [tauto|].
  destruct (Text.contains "female" (Text.lower s)); tauto.
Qed.

Lemma nullable_eqb_spec (a b : option string) :
  Gender.nullable_eqb a b = true <-> a = b.
Proof.
  destruct a as [x|], b as [y|]; simpl; try (split; congruence).
  rewrite String.eqb_eq. split; congruence.
Qed.

End TableShape.

(** X5. The district proportions table has at most five rows, one for
    each district, by descending case count, never under the names
    ['Unknown'] or ['1 Test District'], and each row counts at least one
    case.  The proportion of a row is never NULL: it is the share of the
    row's cases in the total of the cases of all districts that pass the
    location and time filters, whether among the five rows or not, in
    percent to the nearest hundredth, between 0 and 100. *)
Theorem district_proportions_shape :
  forall (eng : engine) (location : option string) (year : option Z)
         (month : option string),
    let rows :=
      TotalProportions.get_district_total_proportions eng location year month in
    (List.length rows <= 5)%nat /\
    NoDup (map TotalProportions.district rows) /\
    Sorted.StronglySorted
      (fun a b => TotalProportions.cases b <= TotalProportions.cases a) rows /\
    (forall r, In r rows ->
       TotalProportions.district r <> "Unknown" /\
       TotalProportions.district r <> "1 Test District" /\
       1 <= TotalProportions.cases r) /\
    (forall w cs,
       eng = Connected w ->
       Filters.build_date_conditions year month = Returned cs ->
       let all_districts :=
         TotalProportions.district_cases w
           (Filters.build_location_filter location) cs in
       let total := Sql.total (map snd all_districts) in
       forall r, In r rows ->
         In (TotalProportions.district r, TotalProportions.cases r)
            all_districts /\
         TotalProportions.cases r <= total /\
         exists p,
           TotalProportions.proportion r = Some p /\
           2 * Z.abs (p * total - TotalProportions.cases r * 100 * 100)
           <= total /\
           0 <= p <= 100 * 100).
Proof.
  intros eng location year month rows. subst rows.
  unfold TotalProportions.get_district_total_proportions, TotalProportions.fetch.
  destruct eng as [w|];
    [|simpl; repeat split; try constructor; try lia; try discriminate;
      intros; contradiction].
  simpl. destruct (Filters.build_date_conditions year month) as [cs|];
    [|simpl; repeat split; try constructor; try lia; try discriminate;
      intros; contradiction].
  simpl. unfold TotalProportions.query.
  set (loc := Filters.build_location_filter location).
  destruct (TableShape.district_cases_shape w loc cs) as [N C].
  set (dc := TotalProportions.district_cases w loc cs) in *.
  split; [apply SqlFacts.limit_length|]. split; [|split; [|split]].
  - rewrite RelFacts.limit_map. apply RelFacts.limit_nodup.
    eapply Permutation_NoDup;
      [symmetry; apply Permutation_map, SqlFacts.order_by_perm|].
    rewrite map_map. simpl. now apply DistrictShape.nodup_map_filter.
  - apply TopDistrictsFacts.firstn_sorted.
    pose proof (RelFacts.order_by_is_sorted
                  (fun a b => TotalProportions.cases b <=? TotalProportions.cases a)
                  TableShape.cases_desc_total TableShape.cases_desc_trans)
      as S.
    match goal with
    | |- Sorted.StronglySorted _ (Sql.order_by _ ?l) => specialize (S l)
    end.
    induction S as [|a t Ht IH Ha]; constructor; auto.
    eapply Forall_impl; [|exact Ha]. intros b Hb. now apply Z.leb_le in Hb.
  - intros r Hr. apply SqlFacts.in_limit in Hr.
    apply SqlFacts.in_order_by in Hr. apply in_map_iff in Hr.
    destruct Hr as [[d v] [<- Hd]]. apply filter_In in Hd.
    destruct Hd as [Hd _]. simpl.
    destruct (C d v Hd) as [Hv [U T]]. auto.
  - intros w' cs' [= <-] [= <-] r Hr. fold loc. fold dc.
    apply SqlFacts.in_limit in Hr.
    apply SqlFacts.in_order_by in Hr. apply in_map_iff in Hr.
    destruct Hr as [[d v] [<- Hd]]. apply filter_In in Hd.
    destruct Hd as [Hd _]. simpl.
    destruct (C d v Hd) as [Hv _].
    split; [exact Hd|].
    assert (v <= Sql.total (map snd dc)) as Hle.
    { apply TableShape.member_le_total.
      - intros y Hy. apply in_map_iff in Hy. destruct Hy as [[d' v'] [<- Hy]].
        apply C in Hy. simpl. lia.
      - apply in_map_iff. now exists (d, v). }
    split; [exact Hle|].
    assert (Sql.sum (map snd dc) = Some (Sql.total (map snd dc))) as ->.
    { apply SqlFacts.sum_nonempty. intros E. apply map_eq_nil in E.
      rewrite E in Hd. destruct Hd. }
    unfold TotalProportions.proportion_of.
    set (total := Sql.total (map snd dc)) in *.
    destruct (total =? 0) eqn:Z0; [apply Z.eqb_eq in Z0; lia|].
    exists (round_div (v * 10000) total).
    split; [reflexivity|].
    pose proof (PercentFacts.round_div_nearest (v * 10000) total ltac:(lia))
      as Near.
    split; [replace (v * 100 * 100) with (v * 10000) by ring; exact Near|].
    set (p := round_div (v * 10000) total) in *. split; nia.
Qed.

Lemma district_proportions_shape_witness :
  let all_districts :=
    TotalProportions.district_cases Samples.january_and_march
      (Filters.build_location_filter None) [] in
  let total := Sql.total (map snd all_districts) in
  In ("Abim District", 1) all_districts /\
  1 <= total /\
  exists p,
    Some 5000 = Some p /\
    2 * Z.abs (p * total - 1 * 100 * 100) <= total /\ 0 <= p <= 100 * 100.
Proof.
  destruct (district_proportions_shape (Connected Samples.january_and_march)
              None None None) as [_ [_ [_ [_ H]]]].
  apply (H Samples.january_and_march [] eq_refl eq_refl
           (TotalProportions.mkRow "Abim District" 1 (Some 5000))).
  vm_compute. left. reflexivity.
Defined.

(** X6. The gender distribution is never an empty table: it has between
    one and three rows, with distinct labels among "Male", "Female" and
    "Unknown", in that order, and non-negative counts. *)
Theorem gender_distribution_shape :
  forall (eng : engine) (location : option string) (year : option Z)
         (month : option string),
    let rows :=
      Gender.get_measles_gender_distribution eng location year month in
    rows <> [] /\
    (List.length rows <= 3)%nat /\
    NoDup (map fst rows) /\
    Sorted.StronglySorted
      (fun a b : Gender.row => Gender.rank (fst a) <= Gender.rank (fst b)) rows /\
    (forall r : Gender.row,
       In r rows -> In (fst r) ["Male"; "Female"; "Unknown"] /\ 0 <= snd r).
Proof.
  intros eng location year month rows.
  assert (NoDup (map fst rows) /\
          Sorted.StronglySorted
            (fun a b : Gender.row => Gender.rank (fst a) <= Gender.rank (fst b))
            rows /\
          (forall r : Gender.row,
             In r rows -> In (fst r) ["Male"; "Female"; "Unknown"] /\ 0 <= snd r)
          /\ rows <> []) as [N [S [M E]]].
  { assert (NoDup (map fst Gender.placeholder) /\
            Sorted.StronglySorted
              (fun a b : Gender.row => Gender.rank (fst a) <= Gender.rank (fst b))
              Gender.placeholder /\
            (forall r : Gender.row,
               In r Gender.placeholder ->
               In (fst r) ["Male"; "Female"; "Unknown"] /\ 0 <= snd r) /\
            Gender.placeholder <> []) as P.
    { split; [|split; [|split]].
      - repeat constructor; simpl; intuition discriminate.
      - repeat constructor; vm_compute; discriminate.
      - intros r H. simpl in H.
        destruct H as [<-|[<-|[<-|[]]]]; simpl; split; try lia; tauto.
      - discriminate. }
    subst rows. unfold Gender.get_measles_gender_distribution, Gender.fetch.
    destruct eng as [w|]; [|exact P]. simpl.
    destruct (Filters.build_date_conditions year month) as [cs|]; [|exact P].
    simpl. set (loc := Filters.build_location_filter location).
    destruct (Gender.query w loc cs) as [|r0 t] eqn:Q; [exact P|].
    rewrite <- Q. unfold Gender.query. split; [|split; [|split]].
    - eapply Permutation_NoDup;
        [symmetry; apply Permutation_map, SqlFacts.order_by_perm|].
      rewrite map_map. simpl.
      erewrite map_ext;
        [apply (RelFacts.group_by_keys_nodup _ String.eqb), String.eqb_eq|].
      reflexivity.
    - pose proof (RelFacts.order_by_is_sorted
                    (fun a b : Gender.row =>
                       Gender.rank (fst a) <=? Gender.rank (fst b))) as S.
      match goal with
      | |- Sorted.StronglySorted _ (Sql.order_by _ ?l) =>
          specialize (S ltac:(intros a b; rewrite Z.leb_gt, Z.leb_le; lia)
                        ltac:(intros a b c; rewrite !Z.leb_le; lia) l)
      end.
      induction S as [|a u Hu IH Ha]; constructor; auto.
      eapply Forall_impl; [|exact Ha]. intros b Hb. now apply Z.leb_le in Hb.
    - intros r Hr. apply SqlFacts.in_order_by in Hr. apply in_map_iff in Hr.
      destruct Hr as [[label g] [<- Hg]]. simpl.
      split; [|unfold Sql.count; lia].
      apply SqlFacts.in_group_by in Hg. destruct Hg as [Hl _].
      apply in_map_iff in Hl. destruct Hl as [[tei cat] [<- Hin]].
      unfold Gender.gender_classification in Hin.
      apply in_flat_map in Hin. destruct Hin as [[[fe gender] doh] [_ Hin]].
      destruct (_ && _)%bool; [|destruct Hin].
      destruct Hin as [[= _ <-]|[]]. simpl.
      apply TableShape.sex_by_substring_label.
    - unfold Gender.query in Q. rewrite Q. discriminate. }
  split; [exact E|]. split; [|split; [exact N | split; [exact S | exact M]]].
  assert ((List.length (map fst rows)
           <= List.length ["Male"; "Female"; "Unknown"])%nat) as H.
  { apply NoDup_incl_length; [exact N|].
    intros l Hl. apply in_map_iff in Hl. destruct Hl as [r [<- Hr]].
    now apply M. }
  rewrite length_map in H. exact H.
Qed.

Lemma gender_distribution_shape_witness :
  In "Male" ["Male"; "Female"; "Unknown"] /\ 0 <= 2.
Proof.
  destruct (gender_distribution_shape (Connected Samples.january_and_march)
              None None None) as [_ [_ [_ [_ H]]]].
  apply (H ("Male", 2)). vm_compute. left. reflexivity.
Defined.

(** X7. The deaths-by-district table lists a district name at most once,
    by descending number of deaths, and every row counts at least one
    death. *)
Theorem deaths_by_district_shape :
  forall (eng : engine) (location : option string) (year : option Z)
         (month : option string),
    let rows :=
      DeathsByDistrict.get_measles_deaths_by_district eng location year month in
    NoDup (map fst rows) /\
    Sorted.StronglySorted
      (fun a b : DeathsByDistrict.row => snd b <= snd a) rows /\
    (forall r : DeathsByDistrict.row, In r rows -> 1 <= snd r).
Proof.
  intros eng location year month rows. subst rows.
  unfold DeathsByDistrict.get_measles_deaths_by_district, DeathsByDistrict.fetch.
  destruct eng as [w|];
    [|simpl; repeat split; try constructor; intros; contradiction].
  simpl. destruct (Filters.build_date_conditions year month) as [cs|];
    [|simpl; repeat split; try constructor; intros; contradiction].
  simpl. unfold DeathsByDistrict.query. split; [|split].
  - eapply Permutation_NoDup;
      [symmetry; apply Permutation_map, SqlFacts.order_by_perm|].
    apply DistrictShape.nodup_map_filter. rewrite map_map. simpl.
    erewrite map_ext;
      [apply (RelFacts.group_by_keys_nodup _ Gender.nullable_eqb),
         TableShape.nullable_eqb_spec|].
    reflexivity.
  - pose proof (RelFacts.order_by_is_sorted
                  (fun a b : DeathsByDistrict.row => snd b <=? snd a)) as S.
    match goal with
    | |- Sorted.StronglySorted _ (Sql.order_by _ ?l) =>
        specialize (S ltac:(intros a b; rewrite Z.leb_gt, Z.leb_le; lia)
                      ltac:(intros a b c; rewrite !Z.leb_le; lia) l)
    end.
    induction S as [|a u Hu IH Ha]; constructor; auto.
    eapply Forall_impl; [|exact Ha]. intros b Hb. now apply Z.leb_le in Hb.
  - intros r Hr. apply SqlFacts.in_order_by in Hr. apply filter_In in Hr.
    destruct Hr as [_ Hr]. apply Z.ltb_lt in Hr. lia.
Qed.

Lemma deaths_by_district_shape_witness : 1 <= 1.
Proof.
  destruct (deaths_by_district_shape (Connected Samples.deaths_under_sentinels)
              None None None) as [_ [_ H]].
  apply (H (Some "Unknown", 1)). vm_compute. left. reflexivity.
Defined.

(* ================================================================== *)
(** * The age-sex attack rates as a whole *)
(* ================================================================== *)

Module AttackRateShape.

Lemma rows_rates (eng : engine) (location : option string) (year : option Z)
    (month : option string) (r : AttackRates.row) :
  let rows :=
    AttackRates.get_measles_attack_rates_by_age_sex eng location year month in
  In r rows ->
  AttackRates.female_attack_rate r
  = AttackRates.attack_rate (AttackRates.female_cases r)
      (Sql.total (map AttackRates.female_cases rows)) /\
  AttackRates.male_attack_rate r
  = AttackRates.attack_rate (AttackRates.male_cases r)
      (Sql.total (map AttackRates.male_cases rows)).
Proof.
  intros rows. subst rows.
  unfold AttackRates.get_measles_attack_rates_by_age_sex.
  destruct (AttackRates.fetch eng location year month) as [[|c df]|];
    unfold try_except, bind.
  - apply RateFacts.in_placeholder_data.
  - apply RateFacts.in_add_rates.
  - apply RateFacts.in_placeholder_data.
Qed.

Lemma rows_nonempty (eng : engine) (location : option string) (year : option Z)
    (month : option string) :
  AttackRates.get_measles_attack_rates_by_age_sex eng location year month <> [].
Proof.
  unfold AttackRates.get_measles_attack_rates_by_age_sex.
  destruct (AttackRates.fetch eng location year month) as [[|c df]|]; simpl;
    discriminate.
Qed.

(** Shares rounded one by one add up to the whole within half a unit for
    each share. *)
Lemma shares_add_up (cs : list Z) (total : Z) :
  0 < total ->
  exists s,
    Order.total_of (map (fun c => AttackRates.attack_rate c total) cs) = Some s /\
    2 * Z.abs (s * total - Sql.total cs * 100000 * 100)
    <= Z.of_nat (List.length cs) * total.
Proof.
  intros T. induction cs as [|c cs [s [E B]]].
  - exists 0. split; [reflexivity|]. simpl. lia.
  - destruct (RateFacts.attack_rate_share c total T) as [q [Q N]].
    exists (q + s). split.
    + simpl. rewrite Q. simpl. now rewrite E.
    + change (Sql.total (c :: cs)) with (c + Sql.total cs).
      rewrite length_cons, Nat2Z.inj_succ. lia.
Qed.

Lemma for_each_raised {A B : Type} (f : A -> outcome B) (l : list A) (a : A) :
  In a l -> f a = Raised -> AttackRates.for_each f l = Raised.
Proof.
  intros H R. induction l as [|b t IH]; [destruct H|]. simpl.
  destruct H as [->|H].
  - now rewrite R.
  - destruct (f b); [|reflexivity]. simpl. now rewrite (IH H).
Qed.

End AttackRateShape.

(** X8. The age-sex attack-rate table is never empty, and for a sex with
    at least one case its rates over all rows add up to 100,000 within
    half a hundredth for each row; for a sex without any case every rate
    is NaN. *)
Theorem attack_rates_add_up_to_100000 :
  forall (eng : engine) (location : option string) (year : option Z)
         (month : option string),
    let rows :=
      AttackRates.get_measles_attack_rates_by_age_sex eng location year month in
    let female_total := Sql.total (map AttackRates.female_cases rows) in
    let male_total := Sql.total (map AttackRates.male_cases rows) in
    rows <> [] /\
    (0 < female_total ->
     exists s,
       Order.total_of (map AttackRates.female_attack_rate rows) = Some s /\
       2 * Z.abs (s - 100000 * 100) <= Z.of_nat (List.length rows)) /\
    (0 < male_total ->
     exists s,
       Order.total_of (map AttackRates.male_attack_rate rows) = Some s /\
       2 * Z.abs (s - 100000 * 100) <= Z.of_nat (List.length rows)) /\
    (female_total = 0 ->
     forall r, In r rows -> AttackRates.female_attack_rate r = None) /\
    (male_total = 0 ->
     forall r, In r rows -> AttackRates.male_attack_rate r = None).
Proof.
  intros eng location year month rows female_total male_total.
  pose proof (AttackRateShape.rows_rates eng location year month) as R.
  fold rows female_total male_total in R. cbv zeta in R.
  assert (forall (cases : AttackRates.row -> Z)
                 (rate : AttackRates.row -> option Z),
            (forall r, In r rows ->
               rate r = AttackRates.attack_rate (cases r)
                          (Sql.total (map cases rows))) ->
            0 < Sql.total (map cases rows) ->
            exists s, Order.total_of (map rate rows) = Some s /\
                      2 * Z.abs (s - 100000 * 100)
                      <= Z.of_nat (List.length rows)) as Sum.
  { intros cases rate H T.
    destruct (AttackRateShape.shares_add_up (map cases rows) _ T) as [s [E B]].
    exists s. split.
    - rewrite <- E, map_map. f_equal. apply map_ext_in. exact H.
    - rewrite length_map in B.
      set (total := Sql.total (map cases rows)) in *.
      replace (s * total - total * 100000 * 100)
        with ((s - 100000 * 100) * total) in B by ring.
      rewrite Z.abs_mul, (Z.abs_eq total) in B by lia.
      nia. }
  split; [apply AttackRateShape.rows_nonempty|].
  split; [|split; [|split]].
  - apply Sum. intros r Hr. apply (R r Hr).
  - apply Sum. intros r Hr. apply (R r Hr).
  - intros Z0 r Hr. destruct (R r Hr) as [F _]. rewrite F.
    fold female_total. now rewrite Z0.
  - intros Z0 r Hr. destruct (R r Hr) as [_ M]. rewrite M.
    fold male_total. now rewrite Z0.
Qed.

Lemma attack_rates_add_up_to_100000_witness :
  let rows :=
    AttackRates.get_measles_attack_rates_by_age_sex
      (Connected Samples.january_and_march) None None None in
  (exists s,
     Order.total_of (map AttackRates.male_attack_rate rows) = Some s /\
     2 * Z.abs (s - 100000 * 100) <= Z.of_nat (List.length rows)) /\
  AttackRates.female_attack_rate
    (AttackRates.mkRow "5-14" 0 1 None (Some 5000000)) = None.
Proof.
  intros rows.
  destruct (attack_rates_add_up_to_100000 (Connected Samples.january_and_march)
              None None None) as [_ [_ [M [F _]]]].
  split.
  - apply M. vm_compute. reflexivity.
  - apply F.
    + vm_compute. reflexivity.
    + vm_compute. left. reflexivity.
Defined.

(** X9. One age value made of digits but beyond the 32-bit range, on any
    person in scope, fails the whole attack-rate statement: the function
    then returns its placeholder frame instead of the warehouse's
    counts. *)
Theorem one_oversized_age_replaces_the_attack_rates :
  forall (w : warehouse) (location : option string) (year : option Z)
         (month : option string) (cs : list Filters.date_condition)
         (j : AttackRates.joined) (v : string),
    Filters.build_date_conditions year month = Returned cs ->
    In j (AttackRates.joined_rows w (Filters.build_location_filter location) cs) ->
    AttackRates.j_age j = Some v ->
    Demographics.numeric v = true ->
    2147483647 < Demographics.digits_value 0 v ->
    AttackRates.get_measles_attack_rates_by_age_sex (Connected w) location year
      month
    = AttackRates.placeholder_data.
Proof.
  intros w location year month cs j v C J A N O.
  unfold AttackRates.get_measles_attack_rates_by_age_sex, AttackRates.fetch.
  simpl. rewrite C. simpl. unfold AttackRates.query.
  rewrite (AttackRateShape.for_each_raised _ _ j J); [reflexivity|].
  rewrite A. unfold Demographics.attack_rate_age_group,
    Demographics.numeric_or_unknown, Demographics.cast_integer.
  rewrite N. apply Z.leb_gt in O. now rewrite O.
Qed.

Lemma one_oversized_age_replaces_the_attack_rates_witness :
  AttackRates.get_measles_attack_rates_by_age_sex
    (Connected MoreSamples.age_out_of_range) None None None
  = AttackRates.placeholder_data.
Proof.
  apply (one_oversized_age_replaces_the_attack_rates
           MoreSamples.age_out_of_range None None None []
           (AttackRates.mkJoined (Some "r1") (Some "99999999999")
              (Some "Female"))
           "99999999999").
  - reflexivity.
  - vm_compute. left. reflexivity.
  - reflexivity.
  - reflexivity.
  - vm_compute. reflexivity.
Defined.

(** X10. With a year, a month text that starts with one of the twelve
    month names followed by a blank, whatever comes after it (as in
    "May 2025 (23 cases)"), asks for that year and for the month of that
    name, a number from 1 to 12; the text "All Months <year>" asks for
    the year alone. *)
Theorem month_text_selects_its_month :
  forall (year : option Z) (y : Z) (name : string) (m : Z) (rest : string),
    Filters.truthy_int year = Some y ->
    In (name, m) Filters.months ->
    Filters.build_date_conditions year (Some (name ++ " " ++ rest))
    = Returned [Filters.YearIs y; Filters.MonthIs m] /\
    1 <= m <= 12 /\
    Filters.build_date_conditions year (Some ("All Months " ++ Filters.str y))
    = Returned [Filters.YearIs y].
Proof.
  intros year y name m rest Y H.
  split; [|split].
  - unfold Filters.build_date_conditions. rewrite Y.
    simpl in H.
    repeat (destruct H as [[= <- <-]|H]; [reflexivity|]). destruct H.
  - simpl in H.
    repeat (destruct H as [[= <- <-]|H]; [lia|]). destruct H.
  - unfold Filters.build_date_conditions. rewrite Y. simpl.
    now rewrite String.eqb_refl.
Qed.

Lemma month_text_selects_its_month_witness :
  Filters.build_date_conditions (Some 2025) (Some "May 2025 (23 cases)")
  = Returned [Filters.YearIs 2025; Filters.MonthIs 5] /\
  1 <= 5 <= 12 /\
  Filters.build_date_conditions (Some 2025) (Some "All Months 2025")
  = Returned [Filters.YearIs 2025].
Proof.
  apply (month_text_selects_its_month (Some 2025) 2025 "May" 5
           "2025 (23 cases)" eq_refl).
  simpl. do 4 right. left. reflexivity.
Defined.

(* ================================================================== *)
(** * The retry decorator *)
(* ================================================================== *)

Module RetryFacts.
Import Retry.




(** What every run of the loop keeps, whatever [func] does. *)
Lemma loop_bounds {A : Type} (func : nat -> outcome A)
    (max_retries delay backoff : Z) (fuel : nat) :
  forall retries,
    0 <= retries -> fuel = Z.to_nat (max_retries - retries) ->
    let r := loop func max_retries delay backoff fuel retries in
    (calls r <= fuel)%nat /\
    List.length (slept r) = Nat.pred (calls r) /\
    (result r = NoValue <-> max_retries <= retries).
Proof.
  induction fuel as [|fuel IH]; intros retries R F; simpl.
  - split; [lia|]. split; [reflexivity|]. split; [lia | reflexivity].
  - assert ((retries <? max_retries) = true) as -> by (apply Z.ltb_lt; lia).
    destruct (func (Z.to_nat retries)) as [a|].
    + simpl. split; [lia|]. split; [reflexivity|].
      split; [discriminate | lia].
    + destruct (retries + 1 =? max_retries) eqn:E.
      * simpl. split; [lia|]. split; [reflexivity|].
        split; [discriminate | lia].
      * apply Z.eqb_neq in E.
        destruct (IH (retries + 1) ltac:(lia) ltac:(lia)) as [C [S N]].
        simpl. split; [lia|]. split.
        -- rewrite S.
           destruct (calls (loop func max_retries delay backoff fuel
                              (retries + 1))) eqn:K; [|reflexivity].
           exfalso.
           destruct fuel as [|fuel']; [lia|]. simpl in K.
           assert ((retries + 1 <? max_retries) = true) as L
             by (apply Z.ltb_lt; lia).
           rewrite L in K.
           destruct (func (Z.to_nat (retries + 1))); [discriminate K|].
           destruct (retries + 1 + 1 =? max_retries); discriminate K.
        -- rewrite N. lia.
Qed.

End RetryFacts.





(** X13. Whatever the decorated function does, the wrapper calls it at
    most [max_retries] times, sleeps once less than it calls, and ends
    with [None] exactly when [max_retries] is zero or negative, in which
    case the function is not called at all. *)
Theorem retry_never_exceeds_max_retries :
  forall (A : Type) (func : nat -> outcome A) (max_retries delay backoff : Z),
    let r := Retry.wrapper func max_retries delay backoff in
    (Retry.calls r <= Z.to_nat max_retries)%nat /\
    List.length (Retry.slept r) = Nat.pred (Retry.calls r) /\
    (Retry.result r = Retry.NoValue <-> max_retries <= 0) /\
    (max_retries <= 0 -> Retry.calls r = 0%nat).
Proof.
  intros A func max_retries delay backoff r. subst r. unfold Retry.wrapper.
  destruct (RetryFacts.loop_bounds func max_retries delay backoff
              (Z.to_nat max_retries) 0 ltac:(lia) ltac:(f_equal; lia))
    as [C [S N]].
  split; [exact C|]. split; [exact S|]. split; [exact N|].
  intros M. lia.
Qed.

Lemma retry_never_exceeds_max_retries_witness :
  Retry.calls (Retry.wrapper (fun _ => Returned 1) 0 2 2) = 0%nat.
Proof.
  destruct (retry_never_exceeds_max_retries Z (fun _ => Returned 1) 0 2 2)
    as [_ [_ [_ H]]].
  apply H. lia.
Defined.

(* ================================================================== *)
(** * From the URL parameters to the date and location filters *)
(* ================================================================== *)

Module ParameterFacts.
Import Filters Parameters.

Lemma str_injective (a b : Z) : str a = str b -> a = b.
Proof.
  unfold str. intros H. apply DecimalZ.to_int_inj.
  assert (N : forall z, Z.to_int z <> Decimal.Pos Decimal.Nil /\
                        Z.to_int z <> Decimal.Neg Decimal.Nil).
  { intros [|p|p]; simpl; split; try discriminate; intros [= E];
      now apply DecimalPos.Unsigned.to_uint_nonnil in E. }
  apply (f_equal DecimalString.NilZero.int_of_string) in H.
  rewrite !DecimalString.NilZero.isi in H by apply N.
  now injection H.
Qed.

Lemma lookup_in {K V : Type} (eqb : K -> K -> bool)
    (eqb_eq : forall a b, eqb a b = true -> a = b)
    (d : list (K * V)) (k : K) (v : V) :
  lookup eqb d k = Some v -> In (k, v) d.
Proof.
  induction d as [|[k' v'] t IH]; simpl; [discriminate|].
  destruct (eqb k k') eqn:E.
  - intros [= ->]. left. now rewrite (eqb_eq _ _ E).
  - intros H. right. now apply IH.
Qed.

(** The year alone, when the month text is the "All Months" of it. *)
Lemma all_months_same_year (y : Z) :
  y <> 0 ->
  build_date_conditions (Some y) (Some ("All Months " ++ str y))
  = Returned [YearIs y].
Proof.
  intros Z. unfold build_date_conditions, truthy_int.
  apply Z.eqb_neq in Z. rewrite Z. simpl. now rewrite String.eqb_refl.
Qed.

(** January, when the month text is the "All Months" of another year. *)
Lemma all_months_other_year (y cy : Z) :
  y <> 0 -> y <> cy ->
  build_date_conditions (Some y) (Some ("All Months " ++ str cy))
  = Returned [YearIs y; MonthIs 1].
Proof.
  intros Z N. unfold build_date_conditions, truthy_int.
  apply Z.eqb_neq in Z. rewrite Z.
  change (truthy_str (Some ("All Months " ++ str cy)))
    with (Some ("All Months " ++ str cy)).
  destruct (String.eqb ("All Months " ++ str cy) ("All Months " ++ str y))
    eqn:E.
  - apply String.eqb_eq in E. simpl in E. injection E as E.
    apply str_injective in E. congruence.
  - rewrite E. reflexivity.
Qed.

(** The month of the name, when the month text is a month name and the
    year. *)
Lemma named_month (y : Z) (name : string) :
  y <> 0 -> In name (map fst months) ->
  build_date_conditions (Some y) (Some (name ++ " " ++ str y))
  = Returned [YearIs y; MonthIs (month_num name)] /\
  1 <= month_num name <= 12.
Proof.
  intros Z H. unfold build_date_conditions, truthy_int.
  apply Z.eqb_neq in Z. rewrite Z. simpl in H.
  repeat (destruct H as [<-|H]; [split; [reflexivity | vm_compute; split; discriminate]|]).
  destruct H.
Qed.

Lemma digit_month_num (k : Z) (name : string) :
  In (k, name) digit_to_month ->
  In name (map fst months) /\ month_num name = k.
Proof.
  intros H. simpl in H.
  repeat (destruct H as [[= <- <-]|H]; [split; [simpl; tauto | reflexivity]|]).
  destruct H.
Qed.

Lemma month_map_names (key name : string) :
  In (key, name) month_map -> In name (map fst months).
Proof.
  intros H. simpl in H.
  repeat (destruct H as [[= _ <-]|H]; [simpl; tauto|]).
  destruct H.
Qed.

Lemma month_map_lookup (key name : string) :
  In (key, name) month_map ->
  lookup String.eqb month_map key = Some name /\ name <> "".
Proof.
  intros H. simpl in H.
  repeat (destruct H as [[= <- <-]|H]; [split; [reflexivity | discriminate]|]).
  destruct H.
Qed.

Lemma digit_lookup (k : Z) (name : string) :
  In (k, name) digit_to_month ->
  lookup Z.eqb digit_to_month k = Some name /\ 1 <= k <= 12.
Proof.
  intros H. simpl in H.
  repeat (destruct H as [[= <- <-]|H]; [split; [reflexivity | lia]|]).
  destruct H.
Qed.

(** The three shapes of the month text. *)
Lemma selected_month_cases (cy y : Z) (mo : option string) :
  selected_month cy y mo = ("All Months " ++ str cy, "All Months") \/
  selected_month cy y mo = ("All Months " ++ str y, "All Months") \/
  exists name, In name (map fst months) /\
               selected_month cy y mo = (name ++ " " ++ str y, name).
Proof.
  unfold selected_month.
  destruct (truthy_str mo) as [m|]; [|now left].
  destruct (String.eqb (Text.lower m) "all"); [now right; left|].
  destruct (int m) as [k|].
  - destruct ((1 <=? k) && (k <=? 12))%bool; [|now left].
    destruct (lookup Z.eqb digit_to_month k) as [name|] eqn:L; [|now left].
    right; right. exists name. split; [|reflexivity].
    apply (lookup_in Z.eqb) in L; [|intros a b; apply Z.eqb_eq].
    now apply digit_month_num in L.
  - destruct (lookup String.eqb month_map (Text.lower m)) as [name|] eqn:L;
      [|now left].
    destruct (String.eqb name ""); [now left|].
    right; right. exists name. split; [|reflexivity].
    apply (lookup_in String.eqb) in L; [|intros a b; apply String.eqb_eq].
    now apply month_map_names in L.
Qed.

(** ** Texts that [int] refuses *)

Lemma digits_needs_digit (l : list ascii) (acc k : Z) :
  digits acc false l = Some k -> existsb Text.is_digit l = true.
Proof.
  destruct l as [|c t]; simpl; [discriminate|].
  destruct (Text.is_digit c); [reflexivity|].
  rewrite Bool.andb_false_r. discriminate.
Qed.

Lemma drop_while_in (f : ascii -> bool) (l : list ascii) (c : ascii) :
  In c (drop_while f l) -> In c l.
Proof.
  induction l as [|x t IH]; simpl; [tauto|].
  destruct (f x); [intros H; right; now apply IH | tauto].
Qed.

Lemma any_char_existsb (f : ascii -> bool) (s : string) :
  Text.any_char f s = existsb f (list_ascii_of_string s).
Proof. induction s as [|c t IH]; simpl; [reflexivity | now rewrite IH]. Qed.

Lemma is_digit_lower_char (c : ascii) :
  Text.is_digit (Text.lower_char c) = Text.is_digit c.
Proof. destruct c as [[] [] [] [] [] [] [] []]; reflexivity. Qed.

Lemma any_digit_lower (s : string) :
  Text.any_char Text.is_digit (Text.lower s) = Text.any_char Text.is_digit s.
Proof.
  induction s as [|c t IH]; simpl; [reflexivity|].
  now rewrite is_digit_lower_char, IH.
Qed.

(** [int] raises on a text without a digit. *)
Lemma int_needs_digit (text : string) (k : Z) :
  int text = Some k -> Text.any_char Text.is_digit text = true.
Proof.
  unfold int. rewrite any_char_existsb.
  set (l := rev (drop_while is_c_space
                   (rev (drop_while is_c_space (list_ascii_of_string text))))).
  assert (I : forall c, In c l -> In c (list_ascii_of_string text)).
  { intros c H. subst l. apply in_rev in H. apply drop_while_in in H.
    apply in_rev in H. now apply drop_while_in in H. }
  assert (D : forall t acc n, incl t l -> digits acc false t = Some n ->
                existsb Text.is_digit (list_ascii_of_string text) = true).
  { intros t acc n S H. apply digits_needs_digit in H.
    apply existsb_exists in H. destruct H as [c [C F]].
    apply existsb_exists. exists c. split; [apply I, S, C | exact F]. }
  assert (T : forall c t, l = c :: t -> incl t l)
    by (intros c t ->; apply incl_tl, incl_refl).
  destruct l as [|c t] eqn:L.
  - simpl. discriminate.
  - destruct c as [[] [] [] [] [] [] [] []];
      try (intros H; exact (D _ 0 k (incl_refl _) H)).
    + intros H. exact (D t 0 k (T _ _ eq_refl) H).
    + intros H. destruct (digits 0 false t) as [n|] eqn:E; [|discriminate H].
      exact (D t 0 n (T _ _ eq_refl) E).
Qed.

Lemma letters_no_number (text : string) :
  Text.any_char Text.is_digit (Text.lower text) = false -> int text = None.
Proof.
  rewrite any_digit_lower. intros H.
  destruct (int text) as [k|] eqn:E; [|reflexivity].
  apply int_needs_digit in E. congruence.
Qed.

Lemma int_nonempty (text : string) (k : Z) : int text = Some k -> text <> "".
Proof. intros H ->. discriminate H. Qed.

Lemma truthy_nonempty (text : string) :
  text <> "" -> truthy_str (Some text) = Some text.
Proof.
  intros H. unfold truthy_str. apply String.eqb_neq in H. now rewrite H.
Qed.

Lemma lower_nonempty (text : string) : Text.lower text <> "" -> text <> "".
Proof. intros H ->. now apply H. Qed.

End ParameterFacts.

(** X14. Whatever the URL holds and whatever the current year is, the
    year and month text that [get_dynamic_parameters] passes on give
    date conditions and no error: none when the selected year is 0, else
    the year alone or the year and a month from 1 to 12. *)
Theorem url_parameters_always_give_date_conditions :
  forall (get : Parameters.query_params) (current_year : Z),
    let p := Parameters.get_dynamic_parameters get current_year in
    let y := Parameters.year p in
    let conditions :=
      Filters.build_date_conditions (Some y) (Some (Parameters.month p)) in
    (y = 0 /\ conditions = Returned []) \/
    (y <> 0 /\ conditions = Returned [Filters.YearIs y]) \/
    (y <> 0 /\ exists m, 1 <= m <= 12 /\
       conditions = Returned [Filters.YearIs y; Filters.MonthIs m]).
Proof.
  intros get current_year p y conditions. subst conditions.
  destruct (Z.eq_dec y 0) as [Z|Z].
  - left. split; [exact Z|]. rewrite Z. reflexivity.
  - right. subst y p. unfold Parameters.get_dynamic_parameters in *.
    simpl Parameters.year in *. simpl Parameters.month.
    set (y := Parameters.selected_year current_year _) in *.
    destruct (ParameterFacts.selected_month_cases current_year y
                (Parameters.or_else (get "month") (get "m")))
      as [E|[E|[name [N E]]]]; rewrite E; simpl fst.
    + destruct (Z.eq_dec y current_year) as [C|C].
      * left. split; [exact Z|]. rewrite <- C.
        now apply ParameterFacts.all_months_same_year.
      * right. split; [exact Z|]. exists 1. split; [lia|].
        now apply ParameterFacts.all_months_other_year.
    + left. split; [exact Z|].
      now apply ParameterFacts.all_months_same_year.
    + right. split; [exact Z|].
      destruct (ParameterFacts.named_month y name Z N) as [B R].
      exists (Filters.month_num name). split; [exact R | exact B].
Qed.

(** X15. With no month in the URL, the month text is "All Months" of
    the current year.  When the selected year is the current year the
    fetchers are asked for that year alone; when it is another year (and
    not 0) they are asked for January of the selected year. *)
Theorem another_year_without_a_month_asks_for_january :
  forall (get : Parameters.query_params) (current_year : Z),
    get "month" = None -> get "m" = None ->
    let p := Parameters.get_dynamic_parameters get current_year in
    let y := Parameters.year p in
    y <> 0 ->
    Parameters.month p = "All Months " ++ Filters.str current_year /\
    Parameters.month_display p = "All Months" /\
    (y = current_year ->
     Filters.build_date_conditions (Some y) (Some (Parameters.month p))
     = Returned [Filters.YearIs y]) /\
    (y <> current_year ->
     Filters.build_date_conditions (Some y) (Some (Parameters.month p))
     = Returned [Filters.YearIs y; Filters.MonthIs 1]).
Proof.
  intros get current_year M1 M2 p y Z. subst y p.
  unfold Parameters.get_dynamic_parameters in *.
  simpl Parameters.year in *. simpl Parameters.month.
  simpl Parameters.month_display.
  rewrite M1, M2.
  change (Parameters.or_else None None) with (@None string).
  set (y := Parameters.selected_year current_year _) in *.
  change (Parameters.selected_month current_year y None)
    with ("All Months " ++ Filters.str current_year, "All Months").
  simpl fst. simpl snd.
  split; [reflexivity|]. split; [reflexivity|]. split.
  - intros C. rewrite <- C. now apply ParameterFacts.all_months_same_year.
  - intros C. now apply ParameterFacts.all_months_other_year.
Qed.

Lemma another_year_without_a_month_asks_for_january_witness :
  let get := fun k : string => if String.eqb k "year" then Some "2023" else None in
  let p := Parameters.get_dynamic_parameters get 2026 in
  Parameters.year p = 2023 /\
  Parameters.month p = "All Months 2026" /\
  Filters.build_date_conditions (Some 2023) (Some (Parameters.month p))
  = Returned [Filters.YearIs 2023; Filters.MonthIs 1].
Proof.
  intros get p.
  destruct (another_year_without_a_month_asks_for_january get 2026
              eq_refl eq_refl) as [M [_ [_ J]]].
  - vm_compute. discriminate.
  - split; [reflexivity|]. split; [exact M|].
    apply J. vm_compute. discriminate.
Defined.

(** X16. For year and month parameters in ASCII of at most 4300
    characters: a month parameter that [int] reads as a number from 1 to
    12, or whose lower-case form is a month name or its three-letter
    abbreviation, asks the fetchers for that month of the selected year,
    and "all" in any case asks for the selected year alone. *)
Theorem month_parameter_selects_the_month :
  forall (get : Parameters.query_params) (current_year : Z) (text : string),
    Parameters.or_else (get "month") (get "m") = Some text ->
    Parameters.plain_text text = true ->
    (forall y, Parameters.or_else (get "year") (get "y") = Some y ->
               Parameters.plain_text y = true) ->
    let p := Parameters.get_dynamic_parameters get current_year in
    let y := Parameters.year p in
    y <> 0 ->
    (forall k name,
       In (k, name) Parameters.digit_to_month ->
       Parameters.int text = Some k \/
       In (Text.lower text, name) Parameters.month_map ->
       Parameters.month_display p = name /\
       Filters.build_date_conditions (Some y) (Some (Parameters.month p))
       = Returned [Filters.YearIs y; Filters.MonthIs k]) /\
    (Text.lower text = "all" ->
     Parameters.month_display p = "All Months" /\
     Filters.build_date_conditions (Some y) (Some (Parameters.month p))
     = Returned [Filters.YearIs y]).
Proof.
  intros get current_year text G _ _ p y Z. subst y p.
  unfold Parameters.get_dynamic_parameters in *.
  simpl Parameters.year in *. simpl Parameters.month.
  simpl Parameters.month_display. rewrite G.
  set (y := Parameters.selected_year current_year _) in *.
  split.
  - intros k name D H.
    destruct (ParameterFacts.digit_month_num k name D) as [N K].
    destruct (ParameterFacts.digit_lookup k name D) as [L B].
    destruct (ParameterFacts.named_month y name Z N) as [R _].
    rewrite K in R.
    assert (Parameters.selected_month current_year y (Some text)
            = (name ++ " " ++ Filters.str y, name)) as ->;
      [|split; [reflexivity | exact R]].
    unfold Parameters.selected_month.
    destruct H as [I|M].
    + rewrite (ParameterFacts.truthy_nonempty text
                 (ParameterFacts.int_nonempty text k I)).
      destruct (String.eqb (Text.lower text) "all") eqn:A.
      * apply String.eqb_eq in A.
        rewrite ParameterFacts.letters_no_number in I
          by (rewrite A; reflexivity).
        discriminate I.
      * rewrite I.
        assert (((1 <=? k) && (k <=? 12))%bool = true) as ->
          by (apply andb_true_intro; split; apply Z.leb_le; lia).
        now rewrite L.
    + destruct (ParameterFacts.month_map_lookup _ _ M) as [LM NE].
      assert (T : text <> "").
      { apply ParameterFacts.lower_nonempty. intros E. rewrite E in LM.
        discriminate LM. }
      rewrite (ParameterFacts.truthy_nonempty text T).
      destruct (String.eqb (Text.lower text) "all") eqn:A.
      * apply String.eqb_eq in A. rewrite A in LM. discriminate LM.
      * assert (Parameters.int text = None) as ->.
        { apply ParameterFacts.letters_no_number.
          simpl in M.
          repeat (destruct M as [[= <- _]|M]; [reflexivity|]).
          destruct M. }
        rewrite LM. apply String.eqb_neq in NE. now rewrite NE.
  - intros A.
    assert (T : text <> "").
    { apply ParameterFacts.lower_nonempty. rewrite A. discriminate. }
    unfold Parameters.selected_month.
    rewrite (ParameterFacts.truthy_nonempty text T), A.
    simpl. split; [reflexivity|].
    now apply ParameterFacts.all_months_same_year.
Qed.

Lemma month_parameter_selects_the_month_witness :
  let get := fun k : string =>
               if String.eqb k "y" then Some "2024"
               else if String.eqb k "m" then Some "SEP" else None in
  let p := Parameters.get_dynamic_parameters get 2026 in
  Parameters.month_display p = "September" /\
  Filters.build_date_conditions (Some 2024) (Some (Parameters.month p))
  = Returned [Filters.YearIs 2024; Filters.MonthIs 9].
Proof.
  intros get p.
  destruct (month_parameter_selects_the_month get 2026 "SEP" eq_refl eq_refl)
    as [H _].
  - intros y [= <-]. reflexivity.
  - vm_compute. discriminate.
  - apply (H 9 "September").
    + simpl. do 8 right. left. reflexivity.
    + right. simpl. do 16 right. left. reflexivity.
Defined.

(* ================================================================== *)
(** * Epicurves of the ranked districts *)
(* ================================================================== *)

Module EpicurveFacts.
Import Epicurves.

Lemma by_week_total (a b : Z * Z) : by_week a b = false -> by_week b a = true.
Proof. unfold by_week. rewrite Z.leb_gt, Z.leb_le. lia. Qed.

Lemma by_week_trans (a b c : Z * Z) :
  by_week a b = true -> by_week b c = true -> by_week a c = true.
Proof. unfold by_week. rewrite !Z.leb_le. lia. Qed.

(** The frame of a district: weeks strictly ascending, a case at least in
    every week. *)
Lemma district_query_shape (w : warehouse) (district_name : string)
    (in_period : date -> bool) :
  Sorted.StronglySorted Z.lt
    (map fst (district_query w district_name in_period)) /\
  (forall r, In r (district_query w district_name in_period) -> 1 <= snd r).
Proof.
  unfold district_query.
  set (counted := map _ (Sql.group_by snd Z.eqb _)).
  assert (N : NoDup (map fst counted)).
  { subst counted. rewrite map_map.
    erewrite map_ext;
      [apply (RelFacts.group_by_keys_nodup _ Z.eqb), Z.eqb_eq|].
    intros [k g]. reflexivity. }
  set (positive := fun c : Z * Z => 0 <? snd c).
  split.
  - apply (RelFacts.sorted_map
             (fun a b => by_week a b = true /\ fst a <> fst b)).
    + unfold by_week. intros a b [L D]. apply Z.leb_le in L. lia.
    + apply RelFacts.sorted_strict.
      * apply RelFacts.order_by_is_sorted;
          [exact by_week_total | exact by_week_trans].
      * eapply Permutation_NoDup;
          [symmetry; apply Permutation_map, SqlFacts.order_by_perm|].
        apply DistrictShape.nodup_map_filter.
        eapply Permutation_NoDup;
          [symmetry; apply Permutation_map, SqlFacts.order_by_perm|].
        now apply DistrictShape.nodup_map_filter.
  - intros r H. apply SqlFacts.in_order_by in H. apply filter_In in H.
    destruct H as [_ H]. unfold positive in H. apply Z.ltb_lt in H. lia.
Qed.

Lemma top_districts_nodup (eng : engine) (year : option Z) :
  NoDup (map TopDistricts.District
           (TopDistricts.get_measles_top_10_districts eng year)).
Proof.
  destruct eng as [w|]; [|constructor].
  change (TopDistricts.get_measles_top_10_districts (Connected w) year)
    with (TopDistricts.query w year).
  unfold TopDistricts.query. rewrite map_map.
  change (fun x => TopDistricts.District (TopDistricts.output x))
    with TopDistricts.district_name.
  rewrite RelFacts.limit_map. apply RelFacts.limit_nodup.
  eapply Permutation_NoDup;
    [symmetry; apply Permutation_map, SqlFacts.order_by_perm|].
  apply DistrictShape.nodup_map_filter, DistrictShape.summary_names.
Qed.

Section Kept.
Context {A : Type} (name : A -> string) (frame : A -> list (Z * Z)).

Lemma kept_in (e : epicurve) (l : list A) :
  In e (flat_map (fun row => if has_data (frame row)
                             then [mkEpicurve (name row) (frame row)]
                             else []) l) ->
  exists row, In row l /\ has_data (frame row) = true /\
              e = mkEpicurve (name row) (frame row).
Proof.
  intros H. apply in_flat_map in H. destruct H as [row [R H]].
  destruct (has_data (frame row)) eqn:D; [|destruct H].
  destruct H as [<-|[]]. now exists row.
Qed.

Lemma kept_length (l : list A) :
  (List.length (flat_map (fun row => if has_data (frame row)
                                     then [mkEpicurve (name row) (frame row)]
                                     else []) l)
   <= List.length l)%nat.
Proof.
  induction l as [|a t IH]; simpl; [lia|].
  rewrite length_app.
  destruct (has_data (frame a)); simpl; lia.
Qed.

Lemma kept_nodup (l : list A) :
  NoDup (map name l) ->
  NoDup (map district
           (flat_map (fun row => if has_data (frame row)
                                 then [mkEpicurve (name row) (frame row)]
                                 else []) l)).
Proof.
  induction l as [|a t IH]; simpl; intros N; [constructor|].
  inversion N as [|x y Hx Hy]; subst.
  rewrite map_app.
  destruct (has_data (frame a)); simpl; auto.
  constructor; auto.
  intros H. apply Hx. apply in_map_iff in H. destruct H as [e [E He]].
  apply kept_in in He. destruct He as [row [R [_ ->]]]. simpl in E.
  rewrite <- E. now apply in_map.
Qed.

End Kept.

(** The list returned, connected. *)
Lemma connected_epicurves (last_12_months : date -> bool) (w : warehouse)
    (location : option string) (year : option Z) (month : option string) :
  get_measles_top_districts_epicurves last_12_months (Connected w) location
    year month
  = flat_map
      (fun row =>
         if has_data (district_query w (TopDistricts.District row)
                        (date_filter last_12_months year))
         then [mkEpicurve (TopDistricts.District row)
                 (district_query w (TopDistricts.District row)
                    (date_filter last_12_months year))]
         else [])
      (TopDistricts.get_measles_top_10_districts (Connected w) year).
Proof.
  unfold get_measles_top_districts_epicurves, try_except, bind, connect.
  destruct (TopDistricts.get_measles_top_10_districts (Connected w) year);
    reflexivity.
Qed.

Lemma has_data_nonempty (district_df : list (Z * Z)) :
  has_data district_df = true -> district_df <> [].
Proof. destruct district_df; [discriminate | discriminate]. Qed.

End EpicurveFacts.

(** X17. When no ranked district has a quote in its name, the epicurves
    returned are at most twelve, one at most per district, each for a
    district of the ranking of [get_measles_top_10_districts] for the
    same year, so for none of the excluded names; the frame of each has a
    row at least, its weeks strictly ascending, and a case at least in
    every row.  The [location] and [month] arguments change nothing, and
    without a connection the list is empty. *)
Theorem epicurves_follow_the_district_ranking :
  forall (last_12_months : date -> bool) (eng : engine)
         (location : option string) (year : option Z) (month : option string),
    let ranking := TopDistricts.get_measles_top_10_districts eng year in
    let curves :=
      Epicurves.get_measles_top_districts_epicurves last_12_months eng
        location year month in
    (forall r, In r ranking ->
       Text.contains "'" (TopDistricts.District r) = false) ->
    (List.length curves <= 12)%nat /\
    NoDup (map Epicurves.district curves) /\
    (forall e, In e curves ->
       In (Epicurves.district e) (map TopDistricts.District ranking) /\
       ~ In (Epicurves.district e) Spec.excluded_names /\
       Epicurves.data e <> [] /\
       Sorted.StronglySorted Z.lt (map fst (Epicurves.data e)) /\
       (forall r, In r (Epicurves.data e) -> 1 <= snd r)) /\
    curves = Epicurves.get_measles_top_districts_epicurves last_12_months eng
               None year None /\
    (eng = Unreachable -> curves = []).
Proof.
  intros last_12_months eng location year month ranking curves _.
  subst ranking curves.
  destruct eng as [w|].
  2:{ split; [simpl; lia|]. split; [constructor|].
      split; [intros e []|]. split; reflexivity. }
  rewrite !EpicurveFacts.connected_epicurves.
  destruct (TopDistrictsFacts.top_districts_ranked (Connected w) year)
    as [_ L].
  split; [|split; [|split; [|split; [reflexivity | discriminate]]]].
  - eapply Nat.le_trans;
      [apply (EpicurveFacts.kept_length TopDistricts.District
                (fun row => Epicurves.district_query w
                              (TopDistricts.District row)
                              (Epicurves.date_filter last_12_months year)))
      | exact L].
  - apply (EpicurveFacts.kept_nodup TopDistricts.District
             (fun row => Epicurves.district_query w
                           (TopDistricts.District row)
                           (Epicurves.date_filter last_12_months year))),
      EpicurveFacts.top_districts_nodup.
  - intros e H.
    apply (EpicurveFacts.kept_in TopDistricts.District
             (fun row => Epicurves.district_query w
                           (TopDistricts.District row)
                           (Epicurves.date_filter last_12_months year)))
      in H.
    destruct H as [row [R [D ->]]]. simpl.
    split; [now apply in_map|].
    split; [eapply TopDistrictsFacts.top_districts_names; eauto|].
    split; [now apply EpicurveFacts.has_data_nonempty|].
    apply EpicurveFacts.district_query_shape.
Qed.

Lemma epicurves_follow_the_district_ranking_witness :
  let curves :=
    Epicurves.get_measles_top_districts_epicurves (fun _ => true)
      (Connected Samples.across_new_year) None None None in
  (List.length curves <= 12)%nat /\
  NoDup (map Epicurves.district curves) /\
  curves <> [].
Proof.
  intros curves.
  destruct (epicurves_follow_the_district_ranking (fun _ => true)
              (Connected Samples.across_new_year) None None None)
    as [L [N _]].
  - vm_compute. intros r H.
    repeat (destruct H as [<-|H]; [reflexivity|]). destruct H.
  - split; [exact L|]. split; [exact N|]. vm_compute. discriminate.
Defined.

(** X18. The location that [get_dynamic_parameters] passes on, read by
    the filter builder of the fetchers: without a location in the URL,
    and for "national" in any case, no location filter is built; for
    "regional" the regions are asked to have "Regional Level" in their
    name, for "district" the districts to have "District Level" in
    theirs; any other text is passed on as it is. *)
Theorem location_parameter_and_the_location_filter :
  forall (get : Parameters.query_params) (current_year : Z),
    let p := Parameters.get_dynamic_parameters get current_year in
    let f := Filters.build_location_filter (Some (Parameters.location p)) in
    let text := Parameters.or_else (get "location") (get "l") in
    (Filters.truthy_str text = None ->
     Parameters.coverage p = "National" /\ f = Filters.NoLocation) /\
    (forall l, Filters.truthy_str text = Some l ->
       (Text.lower l = "national" ->
        Parameters.coverage p = "National" /\ f = Filters.NoLocation) /\
       (Text.lower l = "regional" ->
        f = Filters.RegionLike "Regional Level") /\
       (Text.lower l = "district" ->
        f = Filters.DistrictLike "District Level") /\
       (~ In (Text.lower l) (map fst Parameters.location_map) ->
        Parameters.location p = l)).
Proof.
  intros get current_year p f text. subst f p text.
  unfold Parameters.get_dynamic_parameters.
  simpl Parameters.location. simpl Parameters.coverage.
  unfold Parameters.selected_location.
  set (text := Parameters.or_else (get "location") (get "l")).
  split.
  - intros ->. split; reflexivity.
  - intros l ->. split; [|split; [|split]].
    + intros ->. split; reflexivity.
    + intros ->. reflexivity.
    + intros ->. reflexivity.
    + intros H. simpl. simpl in H.
      destruct (String.eqb (Text.lower l) "national") eqn:E1;
        [apply String.eqb_eq in E1; rewrite E1 in H; tauto|].
      destruct (String.eqb (Text.lower l) "regional") eqn:E2;
        [apply String.eqb_eq in E2; rewrite E2 in H; tauto|].
      destruct (String.eqb (Text.lower l) "district") eqn:E3;
        [apply String.eqb_eq in E3; rewrite E3 in H; tauto|].
      reflexivity.
Qed.

Lemma location_parameter_and_the_location_filter_witness :
  Filters.build_location_filter
    (Some (Parameters.location
             (Parameters.get_dynamic_parameters
                (fun k : string =>
                   if String.eqb k "l" then Some "Regional" else None)
                2026)))
  = Filters.RegionLike "Regional Level".
Proof.
  destruct (location_parameter_and_the_location_filter
              (fun k : string =>
                 if String.eqb k "l" then Some "Regional" else None) 2026)
    as [_ H].
  destruct (H "Regional" eq_refl) as [_ [R _]].
  apply R. reflexivity.
Defined.

(* ================================================================== *)
(** * Summary statistics, total deaths and the display table *)
(* ================================================================== *)

Module SummaryFacts.
Import SummaryStats.

(** The text looked for is not in the statement: nothing is replaced. *)
Lemma statement_is_query (start_date end_date : option string) :
  statement start_date end_date = query.
Proof.
  unfold statement.
  destruct (String.eqb (date_filter start_date end_date) ""); [reflexivity|].
  set (new := (_ ++ date_filter start_date end_date)%string).
  clearbody new. vm_compute. reflexivity.
Qed.

Lemma recent_incl (w : warehouse) (n : Z)
    (l : list ((string * option date * Z) * org_hierarchy)) :
  incl (Sql.non_null (map (recent_id w n) l))
       (Sql.non_null (map (fun x => Some (fst (fst (fst x)))) l)).
Proof.
  intros a H. apply RelFacts.non_null_in in H. apply RelFacts.non_null_in.
  apply in_map_iff in H. destruct H as [x [E Hx]].
  apply in_map_iff. exists x. split; [|exact Hx].
  unfold recent_id in E. destruct (snd (fst (fst x))) as [d|]; [|discriminate].
  destruct (within_days (now w) n d); [exact E | discriminate].
Qed.

Lemma recent_mono (w : warehouse) (n m : Z)
    (l : list ((string * option date * Z) * org_hierarchy)) :
  (forall d, within_days (now w) n d = true -> within_days (now w) m d = true) ->
  incl (Sql.non_null (map (recent_id w n) l))
       (Sql.non_null (map (recent_id w m) l)).
Proof.
  intros M a H. apply RelFacts.non_null_in in H. apply RelFacts.non_null_in.
  apply in_map_iff in H. destruct H as [x [E Hx]].
  apply in_map_iff. exists x. split; [|exact Hx].
  unfold recent_id in *. destruct (snd (fst (fst x))) as [d|]; [|discriminate].
  destruct (within_days (now w) n d) eqn:W; [|discriminate].
  now rewrite (M d W).
Qed.

Lemma result_bounds (w : warehouse) :
  0 <= cases_last_7_days (result w) <= total_cases (result w) /\
  0 <= cases_last_30_days (result w) <= total_cases (result w) /\
  0 <= affected_districts (result w) /\
  (total_cases (result w) = 0 -> result w = zeros).
Proof.
  unfold result. simpl.
  split; [split; [apply SqlFacts.count_distinct_nonneg|]|].
  { apply RelFacts.count_distinct_incl; [apply String.eqb_eq|].
    apply recent_incl. }
  split; [split; [apply SqlFacts.count_distinct_nonneg|]|].
  { apply RelFacts.count_distinct_incl; [apply String.eqb_eq|].
    apply recent_incl. }
  split; [apply SqlFacts.count_distinct_nonneg|].
  destruct (joined w) as [|x t]; [reflexivity|].
  unfold Sql.count_distinct. simpl. lia.
Qed.

End SummaryFacts.

(** X19. The summary statistics do not depend on [start_date] and
    [end_date]: the text the date filter is to be attached to is not in
    the statement.  The counts of the last 7 and of the last 30 days are
    between 0 and the total, the number of districts is not negative,
    all four are 0 when the total is, and when the direct connection or
    the engine fails. *)
Theorem summary_stats_ignore_the_dates :
  forall (direct : outcome unit) (eng : engine)
         (start_date end_date : option string),
    let s := SummaryStats.get_measles_summary_stats direct eng
               start_date end_date in
    s = SummaryStats.get_measles_summary_stats direct eng None None /\
    0 <= SummaryStats.cases_last_7_days s <= SummaryStats.total_cases s /\
    0 <= SummaryStats.cases_last_30_days s <= SummaryStats.total_cases s /\
    0 <= SummaryStats.affected_districts s /\
    (SummaryStats.total_cases s = 0 -> s = SummaryStats.zeros) /\
    (direct = Raised \/ eng = Unreachable -> s = SummaryStats.zeros).
Proof.
  intros direct eng start_date end_date s. subst s.
  unfold SummaryStats.get_measles_summary_stats.
  rewrite !SummaryFacts.statement_is_query.
  split; [reflexivity|].
  destruct direct as [[]|], eng as [w|];
    try (simpl; repeat split; try lia; reflexivity).
  change (try_except
            (_ <- Returned tt ;; w0 <- connect (Connected w) ;;
             SummaryStats.execute w0 SummaryStats.query) SummaryStats.zeros)
    with (SummaryStats.result w).
  destruct (SummaryFacts.result_bounds w) as [A [B [C D]]].
  split; [exact A|]. split; [exact B|]. split; [exact C|].
  split; [exact D|]. intros [H|H]; discriminate H.
Qed.

Lemma summary_stats_ignore_the_dates_witness :
  SummaryStats.get_measles_summary_stats (Returned tt)
    (Connected Samples.two_weeks) (Some "2024-01-01") (Some "2024-01-31")
  = SummaryStats.get_measles_summary_stats (Returned tt)
      (Connected Samples.two_weeks) None None.
Proof.
  destruct (summary_stats_ignore_the_dates (Returned tt)
              (Connected Samples.two_weeks) (Some "2024-01-01")
              (Some "2024-01-31")) as [H _].
  exact H.
Defined.

(** X20. When the server's clock puts every date of the last 7 days
    among those of the last 30 days, the summary never counts more cases
    for the last 7 days than for the last 30. *)
Theorem summary_stats_last_week_within_last_month :
  forall (direct : outcome unit) (eng : engine)
         (start_date end_date : option string),
    (forall w d, eng = Connected w ->
       within_days (now w) 7 d = true -> within_days (now w) 30 d = true) ->
    let s := SummaryStats.get_measles_summary_stats direct eng
               start_date end_date in
    SummaryStats.cases_last_7_days s <= SummaryStats.cases_last_30_days s.
Proof.
  intros direct eng start_date end_date M s. subst s.
  unfold SummaryStats.get_measles_summary_stats.
  rewrite SummaryFacts.statement_is_query.
  destruct direct as [[]|], eng as [w|]; try (simpl; lia).
  change (try_except
            (_ <- Returned tt ;; w0 <- connect (Connected w) ;;
             SummaryStats.execute w0 SummaryStats.query) SummaryStats.zeros)
    with (SummaryStats.result w).
  unfold SummaryStats.result. simpl.
  apply RelFacts.count_distinct_incl; [apply String.eqb_eq|].
  apply SummaryFacts.recent_mono. intros d. now apply M.
Qed.

Lemma summary_stats_last_week_within_last_month_witness :
  let s := SummaryStats.get_measles_summary_stats (Returned tt)
             (Connected Samples.two_weeks) None None in
  SummaryStats.cases_last_7_days s <= SummaryStats.cases_last_30_days s.
Proof.
  apply (summary_stats_last_week_within_last_month (Returned tt)
           (Connected Samples.two_weeks) None None).
  intros w d [= <-] _. reflexivity.
Defined.

Module DeathFacts.
Import TotalDeaths.

Lemma date_eqb_spec (a b : date) : date_eqb a b = true <-> a = b.
Proof.
  destruct a as [y1 m1 d1 w1], b as [y2 m2 d2 w2]. unfold date_eqb. simpl.
  rewrite !andb_true_iff, !Z.eqb_eq.
  split; [intros [[[-> ->] ->] ->]; reflexivity | intros [= -> -> -> ->]; auto].
Qed.

Lemma me_eqb_spec (a b : option string * date) : me_eqb a b = true <-> a = b.
Proof.
  destruct a as [a1 a2], b as [b1 b2]. unfold me_eqb. simpl.
  rewrite andb_true_iff, TableShape.nullable_eqb_spec, date_eqb_spec.
  split; [intros [-> ->]; reflexivity | intros [= -> ->]; auto].
Qed.

Lemma in_inner_join {A B : Type} (on : A -> B -> bool) (a : list A)
    (b : list B) (x : A) (y : B) :
  In (x, y) (Sql.inner_join on a b) <-> In x a /\ In y b /\ on x y = true.
Proof.
  unfold Sql.inner_join. rewrite in_flat_map. split.
  - intros [x' [X H]]. apply in_map_iff in H. destruct H as [y' [[= -> ->] H]].
    apply filter_In in H. tauto.
  - intros [X [Y O]]. exists x. split; [exact X|].
    apply in_map_iff. exists y. split; [reflexivity|].
    apply filter_In. tauto.
Qed.

Lemma in_measles_events (w : warehouse) (t : option string) (d : date) :
  In (t, d) (measles_events w) <->
  exists e, In e (fact_eidsr_event_data w) /\ is_measles e = true /\
            event_date e = Some d /\ tracked_entity_instance_id e = t.
Proof.
  unfold measles_events.
  rewrite (RelFacts.distinct_in me_eqb me_eqb_spec), in_flat_map.
  split.
  - intros [e [E H]]. exists e.
    destruct (event_date e) as [d'|]; [|destruct H].
    destruct (is_measles e); [|destruct H].
    destruct H as [[= <- <-]|[]]. auto.
  - intros [e [E [M [D T]]]]. exists e. split; [exact E|].
    rewrite D, M, T. now left.
Qed.

Lemma count_distinct_values {A : Type} (eqb : A -> A -> bool)
    (l : list (option A)) :
  1 <= Sql.count_distinct eqb l <-> exists a, In (Some a) l.
Proof.
  unfold Sql.count_distinct. split.
  - intros H. destruct (Sql.non_null l) as [|a t] eqn:E; [simpl in H; lia|].
    exists a. apply RelFacts.non_null_in. rewrite E. now left.
  - intros [a H]. apply RelFacts.non_null_in in H.
    destruct (Sql.non_null l) as [|b t]; [destruct H|]. simpl. lia.
Qed.

End DeathFacts.

(** X21. The total of deaths is never negative and is 0 without a
    connection.  It never exceeds the number of distinct tracked
    entities of the measles events, and it is 1 at least exactly when
    some attribute row with "death" in its lower-cased display name and
    a value that reads, lower-cased, "yes" or holds "death", "died" or
    "dead", belongs to the tracked entity of a dated measles event. *)
Theorem total_deaths_counts_flagged_measles_entities :
  forall (eng : engine),
    let n := TotalDeaths.get_measles_total_deaths eng in
    0 <= n /\
    (eng = Unreachable -> n = 0) /\
    (forall w, eng = Connected w ->
       n <= Sql.count_distinct String.eqb
              (map tracked_entity_instance_id
                 (filter is_measles (fact_eidsr_event_data w))) /\
       (1 <= n <->
        exists tea e d,
          In tea (fact_eidsr_tracked_entity_attributes w) /\
          TotalDeaths.death_attribute tea = true /\
          In e (fact_eidsr_event_data w) /\
          is_measles e = true /\
          event_date e = Some d /\
          tracked_entity_instance_id e = Some (entity_id tea))).
Proof.
  intros eng n. subst n.
  destruct eng as [w|].
  2:{ split; [change (0 <= 0); lia|]. split; [reflexivity | discriminate]. }
  change (TotalDeaths.get_measles_total_deaths (Connected w))
    with (TotalDeaths.total_deaths w).
  split; [apply SqlFacts.count_distinct_nonneg|].
  split; [discriminate|].
  intros w' [= <-]. unfold TotalDeaths.total_deaths. split.
  - apply RelFacts.count_distinct_incl; [apply String.eqb_eq|].
    intros a H. apply RelFacts.non_null_in in H. apply RelFacts.non_null_in.
    apply in_map_iff in H. destruct H as [[tea [t d]] [[= <-] H]].
    apply filter_In in H. destruct H as [H _].
    apply DeathFacts.in_inner_join in H. destruct H as [_ [M S]].
    unfold TotalDeaths.same_entity in S. simpl in S.
    destruct t as [t|]; [|discriminate S]. apply String.eqb_eq in S.
    apply DeathFacts.in_measles_events in M.
    destruct M as [e [E [Me [_ T]]]].
    apply in_map_iff. exists e. split; [now rewrite T, S|].
    apply filter_In. tauto.
  - rewrite DeathFacts.count_distinct_values. split.
    + intros [a H]. apply in_map_iff in H.
      destruct H as [[tea [t d]] [_ H]].
      apply filter_In in H. destruct H as [H F].
      apply DeathFacts.in_inner_join in H. destruct H as [T [M S]].
      unfold TotalDeaths.same_entity in S. simpl in S.
      destruct t as [t|]; [|discriminate S]. apply String.eqb_eq in S.
      apply DeathFacts.in_measles_events in M.
      destruct M as [e [E [Me [D Tr]]]].
      exists tea, e, d. rewrite S. simpl in F. tauto.
    + intros [tea [e [d [T [F [E [Me [D Tr]]]]]]]].
      exists (entity_id tea). apply in_map_iff.
      exists (tea, (Some (entity_id tea), d)). split; [reflexivity|].
      apply filter_In. split; [|exact F].
      apply DeathFacts.in_inner_join. split; [exact T|]. split.
      * apply DeathFacts.in_measles_events. now exists e.
      * unfold TotalDeaths.same_entity. simpl. apply String.eqb_refl.
Qed.

Lemma total_deaths_counts_flagged_measles_entities_witness :
  TotalDeaths.get_measles_total_deaths (Connected Samples.deaths_under_sentinels)
  <= Sql.count_distinct String.eqb
       (map tracked_entity_instance_id
          (filter is_measles
             (fact_eidsr_event_data Samples.deaths_under_sentinels))).
Proof.
  destruct (total_deaths_counts_flagged_measles_entities
              (Connected Samples.deaths_under_sentinels)) as [_ [_ H]].
  destruct (H Samples.deaths_under_sentinels eq_refl) as [B _].
  exact B.
Defined.

(** X22. [format_table_for_display] raises exactly on a frame that is
    not empty and has a number of columns other than five.  When it
    returns, the rows are those of the argument, an empty frame comes
    back as it is, any other under the five display labels, and
    formatting the result again changes nothing. *)
Theorem display_table_keeps_rows_and_is_idempotent :
  forall (cell : Type) (df : DisplayTable.data_frame cell),
    (DisplayTable.format_table_for_display df = Raised <->
     DisplayTable.empty df = false /\
     List.length (DisplayTable.columns df) <> 5%nat) /\
    (forall out,
       DisplayTable.format_table_for_display df = Returned out ->
       DisplayTable.rows out = DisplayTable.rows df /\
       (DisplayTable.empty df = true -> out = df) /\
       (DisplayTable.empty df = false ->
        DisplayTable.columns out = DisplayTable.display_columns) /\
       DisplayTable.format_table_for_display out = Returned out).
Proof.
  intros cell df. unfold DisplayTable.format_table_for_display.
  destruct (DisplayTable.empty df) eqn:E.
  - split.
    + split; [discriminate | intros [H _]; discriminate H].
    + intros out [= <-]. rewrite E.
      split; [reflexivity|]. split; [reflexivity|].
      split; [discriminate | reflexivity].
  - change (List.length DisplayTable.display_columns) with 5%nat.
    destruct (Nat.eqb (List.length (DisplayTable.columns df)) 5) eqn:L.
    + apply Nat.eqb_eq in L. split.
      * split; [discriminate | intros [_ H]; contradiction].
      * intros out [= <-]. simpl.
        split; [reflexivity|]. split; [discriminate|].
        split; [reflexivity|].
        destruct (DisplayTable.empty
                    (DisplayTable.mkFrame DisplayTable.display_columns
                       (DisplayTable.rows df))); reflexivity.
    + apply Nat.eqb_neq in L. split.
      * split; [intros _; split; [reflexivity | exact L] | reflexivity].
      * discriminate.
Qed.

Lemma display_table_keeps_rows_and_is_idempotent_witness :
  DisplayTable.format_table_for_display
    (DisplayTable.mkFrame ["district"; "total_cases"] [[1; 2]])
  = Raised.
Proof.
  destruct (display_table_keeps_rows_and_is_idempotent Z
              (DisplayTable.mkFrame ["district"; "total_cases"] [[1; 2]]))
    as [[_ H] _].
  apply H. split; [reflexivity | simpl; lia].
Defined.

(* ================================================================== *)
(** * Time period options *)
(* ================================================================== *)

Module PeriodFacts.
Import TimePeriods.

Lemma sorted_map_in {A B : Type} (R : A -> A -> Prop) (Q : B -> B -> Prop)
    (f : A -> B) (l : list A) :
  (forall a b, In a l -> In b l -> R a b -> Q (f a) (f b)) ->
  Sorted.StronglySorted R l -> Sorted.StronglySorted Q (map f l).
Proof.
  induction l as [|x t IH]; intros H S; simpl; [constructor|].
  inversion S as [|y u St Fx]; subst. constructor.
  - apply IH; [|exact St]. intros a b Ha Hb. apply H; now right.
  - apply Forall_forall. intros b Hb. apply in_map_iff in Hb.
    destruct Hb as [a [<- Ha]]. rewrite Forall_forall in Fx.
    apply H; [now left | now right | now apply Fx].
Qed.

Lemma filter_sorted {A : Type} (R : A -> A -> Prop) (f : A -> bool)
    (l : list A) :
  Sorted.StronglySorted R l -> Sorted.StronglySorted R (filter f l).
Proof.
  induction 1 as [|x t St IH Fx]; simpl; [constructor|].
  destruct (f x); [|exact IH]. constructor; [exact IH|].
  apply Forall_forall. intros b Hb. apply filter_In in Hb.
  rewrite Forall_forall in Fx. now apply Fx.
Qed.

Lemma period_key_eqb_spec (a b : Z * Z * string) : key_eqb a b = true <-> a = b.
Proof.
  destruct a as [[a1 a2] a3], b as [[b1 b2] b3]. unfold key_eqb. simpl.
  rewrite !andb_true_iff, !Z.eqb_eq, String.eqb_eq.
  split; [intros [[-> ->] ->]; reflexivity | intros [= -> -> ->]; auto].
Qed.

Lemma latest_first_total (a b : row) :
  latest_first a b = false -> latest_first b a = true.
Proof.
  unfold latest_first.
  rewrite orb_false_iff, andb_false_iff, orb_true_iff, andb_true_iff.
  rewrite !Z.ltb_ge, !Z.ltb_lt, Z.eqb_neq, Z.eqb_eq, Z.leb_gt, Z.leb_le. lia.
Qed.

Lemma latest_first_trans (a b c : row) :
  latest_first a b = true -> latest_first b c = true ->
  latest_first a c = true.
Proof.
  unfold latest_first.
  rewrite !orb_true_iff, !andb_true_iff, !Z.ltb_lt, !Z.eqb_eq, !Z.leb_le. lia.
Qed.

Lemma later_total (a b : Z) : (b <=? a) = false -> (a <=? b) = true.
Proof. rewrite Z.leb_gt, Z.leb_le. lia. Qed.

Lemma later_trans (a b c : Z) :
  (b <=? a) = true -> (c <=? b) = true -> (c <=? a) = true.
Proof. rewrite !Z.leb_le. lia. Qed.

(** What a row of the data frame stands for. *)
Lemma period_row (w : warehouse) (r : row) :
  In r (query w) ->
  month_name r = to_char_month (month r) /\
  1 <= cases r /\
  exists e d, In e (fact_eidsr_event_data w) /\ event_date e = Some d /\
              d_year d = year r /\ d_month d = month r.
Proof.
  unfold query. intros H. apply SqlFacts.in_order_by in H.
  apply in_map_iff in H. destruct H as [[k g] [<- H]]. simpl.
  destruct (RelFacts.group_by_nonempty _ _ _ _ _ period_key_eqb_spec H)
    as [me [Hme K]].
  destruct (RelFacts.group_by_member _ _ _ _ _ _ period_key_eqb_spec H Hme)
    as [Hin _].
  unfold group_key in K. subst k. simpl.
  split; [reflexivity|]. split.
  - apply (RelFacts.count_distinct_positive String.eqb String.eqb_eq _ (fst me)).
    apply in_map_iff. now exists me.
  - unfold dated in Hin. apply in_flat_map in Hin.
    destruct Hin as [[id od] [M Hd]]. simpl in Hd.
    destruct od as [d|]; [|destruct Hd]. destruct Hd as [<-|[]].
    unfold measles_events in M. apply SqlFacts.in_distinct in M.
    apply in_map_iff in M. destruct M as [e [[= _ D] E]].
    apply filter_In in E. exists e, d. simpl. tauto.
Qed.

Lemma query_keys (w : warehouse) :
  NoDup (map (fun r => (year r, month r, month_name r)) (query w)).
Proof.
  unfold query.
  eapply Permutation_NoDup;
    [symmetry; apply Permutation_map, SqlFacts.order_by_perm|].
  rewrite map_map.
  erewrite map_ext;
    [apply (RelFacts.group_by_keys_nodup _ key_eqb), period_key_eqb_spec|].
  intros [[[y m] n] g]. reflexivity.
Qed.

Lemma query_sorted (w : warehouse) :
  Sorted.StronglySorted (fun a b => latest_first a b = true) (query w).
Proof.
  apply RelFacts.order_by_is_sorted;
    [exact latest_first_total | exact latest_first_trans].
Qed.

Lemma sorted_years_descending (df : list row) :
  Sorted.StronglySorted Z.gt (sorted_years df).
Proof.
  unfold sorted_years.
  rewrite <- (map_id (Sql.order_by _ _)).
  apply (sorted_map_in (fun a b => (b <=? a) = true /\ a <> b)).
  - intros a b _ _ [L D]. apply Z.leb_le in L. lia.
  - rewrite <- (map_id (Sql.order_by _ _)) at 1.
    rewrite map_id.
    apply (RelFacts.sorted_strict _ (fun x : Z => x)).
    + apply RelFacts.order_by_is_sorted; [exact later_total | exact later_trans].
    + rewrite map_id.
      eapply Permutation_NoDup; [symmetry; apply SqlFacts.order_by_perm|].
      apply RelFacts.distinct_nodup, Z.eqb_eq.
Qed.

Lemma in_sorted_years (df : list row) (y : Z) :
  In y (sorted_years df) -> exists r, In r df /\ year r = y.
Proof.
  unfold sorted_years. intros H. apply SqlFacts.in_order_by in H.
  apply SqlFacts.in_distinct in H. apply in_map_iff in H.
  destruct H as [r [E R]]. now exists r.
Qed.

(** The display text of a month of the year asks for that month. *)
Lemma month_name_round_trip (k y : Z) :
  1 <= k <= 12 -> y <> 0 ->
  Filters.build_date_conditions (Some y)
    (Some (strip (to_char_month k) ++ " " ++ Filters.str y))
  = Returned [Filters.YearIs y; Filters.MonthIs k].
Proof.
  intros K NZ. unfold Filters.build_date_conditions, Filters.truthy_int.
  apply Z.eqb_neq in NZ. rewrite NZ.
  assert (C : k = 1 \/ k = 2 \/ k = 3 \/ k = 4 \/ k = 5 \/ k = 6 \/ k = 7 \/
              k = 8 \/ k = 9 \/ k = 10 \/ k = 11 \/ k = 12) by lia.
  repeat (destruct C as [->|C]; [reflexivity|]). subst k. reflexivity.
Qed.

End PeriodFacts.

(** X23. When every event date has a month from 1 to 12, the options
    list the years strictly descending, and under every year, in the
    order of the years, a list that is never empty, of months strictly
    descending, each from 1 to 12.  The display text of every month,
    handed to the fetchers with its year (other than 0), asks for that
    year and that month; so does the entry the function falls back to.
    An entry read from the warehouse counts one case at least. *)
Theorem time_period_options_name_their_months :
  forall (eng : engine) (current_year : Z),
    (forall w e d, eng = Connected w ->
       In e (fact_eidsr_event_data w) -> event_date e = Some d ->
       1 <= d_month d <= 12) ->
    let o := TimePeriods.get_time_period_options eng current_year in
    Sorted.StronglySorted Z.gt (TimePeriods.years o) /\
    map fst (TimePeriods.months_data o) = TimePeriods.years o /\
    (forall y ms, In (y, ms) (TimePeriods.months_data o) ->
       ms <> [] /\
       Sorted.StronglySorted Z.gt (map TimePeriods.o_month ms) /\
       (forall m, In m ms ->
          1 <= TimePeriods.o_month m <= 12 /\
          (y <> 0 ->
           Filters.build_date_conditions (Some y)
             (Some (TimePeriods.o_display m))
           = Returned [Filters.YearIs y;
                       Filters.MonthIs (TimePeriods.o_month m)]) /\
          (eng <> Unreachable -> 1 <= TimePeriods.o_cases m))).
Proof.
  intros eng current_year V o. subst o.
  destruct eng as [w|].
  - change (TimePeriods.get_time_period_options (Connected w) current_year)
      with (TimePeriods.mkOptions
              (TimePeriods.sorted_years (TimePeriods.query w))
              (map (fun y =>
                      (y, map (TimePeriods.month_entry y)
                            (filter (fun r => TimePeriods.year r =? y)
                               (TimePeriods.query w))))
                 (TimePeriods.sorted_years (TimePeriods.query w)))).
    simpl TimePeriods.years. simpl TimePeriods.months_data.
    split; [apply PeriodFacts.sorted_years_descending|].
    split; [rewrite map_map; apply map_id|].
    intros y ms H. apply in_map_iff in H. destruct H as [y' [[= -> <-] Y]].
    assert (R : forall r,
              In r (filter (fun r => TimePeriods.year r =? y)
                      (TimePeriods.query w)) ->
              TimePeriods.year r = y /\
              TimePeriods.month_name r
              = TimePeriods.to_char_month (TimePeriods.month r) /\
              1 <= TimePeriods.cases r /\
              1 <= TimePeriods.month r <= 12).
    { intros r Hr. apply filter_In in Hr. destruct Hr as [Hr E].
      apply Z.eqb_eq in E.
      destruct (PeriodFacts.period_row w r Hr) as [N [C [e [d [He [D [_ M]]]]]]].
      split; [exact E|]. split; [exact N|]. split; [exact C|].
      rewrite <- M. exact (V w e d eq_refl He D). }
    split; [|split].
    + apply PeriodFacts.in_sorted_years in Y. destruct Y as [r [Hr E]].
      intros N. apply map_eq_nil in N.
      assert (In r (filter (fun r => TimePeriods.year r =? y)
                      (TimePeriods.query w))) as F
        by (apply filter_In; split; [exact Hr | now apply Z.eqb_eq]).
      rewrite N in F. destruct F.
    + rewrite map_map. simpl.
      apply (PeriodFacts.sorted_map_in
               (fun a b => TimePeriods.latest_first a b = true /\
                           (TimePeriods.year a, TimePeriods.month a,
                            TimePeriods.month_name a)
                           <> (TimePeriods.year b, TimePeriods.month b,
                               TimePeriods.month_name b))).
      * intros a b Ha Hb [L D].
        destruct (R a Ha) as [Ya [Na _]]. destruct (R b Hb) as [Yb [Nb _]].
        unfold TimePeriods.latest_first in L.
        rewrite orb_true_iff, andb_true_iff, Z.ltb_lt, Z.eqb_eq, Z.leb_le in L.
        assert (TimePeriods.month a <> TimePeriods.month b).
        { intros E. apply D. rewrite Na, Nb, Ya, Yb, E. reflexivity. }
        lia.
      * apply RelFacts.sorted_strict.
        -- apply PeriodFacts.filter_sorted, PeriodFacts.query_sorted.
        -- apply DistrictShape.nodup_map_filter, PeriodFacts.query_keys.
    + intros m Hm. apply in_map_iff in Hm. destruct Hm as [r [<- Hr]].
      destruct (R r Hr) as [_ [N [C M]]].
      unfold TimePeriods.month_entry. simpl.
      split; [exact M|]. split; [|intros _; exact C].
      intros NZ. rewrite N.
      now apply PeriodFacts.month_name_round_trip.
  - simpl TimePeriods.years. simpl TimePeriods.months_data.
    split; [repeat constructor|]. split; [reflexivity|].
    intros y ms [[= <- <-]|[]].
    split; [discriminate|]. split; [repeat constructor|].
    intros m [<-|[]]. simpl.
    split; [lia|]. split; [|intros N; now destruct N].
    intros NZ. unfold Filters.build_date_conditions, Filters.truthy_int.
    apply Z.eqb_neq in NZ. rewrite NZ. reflexivity.
Qed.

Lemma time_period_options_name_their_months_witness :
  let o := TimePeriods.get_time_period_options
             (Connected Samples.january_and_march) 2026 in
  Sorted.StronglySorted Z.gt (TimePeriods.years o) /\
  map fst (TimePeriods.months_data o) = TimePeriods.years o /\
  TimePeriods.years o <> [].
Proof.
  intros o.
  destruct (time_period_options_name_their_months
              (Connected Samples.january_and_march) 2026) as [S [M _]].
  - intros w e d [= <-] He D. simpl in He.
    repeat (destruct He as [<-|He];
            [simpl in D; injection D as <-; simpl; lia|]).
    destruct He.
  - split; [exact S|]. split; [exact M|]. vm_compute. discriminate.
Defined.

(* ================================================================== *)
(** * District reporting metrics *)
(* ================================================================== *)

Module MetricsFacts.
Import ReportingMetrics.

Lemma event_eqb_spec (a b : string * date * Z) :
  TotalProportions.me_eqb a b = true <-> a = b.
Proof.
  destruct a as [[a1 a2] a3], b as [[b1 b2] b3].
  unfold TotalProportions.me_eqb. simpl.
  rewrite !andb_true_iff, String.eqb_eq, DeathFacts.date_eqb_spec, Z.eqb_eq.
  split; [intros [[-> ->] ->]; reflexivity | intros [= -> -> ->]; auto].
Qed.

(** Conditions only take events away. *)
Lemma measles_events_incl (w : warehouse) (cs : list Filters.date_condition) :
  incl (TotalProportions.measles_events w cs)
       (TotalProportions.measles_events w []).
Proof.
  intros x H. unfold TotalProportions.measles_events in *.
  apply -> (RelFacts.distinct_in _ event_eqb_spec) in H.
  apply <- (RelFacts.distinct_in _ event_eqb_spec).
  apply in_flat_map in H. destruct H as [e [E H]].
  apply in_flat_map. exists e. split; [exact E|].
  destruct (event_date e) as [d|]; [|destruct H].
  destruct (is_measles e); [|destruct H]. simpl in *.
  destruct (Filters.date_filter (now w) cs (Some d)); [exact H | destruct H].
Qed.

Lemma with_cases_nodup (w : warehouse) (loc : Filters.location_filter)
    (cs : list Filters.date_condition) :
  NoDup (districts_with_cases_cte w loc cs).
Proof. apply RelFacts.distinct_nodup, String.eqb_eq. Qed.

Lemma in_with_cases (w : warehouse) (loc : Filters.location_filter)
    (cs : list Filters.date_condition) (n : string) :
  In n (districts_with_cases_cte w loc cs) <->
  exists me doh,
    In me (TotalProportions.measles_events w cs) /\
    In doh (dim_eidsr_org_hierarchy w) /\
    snd me = org_key doh /\ district_name doh = Some n /\
    Filters.location_holds loc doh = true.
Proof.
  unfold districts_with_cases_cte.
  rewrite (RelFacts.distinct_in _ String.eqb_eq), in_flat_map. split.
  - intros [[me doh] [J H]]. apply DeathFacts.in_inner_join in J.
    destruct J as [M [D O]]. apply Z.eqb_eq in O. simpl in H.
    destruct (dwh.district_name doh) as [m|] eqn:N; [|destruct H].
    destruct (Filters.location_holds loc doh) eqn:L; [|destruct H].
    destruct H as [<-|[]]. exists me, doh. auto.
  - intros [me [doh [M [D [O [N L]]]]]]. exists (me, doh). split.
    + apply DeathFacts.in_inner_join. split; [exact M|]. split; [exact D|].
      now apply Z.eqb_eq.
    + simpl. rewrite N, L. now left.
Qed.

Lemma with_cases_incl (w : warehouse) (loc : Filters.location_filter)
    (cs : list Filters.date_condition) :
  incl (districts_with_cases_cte w loc cs)
       (districts_with_cases_cte w loc []).
Proof.
  intros n H. apply in_with_cases in H. apply in_with_cases.
  destruct H as [me [doh [M H]]]. exists me, doh.
  split; [now apply (measles_events_incl w cs)|exact H].
Qed.

Lemma with_cases_among_all (w : warehouse) (loc : Filters.location_filter)
    (cs : list Filters.date_condition) :
  incl (districts_with_cases_cte w loc cs)
       (all_districts w loc ++ ["Unknown"; "1 Test District"]).
Proof.
  intros n H. apply in_with_cases in H.
  destruct H as [me [doh [_ [D [_ [N L]]]]]].
  apply in_or_app.
  destruct (String.eqb n "Unknown") eqn:E1;
    [apply String.eqb_eq in E1; right; simpl; auto|].
  destruct (String.eqb n "1 Test District") eqn:E2;
    [apply String.eqb_eq in E2; right; simpl; auto|].
  left. unfold all_districts.
  apply <- (RelFacts.distinct_in _ String.eqb_eq). apply in_flat_map.
  exists doh. split; [exact D|].
  unfold TotalProportions.reportable. rewrite N, E1, E2, L. now left.
Qed.

Lemma query_bounds (w : warehouse) (loc : Filters.location_filter)
    (cs : list Filters.date_condition) :
  0 <= districts_with_cases (query w loc cs)
    <= total_districts (query w loc cs) + 2 /\
  districts_with_cases (query w loc cs)
  <= districts_with_cases (query w loc []) /\
  total_districts (query w loc cs) = total_districts (query w loc []).
Proof.
  unfold query. simpl.
  pose proof (NoDup_incl_length (with_cases_nodup w loc cs)
                (with_cases_among_all w loc cs)) as A.
  pose proof (NoDup_incl_length (with_cases_nodup w loc cs)
                (with_cases_incl w loc cs)) as B.
  rewrite length_app in A. simpl in A. lia.
Qed.

End MetricsFacts.

(** X24. The reporting metrics give one number three times: the
    districts reporting recently and in the last 24 hours always equal
    the districts with cases.  That number is at most two above the
    total of districts, the two being the names ['Unknown'] and
    ['1 Test District'] that only the total leaves out, and it is never
    larger than what the same call without year, month, days and hours
    gives.  A [days_filter] other than 0 makes the [hours_filter]
    irrelevant. *)
Theorem reporting_metrics_repeat_one_count :
  forall (eng : engine) (location : option string) (year : option Z)
         (month : option string) (days_filter hours_filter : option Z),
    let m := ReportingMetrics.get_district_reporting_metrics eng location
               year month days_filter hours_filter in
    ReportingMetrics.districts_reporting_recent m
    = ReportingMetrics.districts_with_cases m /\
    ReportingMetrics.districts_reporting_24h m
    = ReportingMetrics.districts_with_cases m /\
    0 <= ReportingMetrics.districts_with_cases m
      <= ReportingMetrics.total_districts m + 2 /\
    ReportingMetrics.districts_with_cases m
    <= ReportingMetrics.districts_with_cases
         (ReportingMetrics.get_district_reporting_metrics eng location
            None None None None) /\
    (Filters.truthy_int days_filter <> None ->
     m = ReportingMetrics.get_district_reporting_metrics eng location
           year month days_filter None).
Proof.
  intros eng location year month days_filter hours_filter m. subst m.
  unfold ReportingMetrics.get_district_reporting_metrics,
    ReportingMetrics.fetch.
  destruct eng as [w|].
  2:{ simpl. repeat split; try reflexivity; lia. }
  unfold connect, bind at 1 4 7 10 13 16 19 22.
  change (Filters.build_date_conditions None None) with
    (@Returned (list Filters.date_condition) []).
  assert (D : ReportingMetrics.recent_conditions days_filter hours_filter
              = ReportingMetrics.recent_conditions days_filter None
              \/ Filters.truthy_int days_filter = None).
  { unfold ReportingMetrics.recent_conditions.
    destruct (Filters.truthy_int days_filter); [now left | now right]. }
  destruct (Filters.build_date_conditions year month) as [cs|].
  - unfold bind, try_except.
    change (([] ++ ReportingMetrics.recent_conditions None None)%list)
      with (@nil Filters.date_condition).
    set (loc := Filters.build_location_filter location).
    destruct (MetricsFacts.query_bounds w loc
                (cs ++ ReportingMetrics.recent_conditions days_filter
                         hours_filter)) as [A [B _]].
    split; [reflexivity|]. split; [reflexivity|].
    split; [exact A|]. split; [exact B|].
    intros N. destruct D as [D|D]; [now rewrite D | contradiction].
  - unfold bind, try_except.
    split; [reflexivity|]. split; [reflexivity|].
    split; [simpl; lia|]. split; [|reflexivity].
    simpl. lia.
Qed.

Lemma reporting_metrics_repeat_one_count_witness :
  ReportingMetrics.get_district_reporting_metrics
    (Connected Samples.january_and_march) None (Some 2024) None
    (Some 21) (Some 24)
  = ReportingMetrics.get_district_reporting_metrics
      (Connected Samples.january_and_march) None (Some 2024) None
      (Some 21) None.
Proof.
  destruct (reporting_metrics_repeat_one_count
              (Connected Samples.january_and_march) None (Some 2024) None
              (Some 21) (Some 24)) as [_ [_ [_ [_ H]]]].
  apply H. discriminate.
Defined.
